(** * cast-manager: the event emitter and the Cast session adapter

    A shallow embedding of [src/CastManager.ts] (with the enumerations of
    [src/types.ts]) and the properties of it that the specification states.

    Modelling conventions.
    - A JavaScript function value is a reference ([FunctionRef]); two
      references are the same function exactly when they are equal.
    - [Set<Function>] is an insertion-ordered sequence without duplicates
      ([JsSet.t]); [Map<string, Set<Function>>] is a finite map over strings.
    - What a call of a listener does is given by a function table
      [call : FunctionRef -> Data -> option Exn]: [None] is a normal return,
      [Some x] is the exception [x] thrown by the listener.  Listeners are
      taken not to call back into the emitter they are registered on (none
      of the listeners of this repository does); the module [Live] is the
      emitter with listeners that do.
    - The Cast SDK, the browser and [JSON.parse] are not part of the
      repository: every answer they give is read from an environment
      record or a parameter, and every call into them is recorded in a
      trace of effects. *)

From stdpp Require Import gmap strings list.

Open Scope string_scope.
Open Scope list_scope.

(** ** Values thrown and completions *)

(** A thrown JavaScript value: [new Error(message)], the [TypeError] of a
    property access on [null], or a value thrown by foreign code (a listener,
    the SDK, [JSON.parse]) that the adapter never inspects. *)
Inductive Exn : Type :=
| JsError (message : string)
| JsTypeError
| JsSyntaxError
| Foreign (tag : nat).

#[global] Instance Exn_eq_dec : EqDecision Exn.
Proof. solve_decision. Defined.

(** How a call ends. *)
Inductive Completion (A : Type) : Type :=
| Normal (a : A)      (* returned, or the promise was fulfilled *)
| Thrown (e : Exn)    (* threw, or the promise was rejected *)
| Suspended           (* awaits something that never happens *)
| OutOfFuel.          (* the loop bound of the model was reached *)
Arguments Normal {A} a.
Arguments Thrown {A} e.
Arguments Suspended {A}.
Arguments OutOfFuel {A}.

(** A function reference. *)
Definition FunctionRef : Type := nat.

(** ** [Set<Function>] *)

Module JsSet.

(** Elements in insertion order, never twice. *)
Record t : Type := Make {
  elements : list FunctionRef;
  wf : bool_decide (NoDup elements)
}.

Lemma eq_of_elements (s1 s2 : t) : elements s1 = elements s2 -> s1 = s2.
Proof.
  destruct s1 as [l1 w1], s2 as [l2 w2]; simpl; intros ->.
  f_equal. apply proof_irrel.
Qed.

Lemma elements_NoDup (s : t) : NoDup (elements s).
Proof. exact (bool_decide_unpack _ (wf s)). Qed.

(** [new Set()] *)
Definition empty : t := Make [] I.

(** The sequence after [add]: unchanged when the value is present,
    extended at the end otherwise. *)
Definition add_list (f : FunctionRef) (l : list FunctionRef) : list FunctionRef :=
  if decide (f ∈ l) then l else l ++ [f].

(** The sequence after [delete]. *)
Definition delete_list (f : FunctionRef) (l : list FunctionRef) : list FunctionRef :=
  filter (fun g => g ≠ f) l.

Lemma add_list_NoDup f l : NoDup l -> NoDup (add_list f l).
Proof.
  intros H. unfold add_list. case_decide; [done|].
  apply NoDup_app. split_and!; [done| |apply NoDup_singleton].
  intros x Hx Hx'. apply list_elem_of_singleton in Hx'. by subst.
Qed.

Lemma delete_list_NoDup f l : NoDup l -> NoDup (delete_list f l).
Proof. apply NoDup_filter. Qed.

(** [s.add(f)] *)
Definition add (f : FunctionRef) (s : t) : t :=
  Make (add_list f (elements s))
       (bool_decide_pack _ (add_list_NoDup f _ (elements_NoDup s))).

(** [s.delete(f)] *)
Definition delete (f : FunctionRef) (s : t) : t :=
  Make (delete_list f (elements s))
       (bool_decide_pack _ (delete_list_NoDup f _ (elements_NoDup s))).

(** [s.forEach(g => g(data))], given what calling each element does:
    elements are called in insertion order; an exception thrown by a
    call ends the iteration and is the exception of [forEach].  The
    result is the sequence of elements that were called and the
    exception, if any. *)
Fixpoint forEach_list (call : FunctionRef -> option Exn) (l : list FunctionRef)
  : list FunctionRef * option Exn :=
  match l with
  | [] => ([], None)
  | f :: rest =>
      match call f with
      | Some x => ([f], Some x)
      | None => let r := forEach_list call rest in (f :: r.1, r.2)
      end
  end.

Definition forEach (call : FunctionRef -> option Exn) (s : t)
  : list FunctionRef * option Exn :=
  forEach_list call (elements s).

End JsSet.

(** ** [class EventEmitter] *)

Module EventEmitter.

(** The only field: [private listeners: Map<string, Set<Function>>]. *)
Abbreviation t := (gmap string JsSet.t).

(** [= new Map()] *)
Definition create : t := ∅.

(** [on(event, listener)] *)
Definition on (event : string) (listener : FunctionRef) (this : t) : t :=
  let this' :=
    match this !! event with
    | None => <[event := JsSet.empty]> this
    | Some _ => this
    end in
  match this' !! event with
  | Some s => <[event := JsSet.add listener s]> this'
  | None => this'
  end.

(** [off(event, listener)] *)
Definition off (event : string) (listener : FunctionRef) (this : t) : t :=
  match this !! event with
  | Some eventListeners => <[event := JsSet.delete listener eventListeners]> this
  | None => this
  end.

(** [removeAllListeners(event?)]: the test [if (event)] is false for a
    missing argument and for the empty string. *)
Definition removeAllListeners (event : option string) (this : t) : t :=
  match event with
  | Some e => if decide (e = "") then ∅ else delete e this
  | None => ∅
  end.

(** The listeners registered under an event, in registration order. *)
Definition registered (event : string) (this : t) : list FunctionRef :=
  match this !! event with
  | Some s => JsSet.elements s
  | None => []
  end.

Section Emit.
Context {Data : Type}.
(** What calling a listener on a payload does. *)
Variable call : FunctionRef -> Data -> option Exn.

(** [emit(event, data)]: the listeners called, in order, and the
    exception that left [emit], if any. *)
Definition emit (event : string) (data : Data) (this : t)
  : list FunctionRef * option Exn :=
  match this !! event with
  | Some eventListeners => JsSet.forEach (fun f => call f data) eventListeners
  | None => ([], None)
  end.

(** A sequence of publishes of one event, each with its own payload;
    every listener call made, in order. *)
Definition emit_all (event : string) (payloads : list Data) (this : t)
  : list FunctionRef :=
  flat_map (fun d => (emit event d this).1) payloads.
End Emit.

End EventEmitter.

(** ** [src/types.ts] *)

Inductive CastState : Type :=
| NO_DEVICES_AVAILABLE | NOT_CONNECTED | CONNECTING | CONNECTED.

Inductive SessionState : Type :=
| NO_SESSION | SESSION_STARTING | SESSION_STARTED | SESSION_START_FAILED
| SESSION_ENDING | SESSION_ENDED | SESSION_RESUMED.

Inductive CastEventType : Type :=
| CAST_STATE_CHANGED | SESSION_STATE_CHANGED | MESSAGE_RECEIVED.

(** The string value of each member of [enum CastEventType]. *)
Definition event_name (ty : CastEventType) : string :=
  match ty with
  | CAST_STATE_CHANGED => "castStateChanged"
  | SESSION_STATE_CHANGED => "sessionStateChanged"
  | MESSAGE_RECEIVED => "messageReceived"
  end.

#[global] Instance CastState_eq_dec : EqDecision CastState.
Proof. solve_decision. Defined.
#[global] Instance SessionState_eq_dec : EqDecision SessionState.
Proof. solve_decision. Defined.

(** [interface CastManagerConfig]: the two optional members may be missing. *)
Record CastManagerConfig : Type := {
  receiverApplicationId : string;
  autoInitialize : option bool;
  namespace : option string
}.

(** [Required<CastManagerConfig>], the type of the adapter's [config] field. *)
Module Required.
Record CastManagerConfig : Type := {
  receiverApplicationId : string;
  autoInitialize : bool;
  namespace : string
}.
End Required.

(** ** What lies outside the repository *)

(** A reference to a session object of the SDK. *)
Definition CastSession : Type := nat.

(** [cast.framework.CastContext.getInstance()]: the SDK's one context. *)
Inductive CastContext : Type := castContext.

(** The two event types of [cast.framework.CastContextEventType] that the
    adapter listens to. *)
Inductive CastContextEventType : Type :=
| Native_CAST_STATE_CHANGED | Native_SESSION_STATE_CHANGED.

(** The browser during one run of the bootstrap: whether
    [window.cast?.framework] is there when it starts, whether the injected
    script loads, whether [__onGCastApiAvailable] is ever called with
    [true], and whether [window.cast?.framework] is there once [n] polling
    delays have elapsed.  Reads with no [await] between them see the same
    value. *)
Record Browser : Type := {
  framework_present : bool;
  script_loads : bool;
  api_available : bool;
  framework_after : nat -> bool
}.

Module CastManager.
Section WithEnvironment.

(** A JavaScript value travelling as a message ([any] in the source). *)
Context {Value : Type}.
(** [JSON.parse]: [None] when it throws. *)
Variable JSON_parse : string -> option Value.

(** The three shapes of event record handed to listeners. *)
Inductive EventData : Type :=
  | CastStateChangeEvent (castState : CastState)
  | SessionStateChangeEvent (sessionState : SessionState) (session : option CastSession)
  | MessageReceivedEvent (namespace : string) (message : Value).

(** What calling each listener on each event record does. *)
Variable call : FunctionRef -> EventData -> option Exn.

(** The answers of the SDK at the time of one operation of the adapter. *)
Record Sdk : Type := {
  getCurrentSession : option CastSession;
  getCastState : CastState;
  addMessageListener_throws : CastSession -> string -> option Exn;
  sendMessage_rejects : CastSession -> string -> Value -> option Exn;
  requestSession_rejects : option Exn;
  endCurrentSession_rejects : option Exn
}.

(** The second argument a native message callback receives: the source
    tests [typeof message === "string"]. *)
Inductive Inbound : Type :=
  | InString (s : string)
  | InOther (v : Value).

(** Everything an operation does that is visible outside the adapter's
    fields, in order. *)
Inductive Effect : Type :=
  | AppendScript (src : string)
  | SetTimeout (ms : nat)
  | CastContext_getInstance
  | Context_setOptions (receiverApplicationId : string)
  | Context_getCurrentSession
  | Context_getCastState
  | Context_addEventListener (type : CastContextEventType)
  | Context_requestSession
  | Context_endCurrentSession (stopCasting : bool)
  | Session_addMessageListener (s : CastSession) (namespace : string)
  | Session_sendMessage (s : CastSession) (namespace : string) (message : Value)
  | Console_error (label : string) (error : Exn)
  | Emit (event : string) (data : EventData)
  | Call (listener : FunctionRef) (data : EventData).

(** Calls into the SDK's context or one of its sessions. *)
Definition is_sdk_call (e : Effect) : bool :=
  match e with
  | CastContext_getInstance | Context_setOptions _ | Context_getCurrentSession
  | Context_getCastState | Context_addEventListener _ | Context_requestSession
  | Context_endCurrentSession _ | Session_addMessageListener _ _
  | Session_sendMessage _ _ _ => true
  | AppendScript _ | SetTimeout _ | Console_error _ _ | Emit _ _ | Call _ _ => false
  end.

(** The events published, with their payloads. *)
Definition published (tr : list Effect) : list (string * EventData) :=
  omap (fun e => match e with Emit ev d => Some (ev, d) | _ => None end) tr.

(** The fields of a [CastManager] object; [listeners] is inherited from
    [EventEmitter]. *)
Record t : Type := {
  listeners : EventEmitter.t;
  context : option CastContext;
  session : option CastSession;
  initialized : bool;
  config : Required.CastManagerConfig
}.

Definition set_listeners (v : EventEmitter.t) (this : t) : t :=
  {| listeners := v; context := context this; session := session this;
     initialized := initialized this; config := config this |}.
Definition set_context (v : option CastContext) (this : t) : t :=
  {| listeners := listeners this; context := v; session := session this;
     initialized := initialized this; config := config this |}.
Definition set_session (v : option CastSession) (this : t) : t :=
  {| listeners := listeners this; context := context this; session := v;
     initialized := initialized this; config := config this |}.
Definition set_initialized (v : bool) (this : t) : t :=
  {| listeners := listeners this; context := context this; session := session this;
     initialized := v; config := config this |}.

(** *** Running a method

    A method body runs on the object's fields and ends in one of the
    four ways of [Completion]; it leaves the (possibly changed) fields
    and a trace. *)
Record Run (A : Type) : Type := MkRun {
  result : Completion A;
  final : t;
  trace : list Effect
}.
Arguments MkRun {A}.
Arguments result {A}.
Arguments final {A}.
Arguments trace {A}.

Definition M (A : Type) : Type := t -> Run A.

Definition ret {A} (a : A) : M A := fun this => MkRun (Normal a) this [].

Definition bind {A B} (m : M A) (k : A -> M B) : M B := fun this =>
  let r := m this in
  match result r with
  | Normal a =>
      let r' := k a (final r) in
      MkRun (result r') (final r') (trace r ++ trace r')
  | Thrown e => MkRun (Thrown e) (final r) (trace r)
  | Suspended => MkRun Suspended (final r) (trace r)
  | OutOfFuel => MkRun OutOfFuel (final r) (trace r)
  end.

Definition throw {A} (e : Exn) : M A := fun this => MkRun (Thrown e) this [].
Definition suspend {A} : M A := fun this => MkRun Suspended this [].
Definition out_of_fuel {A} : M A := fun this => MkRun OutOfFuel this [].
Definition tell (es : list Effect) : M unit := fun this => MkRun (Normal tt) this es.
Definition get : M t := fun this => MkRun (Normal this) this [].
Definition modify (f : t -> t) : M unit :=
  fun this => MkRun (Normal tt) (f this) [].

(** [try { m } catch (error) { handler error }] *)
Definition try_catch {A} (m : M A) (handler : Exn -> M A) : M A := fun this =>
  let r := m this in
  match result r with
  | Thrown e =>
      let r' := handler e (final r) in
      MkRun (result r') (final r') (trace r ++ trace r')
  | _ => r
  end.

(** A call into foreign code that throws (or rejects) with [x] when the
    environment says [Some x]. *)
Definition foreign (answer : option Exn) : M unit :=
  match answer with
  | Some x => throw x
  | None => ret tt
  end.

Notation "x <- m ;; k" := (bind m (fun x => k))
  (at level 100, m at next level, right associativity).
Notation "m ;; k" := (bind m (fun _ => k))
  (at level 100, right associativity).


(** *** The methods of [class CastManager] *)

(** [constructor(config)]: the fields of the new object.  When
    [autoInitialize] is set the constructor also starts [initialize()],
    which touches no field before its first [await] and runs on later
    (see [constructor_starts_initialize]). *)
Definition constructor (config : CastManagerConfig) : t :=
  {| listeners := EventEmitter.create;
     context := None;
     session := None;
     initialized := false;
     config :=
       {| Required.receiverApplicationId := receiverApplicationId config;
          Required.autoInitialize := default false (autoInitialize config);
          Required.namespace := default "urn:x-cast:com.custom" (namespace config) |} |}.

Definition constructor_starts_initialize (c : CastManagerConfig) : bool :=
  Required.autoInitialize (config (constructor c)).

(** [this.emit(type, data)]: the inherited [emit], with the publish and
    each listener call put on the trace; an exception of a listener
    leaves [emit]. *)
Definition emit (type : CastEventType) (data : EventData) : M unit :=
  this <- get;;
  let r := EventEmitter.emit call (event_name type) data (listeners this) in
  tell (Emit (event_name type) data :: map (fun f => Call f data) r.1);;
  foreign r.2.

Definition script_src : string :=
  "//www.gstatic.com/cv/js/sender/v1/cast_sender.js?loadCastFramework=1".

(** The loop of [waitForCastFramework]:
    [while (!window.cast?.framework && attempts < 20) { await delay(100); attempts++ }],
    run for at most [fuel] evaluations of its condition; the result is
    the value of [attempts] when the loop is left. *)
Fixpoint waitForCastFramework_loop (browser : Browser) (fuel attempts : nat) : M nat :=
  match fuel with
  | 0 => out_of_fuel
  | S fuel' =>
      if negb (framework_after browser attempts) && bool_decide (attempts < 20)
      then tell [SetTimeout 100];;
           waitForCastFramework_loop browser fuel' (S attempts)
      else ret attempts
  end.

(** [waitForCastFramework()] *)
Definition waitForCastFramework (browser : Browser) (fuel : nat) : M unit :=
  attempts <- waitForCastFramework_loop browser fuel 0;;
  if negb (framework_after browser attempts)
  then throw (JsError "Cast framework failed to initialize.")
  else ret tt.

(** Evaluations of the loop condition that [initialize] allows; 21 are
    enough, whatever the browser does (see [waitForCastFramework_total]). *)
Definition poll_fuel : nat := 21.

(** [loadCastFramework()] *)
Definition loadCastFramework (browser : Browser) : M unit :=
  if framework_present browser then ret tt
  else
    tell [AppendScript script_src];;
    (if script_loads browser then ret tt
     else throw (JsError "Failed to load Cast SDK"));;
    (if api_available browser then ret tt else suspend);;
    waitForCastFramework browser poll_fuel.

(** [setupMessageListener()]; the callback it installs is
    [on_native_message]. *)
Definition setupMessageListener (sdk : Sdk) : M unit :=
  this <- get;;
  match session this with
  | None => ret tt
  | Some s =>
      try_catch
        (tell [Session_addMessageListener s (Required.namespace (config this))];;
         foreign (addMessageListener_throws sdk s (Required.namespace (config this))))
        (fun error => tell [Console_error "Failed to add message listener:" error])
  end.

(** The callback that [setupMessageListener] passes to
    [addMessageListener]: [(namespace, message) => { try { ... } catch ... }]. *)
Definition on_native_message (namespace : string) (message : Inbound) : M unit :=
  try_catch
    (parsedMessage <-
       match message with
       | InString s =>
           match JSON_parse s with
           | Some v => ret v
           | None => throw JsSyntaxError
           end
       | InOther v => ret v
       end;;
     emit MESSAGE_RECEIVED (MessageReceivedEvent namespace parsedMessage))
    (fun error => tell [Console_error "Failed to parse receiver message:" error]).

(** The listener [initialize] adds for the context's
    [CAST_STATE_CHANGED]: [event.castState] is republished. *)
Definition on_native_cast_state (castState : CastState) : M unit :=
  emit CAST_STATE_CHANGED (CastStateChangeEvent castState).

(** The listener [initialize] adds for the context's
    [SESSION_STATE_CHANGED].  [this.context.getCurrentSession()] is a
    property access on [this.context]: a [TypeError] when it is [null]. *)
Definition on_native_session_state (sdk : Sdk) (sessionState : SessionState) : M unit :=
  (if bool_decide (sessionState = SESSION_STARTED)
      || bool_decide (sessionState = SESSION_RESUMED)
   then
     this <- get;;
     match context this with
     | None => throw JsTypeError
     | Some _ =>
         tell [Context_getCurrentSession];;
         modify (set_session (getCurrentSession sdk));;
         setupMessageListener sdk
     end
   else if bool_decide (sessionState = SESSION_ENDED)
   then modify (set_session None)
   else ret tt);;
  this <- get;;
  emit SESSION_STATE_CHANGED (SessionStateChangeEvent sessionState (session this)).

(** [initialize()] *)
Definition initialize (browser : Browser) (sdk : Sdk) : M unit :=
  this <- get;;
  if initialized this then ret tt
  else
    loadCastFramework browser;;
    tell [CastContext_getInstance];;
    modify (set_context (Some castContext));;
    tell [Context_setOptions (Required.receiverApplicationId (config this))];;
    tell [Context_getCurrentSession];;
    modify (set_session (getCurrentSession sdk));;
    tell [Context_getCastState];;
    emit CAST_STATE_CHANGED (CastStateChangeEvent (getCastState sdk));;
    tell [Context_addEventListener Native_CAST_STATE_CHANGED];;
    tell [Context_addEventListener Native_SESSION_STATE_CHANGED];;
    this <- get;;
    match session this with
    | Some _ => setupMessageListener sdk
    | None => ret tt
    end;;
    modify (set_initialized true).

(** [sendMessage(message)]; [this.context?.getCurrentSession()] is
    [undefined], with no call made, when [this.context] is [null]. *)
Definition sendMessage (sdk : Sdk) (message : Value) : M unit :=
  this <- get;;
  match session this with
  | Some _ => ret tt
  | None =>
      match context this with
      | Some _ =>
          tell [Context_getCurrentSession];;
          modify (set_session (getCurrentSession sdk))
      | None => modify (set_session None)
      end
  end;;
  this <- get;;
  match session this with
  | None => throw (JsError "No Cast session available")
  | Some s =>
      try_catch
        (tell [Session_sendMessage s (Required.namespace (config this)) message];;
         foreign (sendMessage_rejects sdk s (Required.namespace (config this)) message))
        (fun error =>
           tell [Console_error "Error sending message:" error];;
           throw error)
  end.

(** [requestSession()] *)
Definition requestSession (sdk : Sdk) : M unit :=
  this <- get;;
  if negb (initialized this)
  then throw (JsError "CastManager not initialized. Call initialize() first.")
  else
    try_catch
      (match context this with
       | None => throw JsTypeError
       | Some _ =>
           tell [Context_requestSession];;
           foreign (requestSession_rejects sdk)
       end)
      (fun error =>
         tell [Console_error "Failed to request session:" error];;
         throw error).

(** [endSession()] *)
Definition endSession (sdk : Sdk) : M unit :=
  this <- get;;
  match session this with
  | None => throw (JsError "No active Cast session")
  | Some _ =>
      try_catch
        (match context this with
         | None => throw JsTypeError
         | Some _ =>
             tell [Context_endCurrentSession true];;
             foreign (endCurrentSession_rejects sdk)
         end)
        (fun error =>
           tell [Console_error "Failed to end session:" error];;
           throw error)
  end.

(** [get isConnected()], [get currentSession()], [get isInitialized()] *)
Definition isConnected (this : t) : bool := bool_decide (is_Some (session this)).
Definition currentSession (this : t) : option CastSession := session this.
Definition isInitialized (this : t) : bool := initialized this.

(** [get castState()] *)
Definition castState (sdk : Sdk) (this : t) : option CastState :=
  match context this with
  | None => None
  | Some _ => Some (getCastState sdk)
  end.

(** The typed [on...]/[off...] methods
    ([onCastStateChanged], [offMessageReceived], ...). *)
Definition on (type : CastEventType) (listener : FunctionRef) (this : t) : t :=
  set_listeners (EventEmitter.on (event_name type) listener (listeners this)) this.
Definition off (type : CastEventType) (listener : FunctionRef) (this : t) : t :=
  set_listeners (EventEmitter.off (event_name type) listener (listeners this)) this.

(** [destroy()], as far as the object's own fields go; its last
    statement, on the static field, is in [Program.destroy]. *)
Definition destroy (this : t) : t :=
  let this := set_listeners (EventEmitter.removeAllListeners None (listeners this)) this in
  let this := set_session None this in
  let this := set_context None this in
  set_initialized false this.

(** [ensures m this Q]: if [m], run on the fields [this], completes
    normally, its value and the fields it leaves satisfy [Q]. *)
Definition ensures {A} (m : M A) (this : t) (Q : A -> t -> Prop) : Prop :=
  forall a, result (m this) = Normal a -> Q a (final (m this)).

(** Native callbacks fired by the SDK one after the other, each on the
    fields the one before left.  An exception that leaves a callback goes
    to the SDK, which fires the next callback all the same.  The result is
    the fields after the last callback and the whole trace. *)
Fixpoint fire {A} (callbacks : list (M A)) (this : t) : t * list Effect :=
  match callbacks with
  | [] => (this, [])
  | m :: rest =>
      let r := m this in
      let r' := fire rest (final r) in
      (r'.1, trace r ++ r'.2)
  end.

(** Session-lifecycle events delivered in order, each with the answers
    the SDK gives at that time. *)
Definition deliver_session_states (events : list (Sdk * SessionState)) (this : t)
  : t * list Effect :=
  fire (map (fun e => on_native_session_state e.1 e.2) events) this.

(** Inbound messages delivered in order to the callback of
    [setupMessageListener]. *)
Definition deliver_messages (messages : list (string * Inbound)) (this : t)
  : t * list Effect :=
  fire (map (fun m => on_native_message m.1 m.2) messages) this.

(** What the callback of [setupMessageListener] makes of a message:
    [typeof message === "string" ? JSON.parse(message) : message]. *)
Definition parsed (message : Inbound) : option Value :=
  match message with
  | InString s => JSON_parse s
  | InOther v => Some v
  end.

End WithEnvironment.

Arguments MkRun {Value A}.
Arguments result {Value A}.
Arguments final {Value A}.
Arguments trace {Value A}.

End CastManager.

(** ** The static field [CastManager.instance] and the objects *)

Module Program.

(** A reference to a [CastManager] object. *)
Definition ObjRef : Type := nat.

(** The [CastManager] objects created so far, the static field
    [instance], and the objects whose constructor started
    [initialize()]. *)
Record t : Type := {
  heap : gmap ObjRef CastManager.t;
  instance : option ObjRef;
  auto_initializing : list ObjRef
}.

Definition start : t :=
  {| heap := ∅; instance := None; auto_initializing := [] |}.

(** [new CastManager(config)]: a reference no object has yet. *)
Definition new (config : CastManagerConfig) (p : t) : ObjRef * t :=
  let r := fresh (dom (heap p)) in
  (r, {| heap := <[r := CastManager.constructor config]> (heap p);
         instance := instance p;
         auto_initializing :=
           if CastManager.constructor_starts_initialize config
           then auto_initializing p ++ [r]
           else auto_initializing p |}).

(** [static getInstance(config?)] *)
Definition getInstance (config : option CastManagerConfig) (p : t)
  : Completion ObjRef * t :=
  match instance p with
  | None =>
      match config with
      | None =>
          (Thrown (JsError "CastManager config required for first initialization"), p)
      | Some c =>
          let '(r, p') := new c p in
          (Normal r, {| heap := heap p'; instance := Some r;
                        auto_initializing := auto_initializing p' |})
      end
  | Some r => (Normal r, p)
  end.

(** [this.destroy()] for the object at [this]. *)
Definition destroy (this : ObjRef) (p : t) : t :=
  {| heap := alter CastManager.destroy this (heap p);
     instance := if decide (instance p = Some this) then None else instance p;
     auto_initializing := auto_initializing p |}.

End Program.

(** How often a listener occurs in a sequence of calls. *)
Definition times_called (f : FunctionRef) (calls : list FunctionRef) : nat :=
  length (filter (fun g => g = f) calls).

(** ** Sequences of calls on one emitter *)

Section EmitterRuns.
Context {Data : Type}.

(** A call of one of the emitter's methods from outside. *)
Inductive Op : Type :=
| OpOn (event : string) (listener : FunctionRef)
| OpOff (event : string) (listener : FunctionRef)
| OpRemoveAllListeners (event : option string)
| OpEmit (event : string) (data : Data).

Variable call : FunctionRef -> Data -> option Exn.

(** The calls in order: every listener call made, tagged with the event
    published, and the emitter at the end.  A publish that throws is
    followed by the next call all the same (its caller decides). *)
Fixpoint run (ops : list Op) (this : EventEmitter.t)
  : list (string * FunctionRef) * EventEmitter.t :=
  match ops with
  | [] => ([], this)
  | OpOn event f :: ops => run ops (EventEmitter.on event f this)
  | OpOff event f :: ops => run ops (EventEmitter.off event f this)
  | OpRemoveAllListeners event :: ops =>
      run ops (EventEmitter.removeAllListeners event this)
  | OpEmit event d :: ops =>
      let r := run ops this in
      (map (fun g => (event, g)) (EventEmitter.emit call event d this).1 ++ r.1, r.2)
  end.

(** Whether [removeAllListeners(o)] removes the listeners of [event]. *)
Definition removes_event (o : option string) (event : string) : bool :=
  match o with
  | None => true
  | Some e => bool_decide (e = "") || bool_decide (e = event)
  end.

(** Whether, in [ops], every publish of [event] happens at a moment when
    no [on(event, listener)] is pending, that is, when each
    [on(event, listener)] so far was followed by an [off(event, listener)]
    or by a [removeAllListeners] that covers [event]; [subscribed] says
    whether an [on] is pending at the start. *)
Fixpoint off_at_each_publish (event : string) (listener : FunctionRef)
    (subscribed : bool) (ops : list Op) : bool :=
  match ops with
  | [] => true
  | OpOn e f :: ops =>
      off_at_each_publish event listener
        (subscribed || (bool_decide (e = event) && bool_decide (f = listener))) ops
  | OpOff e f :: ops =>
      off_at_each_publish event listener
        (subscribed && negb (bool_decide (e = event) && bool_decide (f = listener))) ops
  | OpRemoveAllListeners o :: ops =>
      off_at_each_publish event listener
        (subscribed && negb (removes_event o event)) ops
  | OpEmit e _ :: ops =>
      (negb (bool_decide (e = event)) || negb subscribed)
      && off_at_each_publish event listener subscribed ops
  end.
End EmitterRuns.

Arguments Op : clear implicits.

(** ** Concrete emitters, listeners and environments

    Used where a property is evaluated on an explicit input. *)

Module Sample.

(** Listener 1 throws on every payload; every other listener returns. *)
Definition call_1_throws {Data : Type} (f : FunctionRef) (_ : Data) : option Exn :=
  if decide (f = 1) then Some (Foreign 0) else None.

(** Every listener returns. *)
Definition call_returns {Data : Type} (_ : FunctionRef) (_ : Data) : option Exn :=
  None.


(** [on("e", 0); on("e", 1); on("e", 2)] on a new emitter. *)
Definition emitter_0_1_2 : EventEmitter.t :=
  EventEmitter.on "e" 2 (EventEmitter.on "e" 1
    (EventEmitter.on "e" 0 EventEmitter.create)).

(** A stand-in for [JSON.parse] that knows the one-digit numbers only. *)
Definition parse_digit (s : string) : option nat :=
  match s with
  | String c EmptyString =>
      let n := Ascii.nat_of_ascii c in
      if bool_decide (48 <= n <= 57) then Some (n - 48) else None
  | _ => None
  end.

(** An SDK with no current session, in which nothing fails. *)
Definition sdk_idle : CastManager.Sdk (Value := nat) :=
  {| CastManager.getCurrentSession := None;
     CastManager.getCastState := NOT_CONNECTED;
     CastManager.addMessageListener_throws := fun _ _ => None;
     CastManager.sendMessage_rejects := fun _ _ _ => None;
     CastManager.requestSession_rejects := None;
     CastManager.endCurrentSession_rejects := None |}.

(** The same SDK with session 7 current. *)
Definition sdk_casting : CastManager.Sdk (Value := nat) :=
  {| CastManager.getCurrentSession := Some 7;
     CastManager.getCastState := CONNECTED;
     CastManager.addMessageListener_throws := fun _ _ => None;
     CastManager.sendMessage_rejects := fun _ _ _ => None;
     CastManager.requestSession_rejects := None;
     CastManager.endCurrentSession_rejects := None |}.

(** A browser in which the framework is already loaded. *)
Definition browser_ready : Browser :=
  {| framework_present := true; script_loads := true; api_available := true;
     framework_after := fun _ => true |}.

(** A browser in which the script loads and the framework object shows
    up after three polling delays. *)
Definition browser_slow : Browser :=
  {| framework_present := false; script_loads := true; api_available := true;
     framework_after := fun n => bool_decide (3 <= n) |}.

(** A browser in which the framework object never shows up. *)
Definition browser_never : Browser :=
  {| framework_present := false; script_loads := true; api_available := true;
     framework_after := fun _ => false |}.

Definition config_ABCD1234 : CastManagerConfig :=
  {| receiverApplicationId := "ABCD1234"; autoInitialize := None; namespace := None |}.

(** [new CastManager({receiverApplicationId: "ABCD1234"})] *)
Definition adapter_new : CastManager.t := CastManager.constructor config_ABCD1234.

(** The adapter after [initialize()] while the SDK has no session. *)
Definition adapter_initialized : CastManager.t :=
  CastManager.final
    (CastManager.initialize call_returns browser_ready sdk_idle adapter_new).

(** The adapter after [initialize()] while the SDK has session 7 (a
    session the page joined before). *)
Definition adapter_joined : CastManager.t :=
  CastManager.final
    (CastManager.initialize call_returns browser_ready sdk_casting adapter_new).

End Sample.

(** The calls into the SDK among the effects of a trace. *)
Definition sdk_calls {Value : Type} (tr : list (CastManager.Effect (Value := Value)))
  : list CastManager.Effect :=
  List.filter CastManager.is_sdk_call tr.

(** ** Reasoning about a run *)

(** [wp m this Q]: [Q] holds of the way [m] ends when it runs on the
    fields [this], of the fields it leaves and of its trace. *)
Definition wp {Value A : Type} (m : CastManager.M (Value := Value) A)
    (this : CastManager.t)
    (Q : Completion A -> CastManager.t ->
         list (CastManager.Effect (Value := Value)) -> Prop) : Prop :=
  Q (CastManager.result (m this)) (CastManager.final (m this))
    (CastManager.trace (m this)).

(** What [Q] asks of a first step when [k] follows it: after a normal
    end the rest runs and the traces are joined; any other end is the
    end of the whole. *)
Definition wp_then {Value A B : Type} (k : A -> CastManager.M (Value := Value) B)
    (Q : Completion B -> CastManager.t ->
         list (CastManager.Effect (Value := Value)) -> Prop)
  : Completion A -> CastManager.t -> list CastManager.Effect -> Prop :=
  fun r s tr =>
    match r with
    | Normal a => wp (k a) s (fun r' s' tr' => Q r' s' (tr ++ tr'))
    | Thrown e => Q (Thrown e) s tr
    | Suspended => Q Suspended s tr
    | OutOfFuel => Q OutOfFuel s tr
    end.

(** Native cast-state events delivered in order to the listener that
    [initialize] adds for [CAST_STATE_CHANGED]. *)
Definition deliver_cast_states {Value : Type}
    (call : FunctionRef -> CastManager.EventData (Value := Value) -> option Exn)
    (states : list CastState) (this : CastManager.t)
  : CastManager.t * list CastManager.Effect :=
  CastManager.fire (map (CastManager.on_native_cast_state call) states) this.

(** The calls of [addEventListener] on the context among the effects of
    a trace. *)
Definition native_listeners {Value : Type}
    (tr : list (CastManager.Effect (Value := Value))) : list CastContextEventType :=
  omap (fun e => match e with
                 | CastManager.Context_addEventListener ty => Some ty
                 | _ => None
                 end) tr.

(** The effects of [setupMessageListener]: with a session held, the call
    of [addMessageListener] and, if that throws, the console report. *)
Definition setupMessageListener_effects {Value : Type}
    (sdk : CastManager.Sdk (Value := Value)) (this : CastManager.t)
  : list (CastManager.Effect (Value := Value)) :=
  match CastManager.session this with
  | None => []
  | Some s =>
      CastManager.Session_addMessageListener s
        (Required.namespace (CastManager.config this))
        :: match CastManager.addMessageListener_throws sdk s
                   (Required.namespace (CastManager.config this)) with
           | Some x => [CastManager.Console_error "Failed to add message listener:" x]
           | None => []
           end
  end.

(** The run of [this.emit(type, data)] on the fields [s], the effects
    [pre] having come before it. *)
Definition emit_after {Value : Type}
    (call : FunctionRef -> CastManager.EventData (Value := Value) -> option Exn)
    (pre : list (CastManager.Effect (Value := Value)))
    (type : CastEventType) (data : CastManager.EventData (Value := Value))
    (s : CastManager.t) : CastManager.Run unit :=
  CastManager.MkRun
    (CastManager.result (CastManager.emit call type data s))
    s
    (pre ++ CastManager.trace (CastManager.emit call type data s)).

(** Whether a lifecycle state is one of the two for which the listener
    refreshes the session handle. *)
Definition started_or_resumed (sessionState : SessionState) : bool :=
  bool_decide (sessionState = SESSION_STARTED)
  || bool_decide (sessionState = SESSION_RESUMED).

Module Sample2.

(** The new adapter with listener 1 (which throws, under
    [Sample.call_1_throws]) subscribed to cast-state changes. *)
Definition adapter_with_thrower : CastManager.t :=
  CastManager.on CAST_STATE_CHANGED 1 Sample.adapter_new.

(** The initialized adapter with listeners 0, 1 and 2 subscribed to
    messages. *)
Definition adapter_with_message_listeners : CastManager.t :=
  CastManager.on MESSAGE_RECEIVED 2
    (CastManager.on MESSAGE_RECEIVED 1
       (CastManager.on MESSAGE_RECEIVED 0 Sample.adapter_joined)).

(** An SDK with session 7 current, in which every call fails. *)
Definition sdk_failing : CastManager.Sdk (Value := nat) :=
  {| CastManager.getCurrentSession := Some 7;
     CastManager.getCastState := CONNECTED;
     CastManager.addMessageListener_throws := fun _ _ => Some (Foreign 1);
     CastManager.sendMessage_rejects := fun _ _ _ => Some (Foreign 2);
     CastManager.requestSession_rejects := Some (Foreign 3);
     CastManager.endCurrentSession_rejects := Some (Foreign 4) |}.

(** A browser in which the injected script fails to load. *)
Definition browser_offline : Browser :=
  {| framework_present := false; script_loads := false; api_available := false;
     framework_after := fun _ => false |}.

(** A browser in which the script loads but the API never becomes
    available. *)
Definition browser_stalled : Browser :=
  {| framework_present := false; script_loads := true; api_available := false;
     framework_after := fun _ => false |}.

End Sample2.

(** ** [class CastService] (the Angular service)

    RxJS is outside the repository.  A [BehaviorSubject] is modelled as
    far as the service uses it: [next] stores its argument as the current
    value (it assigns the value before anything else, stopped or not),
    [complete] stops the subject, and the [value] getter returns the
    stored value.  The three listeners that [initialize] registers on its
    own [CastManager] only call [next]; they do not throw. *)

Module CastService.

Record BehaviorSubject (A : Type) : Type := {
  value : A;
  isStopped : bool
}.
Arguments value {A}.
Arguments isStopped {A}.

(** [new BehaviorSubject(a)] *)
Definition subject {A} (a : A) : BehaviorSubject A :=
  {| value := a; isStopped := false |}.

(** [s.next(a)] *)
Definition next {A} (a : A) (s : BehaviorSubject A) : BehaviorSubject A :=
  {| value := a; isStopped := isStopped s |}.

(** [s.complete()] *)
Definition complete {A} (s : BehaviorSubject A) : BehaviorSubject A :=
  {| value := value s; isStopped := true |}.

(** The references of the three functions that [initialize] passes to
    [onCastStateChanged], [onSessionStateChanged] and [onMessageReceived]
    of the [CastManager] it has just constructed. *)
Definition cast_state_listener : FunctionRef := 0.
Definition session_state_listener : FunctionRef := 1.
Definition message_listener : FunctionRef := 2.

Section WithValue.
Context {Value : Type}.

(** The fields of a [CastService] object.  The service owns its
    [CastManager]; the fields of that object are kept here. *)
Record t : Type := {
  castManager : option CastManager.t;
  initialized : bool;
  castStateSubject : BehaviorSubject (option CastState);
  sessionStateSubject : BehaviorSubject (option SessionState);
  isConnectedSubject : BehaviorSubject bool;
  isInitializedSubject : BehaviorSubject bool;
  lastMessageSubject : BehaviorSubject (option Value)
}.

(** The field initializers. *)
Definition create : t :=
  {| castManager := None;
     initialized := false;
     castStateSubject := subject None;
     sessionStateSubject := subject None;
     isConnectedSubject := subject false;
     isInitializedSubject := subject false;
     lastMessageSubject := subject None |}.

Definition set_castManager (v : option CastManager.t) (this : t) : t :=
  {| castManager := v; initialized := initialized this;
     castStateSubject := castStateSubject this;
     sessionStateSubject := sessionStateSubject this;
     isConnectedSubject := isConnectedSubject this;
     isInitializedSubject := isInitializedSubject this;
     lastMessageSubject := lastMessageSubject this |}.
Definition set_initialized (v : bool) (this : t) : t :=
  {| castManager := castManager this; initialized := v;
     castStateSubject := castStateSubject this;
     sessionStateSubject := sessionStateSubject this;
     isConnectedSubject := isConnectedSubject this;
     isInitializedSubject := isInitializedSubject this;
     lastMessageSubject := lastMessageSubject this |}.
Definition on_castStateSubject
    (f : BehaviorSubject (option CastState) -> BehaviorSubject (option CastState))
    (this : t) : t :=
  {| castManager := castManager this; initialized := initialized this;
     castStateSubject := f (castStateSubject this);
     sessionStateSubject := sessionStateSubject this;
     isConnectedSubject := isConnectedSubject this;
     isInitializedSubject := isInitializedSubject this;
     lastMessageSubject := lastMessageSubject this |}.
Definition on_sessionStateSubject
    (f : BehaviorSubject (option SessionState) -> BehaviorSubject (option SessionState))
    (this : t) : t :=
  {| castManager := castManager this; initialized := initialized this;
     castStateSubject := castStateSubject this;
     sessionStateSubject := f (sessionStateSubject this);
     isConnectedSubject := isConnectedSubject this;
     isInitializedSubject := isInitializedSubject this;
     lastMessageSubject := lastMessageSubject this |}.
Definition on_isConnectedSubject
    (f : BehaviorSubject bool -> BehaviorSubject bool) (this : t) : t :=
  {| castManager := castManager this; initialized := initialized this;
     castStateSubject := castStateSubject this;
     sessionStateSubject := sessionStateSubject this;
     isConnectedSubject := f (isConnectedSubject this);
     isInitializedSubject := isInitializedSubject this;
     lastMessageSubject := lastMessageSubject this |}.
Definition on_isInitializedSubject
    (f : BehaviorSubject bool -> BehaviorSubject bool) (this : t) : t :=
  {| castManager := castManager this; initialized := initialized this;
     castStateSubject := castStateSubject this;
     sessionStateSubject := sessionStateSubject this;
     isConnectedSubject := isConnectedSubject this;
     isInitializedSubject := f (isInitializedSubject this);
     lastMessageSubject := lastMessageSubject this |}.
Definition on_lastMessageSubject
    (f : BehaviorSubject (option Value) -> BehaviorSubject (option Value))
    (this : t) : t :=
  {| castManager := castManager this; initialized := initialized this;
     castStateSubject := castStateSubject this;
     sessionStateSubject := sessionStateSubject this;
     isConnectedSubject := isConnectedSubject this;
     isInitializedSubject := isInitializedSubject this;
     lastMessageSubject := f (lastMessageSubject this) |}.

(** What the service does that is visible outside its fields: the
    effects of its [CastManager], and its own warning. *)
Inductive Effect : Type :=
| Manager (e : CastManager.Effect (Value := Value))
| Console_warn (message : string).

(** A call of the three listeners of the service returns normally. *)
Definition call (_ : FunctionRef) (_ : CastManager.EventData (Value := Value))
  : option Exn := None.

(** One call of a listener by the service's [CastManager]: the listener
    passed to [onCastStateChanged] does
    [castStateSubject.next(event.castState)]; the one passed to
    [onSessionStateChanged] does [sessionStateSubject.next(event.sessionState)]
    and [isConnectedSubject.next(!!event.session)]; the one passed to
    [onMessageReceived] does [lastMessageSubject.next(event.message)].
    Each is called with the record of its own kind only; a call of any
    other function is none of the service's. *)
Definition listener_called (f : FunctionRef)
    (event : CastManager.EventData (Value := Value)) (this : t) : t :=
  match event with
  | CastManager.CastStateChangeEvent castState =>
      if decide (f = cast_state_listener)
      then on_castStateSubject (next (Some castState)) this
      else this
  | CastManager.SessionStateChangeEvent sessionState session =>
      if decide (f = session_state_listener)
      then on_isConnectedSubject (next (bool_decide (is_Some session)))
             (on_sessionStateSubject (next (Some sessionState)) this)
      else this
  | CastManager.MessageReceivedEvent _ message =>
      if decide (f = message_listener)
      then on_lastMessageSubject (next (Some message)) this
      else this
  end.

(** The listener calls of a trace of the [CastManager], applied to the
    service in order. *)
Fixpoint listeners_called (tr : list (CastManager.Effect (Value := Value)))
    (this : t) : t :=
  match tr with
  | [] => this
  | CastManager.Call f event :: tr => listeners_called tr (listener_called f event this)
  | _ :: tr => listeners_called tr this
  end.

(** The [CastManager] that [initialize(config)] constructs, with the
    three listeners registered. *)
Definition new_manager (config : CastManagerConfig) : CastManager.t :=
  CastManager.on MESSAGE_RECEIVED message_listener
    (CastManager.on SESSION_STATE_CHANGED session_state_listener
       (CastManager.on CAST_STATE_CHANGED cast_state_listener
          (CastManager.constructor
             {| receiverApplicationId := receiverApplicationId config;
                namespace := namespace config;
                autoInitialize := Some false |}))).

(** A method of the service applied to its [CastManager]: the manager's
    run, the manager's fields put back, and its listener calls applied. *)
Definition with_manager {A} (m : CastManager.M (Value := Value) A)
    (manager : CastManager.t) (this : t) : Completion A * t * list Effect :=
  let r := m manager in
  (CastManager.result r,
   listeners_called (CastManager.trace r)
     (set_castManager (Some (CastManager.final r)) this),
   map Manager (CastManager.trace r)).

(** [initialize(config)].  The two reads of [this.castManager.castState]
    after the [await] are calls of the context's [getCastState()]. *)
Definition initialize (config : CastManagerConfig) (browser : Browser)
    (sdk : CastManager.Sdk (Value := Value)) (this : t)
  : Completion unit * t * list Effect :=
  if initialized this
  then (Normal tt, this, [Console_warn "CastService already initialized"])
  else
    let '(result, this, tr) :=
      with_manager (CastManager.initialize call browser sdk) (new_manager config) this in
    match result, castManager this with
    | Normal _, Some manager =>
        let this := set_initialized true this in
        let this := on_isInitializedSubject (next true) this in
        let '(this, reads) :=
          match CastManager.castState sdk manager with
          | Some castState =>
              (on_castStateSubject (next (Some castState)) this,
               [Manager CastManager.Context_getCastState;
                Manager CastManager.Context_getCastState])
          | None => (this, [])
          end in
        let this :=
          on_isConnectedSubject (next (CastManager.isConnected manager)) this in
        (Normal tt, this, tr ++ reads)
    | _, _ => (result, this, tr)
    end.

Definition not_initialized : Exn :=
  JsError "CastService not initialized. Call initialize() first.".

(** [sendMessage(message)] *)
Definition sendMessage (sdk : CastManager.Sdk (Value := Value)) (message : Value)
    (this : t) : Completion unit * t * list Effect :=
  match castManager this with
  | None => (Thrown not_initialized, this, [])
  | Some manager => with_manager (CastManager.sendMessage sdk message) manager this
  end.

(** [requestSession()] *)
Definition requestSession (sdk : CastManager.Sdk (Value := Value)) (this : t)
  : Completion unit * t * list Effect :=
  match castManager this with
  | None => (Thrown not_initialized, this, [])
  | Some manager => with_manager (CastManager.requestSession sdk) manager this
  end.

(** [endSession()] *)
Definition endSession (sdk : CastManager.Sdk (Value := Value)) (this : t)
  : Completion unit * t * list Effect :=
  match castManager this with
  | None => (Thrown not_initialized, this, [])
  | Some manager => with_manager (CastManager.endSession sdk) manager this
  end.

(** The synchronous getters. *)
Definition castState (this : t) : option CastState := value (castStateSubject this).
Definition sessionState (this : t) : option SessionState :=
  value (sessionStateSubject this).
Definition isConnected (this : t) : bool := value (isConnectedSubject this).
Definition isInitialized (this : t) : bool := value (isInitializedSubject this).
Definition lastMessage (this : t) : option Value := value (lastMessageSubject this).
Definition getCastManager (this : t) : option CastManager.t := castManager this.

(** [ngOnDestroy()] *)
Definition ngOnDestroy (this : t) : t :=
  let this :=
    match castManager this with
    | Some manager => set_castManager (Some (CastManager.destroy manager)) this
    | None => this
    end in
  let this := on_castStateSubject complete this in
  let this := on_sessionStateSubject complete this in
  let this := on_isConnectedSubject complete this in
  let this := on_isInitializedSubject complete this in
  on_lastMessageSubject complete this.

(** Native events that reach the service's [CastManager] (through the
    listeners its [initialize] added to the context), in order; an
    exception of a callback goes to the SDK. *)
Inductive Native : Type :=
| NativeCastState (castState : CastState)
| NativeSessionState (sdk : CastManager.Sdk (Value := Value)) (sessionState : SessionState)
| NativeMessage (namespace : string) (message : CastManager.Inbound (Value := Value)).

Definition deliver_one (JSON_parse : string -> option Value) (event : Native)
    (this : t) : t :=
  match castManager this with
  | None => this
  | Some manager =>
      (with_manager
         (match event with
          | NativeCastState castState => CastManager.on_native_cast_state call castState
          | NativeSessionState sdk sessionState =>
              CastManager.on_native_session_state call sdk sessionState
          | NativeMessage namespace message =>
              CastManager.on_native_message JSON_parse call namespace message
          end)
         manager this).1.2
  end.

Definition deliver (JSON_parse : string -> option Value) (events : list Native)
    (this : t) : t :=
  fold_left (fun this event => deliver_one JSON_parse event this) events this.

End WithValue.
End CastService.

(** A service is wired when it has a [CastManager] that holds a context
    and has the service's three listeners, and no others, registered: the
    state in which native events reach the service. *)
Definition wired {Value : Type} (this : CastService.t (Value := Value)) : Prop :=
  match CastService.castManager this with
  | None => False
  | Some manager =>
      is_Some (CastManager.context manager)
      /\ EventEmitter.registered (event_name CAST_STATE_CHANGED)
           (CastManager.listeners manager) = [CastService.cast_state_listener]
      /\ EventEmitter.registered (event_name SESSION_STATE_CHANGED)
           (CastManager.listeners manager) = [CastService.session_state_listener]
      /\ EventEmitter.registered (event_name MESSAGE_RECEIVED)
           (CastManager.listeners manager) = [CastService.message_listener]
  end.

(** The lifecycle states, the cast states and the readable messages
    among a sequence of native events, in order. *)
Definition session_states_of {Value : Type}
    (events : list (CastService.Native (Value := Value))) : list SessionState :=
  omap (fun e => match e with
                 | CastService.NativeSessionState _ st => Some st
                 | _ => None
                 end) events.
Definition cast_states_of {Value : Type}
    (events : list (CastService.Native (Value := Value))) : list CastState :=
  omap (fun e => match e with
                 | CastService.NativeCastState cs => Some cs
                 | _ => None
                 end) events.
Definition messages_of {Value : Type} (JSON_parse : string -> option Value)
    (events : list (CastService.Native (Value := Value))) : list Value :=
  omap (fun e => match e with
                 | CastService.NativeMessage _ message =>
                     CastManager.parsed JSON_parse message
                 | _ => None
                 end) events.

(** Whether the service's [CastManager] reports itself connected. *)
Definition manager_connected {Value : Type} (this : CastService.t (Value := Value))
  : bool :=
  match CastService.castManager this with
  | Some manager => CastManager.isConnected manager
  | None => false
  end.


Module Sample3.

(** The Angular service after a fulfilled [initialize] in a browser that
    has the framework, with session 7 current. *)
Definition service_ready : CastService.t (Value := nat) :=
  (CastService.initialize Sample.config_ABCD1234 Sample.browser_ready
     Sample.sdk_casting CastService.create).1.2.

(** Native events: a cast state, a session start, an unreadable and a
    readable message, a session end (reported by an SDK without current
    session), and another cast state. *)
Definition events : list (CastService.Native (Value := nat)) :=
  [CastService.NativeCastState NOT_CONNECTED;
   CastService.NativeSessionState Sample.sdk_casting SESSION_STARTED;
   CastService.NativeMessage "urn:x-cast:com.custom" (CastManager.InString "{");
   CastService.NativeMessage "urn:x-cast:com.custom" (CastManager.InString "5");
   CastService.NativeSessionState Sample.sdk_idle SESSION_ENDED;
   CastService.NativeCastState CONNECTING].

End Sample3.

(** ** [class EventEmitter] with listeners that act on the emitter

    In [EventEmitter] above a listener returns or throws and does nothing
    else.  A function subscribed as a listener may also call [on], [off],
    [removeAllListeners] or [emit] of the emitter while a publish is
    calling it.  What the publish then does rests on two things that
    [EventEmitter] leaves out.  The [Set] that [emit] iterates is an
    object: [off] changes it in place, [removeAllListeners] only takes it
    out of the [Map].  And [Set.prototype.forEach] takes the entries of
    the Set as they are when it gets to them.  Here a [Set] object is the
    list of its entries as ECMAScript describes it: [add] appends,
    [delete] leaves an empty entry in place of the value, and [forEach]
    goes through the list by index, skips the empty entries and goes on
    to the entries appended while it runs. *)

Module Live.

(** A reference to a [Set] object, and the entries of one ([None] is an
    entry emptied by [delete]). *)
Definition SetRef : Type := nat.
Definition SetData : Type := list (option FunctionRef).

(** The values of a Set, in insertion order. *)
Definition values (entries : SetData) : list FunctionRef := omap id entries.

(** [s.add(f)] *)
Definition Set_add (f : FunctionRef) (entries : SetData) : SetData :=
  if decide (Some f ∈ entries) then entries else entries ++ [Some f].

(** [s.delete(f)] *)
Definition Set_delete (f : FunctionRef) (entries : SetData) : SetData :=
  (fun e => if decide (e = Some f) then None else e) <$> entries.

(** The emitter: the [Map] of its field [listeners], from event names to
    [Set] objects, and the [Set] objects there are. *)
Record t : Type := {
  listeners : gmap string SetRef;
  sets : gmap SetRef SetData
}.

(** [= new Map()] *)
Definition create : t := {| listeners := ∅; sets := ∅ |}.

(** [on(event, listener)]; [new Set()] is a reference no Set has yet. *)
Definition on (event : string) (listener : FunctionRef) (this : t) : t :=
  let this' :=
    match listeners this !! event with
    | None =>
        let r := fresh (dom (sets this)) in
        {| listeners := <[event := r]> (listeners this);
           sets := <[r := []]> (sets this) |}
    | Some _ => this
    end in
  match listeners this' !! event with
  | Some r =>
      {| listeners := listeners this';
         sets := alter (Set_add listener) r (sets this') |}
  | None => this'
  end.

(** [off(event, listener)] *)
Definition off (event : string) (listener : FunctionRef) (this : t) : t :=
  match listeners this !! event with
  | Some r =>
      {| listeners := listeners this;
         sets := alter (Set_delete listener) r (sets this) |}
  | None => this
  end.

(** [removeAllListeners(event?)]: [Map.delete] or [Map.clear]; no [Set]
    object is changed. *)
Definition removeAllListeners (event : option string) (this : t) : t :=
  {| listeners :=
       match event with
       | Some e => if decide (e = "") then ∅ else delete e (listeners this)
       | None => ∅
       end;
     sets := sets this |}.

(** The listeners registered under an event, in registration order. *)
Definition registered (event : string) (this : t) : list FunctionRef :=
  match listeners this !! event with
  | Some r => values (default [] (sets this !! r))
  | None => []
  end.

Section Emit.
Context {Data World : Type}.
(** The state of the program is whatever the listeners read and change;
    the emitter is part of it. *)
Variable emitter : World -> t.
(** What calling a listener on a payload does in a state: the state it
    leaves (after whatever it did, calls of the emitter's methods
    included) and the exception it throws, if any. *)
Variable call : FunctionRef -> Data -> World -> World * option Exn.

(** [s.forEach(listener => listener(data))] from entry [index] on, for
    the Set object [r].  The entries are read anew at every step.  The
    iteration need not end (a listener can add a listener every time it is
    called): [fuel] bounds the number of entries looked at. *)
Fixpoint Set_forEach (fuel : nat) (r : SetRef) (data : Data) (index : nat)
    (w : World) : Completion unit * list FunctionRef * World :=
  match fuel with
  | 0 => (OutOfFuel, [], w)
  | S fuel =>
      match sets (emitter w) !! r ≫= (fun entries => entries !! index) with
      | None => (Normal tt, [], w)
      | Some None => Set_forEach fuel r data (S index) w
      | Some (Some f) =>
          match call f data w with
          | (w', Some x) => (Thrown x, [f], w')
          | (w', None) =>
              let '(c, called, w'') := Set_forEach fuel r data (S index) w' in
              (c, f :: called, w'')
          end
      end
  end.

(** [emit(event, data)]: how it ends, the listeners called, in order, and
    the state the listeners left. *)
Definition emit (fuel : nat) (event : string) (data : Data) (w : World)
  : Completion unit * list FunctionRef * World :=
  match listeners (emitter w) !! event with
  | Some eventListeners => Set_forEach fuel eventListeners data 0 w
  | None => (Normal tt, [], w)
  end.
End Emit.

End Live.

Module Sample4.

(** [on("e", 0); on("e", 1); on("e", 2)] on a new emitter. *)
Definition emitter_0_1_2 : Live.t :=
  Live.on "e" 2 (Live.on "e" 1 (Live.on "e" 0 Live.create)).

(** Listener 0 does [off("e", 1)] and [on("e", 3)] on the emitter; every
    other listener does nothing; all return. *)
Definition call_0_rewires (f : FunctionRef) (_ : unit) (this : Live.t)
  : Live.t * option Exn :=
  if decide (f = 0) then (Live.on "e" 3 (Live.off "e" 1 this), None)
  else (this, None).


End Sample4.


(** * Properties *)

(** ** The sequence behind a [Set<Function>] *)

Section JsSetFacts.
Implicit Types (f g : FunctionRef) (l : list FunctionRef).

Lemma elem_of_add_list f g l : g ∈ JsSet.add_list f l <-> g = f \/ g ∈ l.
Proof.
  unfold JsSet.add_list. case_decide as Hin.
  - split; [tauto|]. intros [->|]; done.
  - rewrite elem_of_app, list_elem_of_singleton. tauto.
Qed.


Lemma elem_of_delete_list f g l : g ∈ JsSet.delete_list f l <-> g ≠ f /\ g ∈ l.
Proof. unfold JsSet.delete_list. by rewrite list_elem_of_filter. Qed.

Lemma delete_add_list f l :
  JsSet.delete_list f (JsSet.add_list f l) = JsSet.delete_list f l.
Proof.
  unfold JsSet.add_list, JsSet.delete_list. case_decide; [done|].
  rewrite filter_app, filter_cons, decide_False by (intros Hne; by apply Hne).
  by rewrite filter_nil, app_nil_r.
Qed.

Lemma times_called_notin f l : f ∉ l -> times_called f l = 0.
Proof.
  unfold times_called. induction l as [|g l IH]; [done|].
  rewrite not_elem_of_cons. intros [Hne Hl].
  rewrite filter_cons, decide_False by done. auto.
Qed.



(** [forEach] calls a prefix of the elements. *)
Lemma forEach_list_prefix (c : FunctionRef -> option Exn) l :
  (JsSet.forEach_list c l).1 `prefix_of` l.
Proof.
  induction l as [|f l IH]; simpl; [done|].
  destruct (c f); simpl.
  - exists l. done.
  - by apply prefix_cons.
Qed.

(** When nothing throws, [forEach] calls every element, in order. *)
Lemma forEach_list_all (c : FunctionRef -> option Exn) l :
  (forall g, g ∈ l -> c g = None) -> JsSet.forEach_list c l = (l, None).
Proof.
  induction l as [|f l IH]; simpl; intros Hall; [done|].
  rewrite Hall by left. rewrite IH; [done|].
  intros g Hg. apply Hall. by right.
Qed.


(** If [forEach] returns, every element was called. *)
Lemma forEach_list_returns (c : FunctionRef -> option Exn) l :
  (JsSet.forEach_list c l).2 = None -> (JsSet.forEach_list c l).1 = l.
Proof.
  induction l as [|f l IH]; simpl; [done|].
  destruct (c f); simpl; [done|]. intros H. by rewrite IH.
Qed.

End JsSetFacts.

(** ** The emitter *)

Section EventEmitterFacts.
Implicit Types (this : EventEmitter.t) (event : string) (f g : FunctionRef).

Lemma on_insert event f this :
  EventEmitter.on event f this
  = <[event := JsSet.add f (default JsSet.empty (this !! event))]> this.
Proof.
  unfold EventEmitter.on. destruct (this !! event) as [s|] eqn:Hs; simpl.
  - by rewrite Hs.
  - by rewrite lookup_insert_eq, insert_insert_eq.
Qed.

Lemma registered_on event f this :
  EventEmitter.registered event (EventEmitter.on event f this)
  = JsSet.add_list f (EventEmitter.registered event this).
Proof.
  rewrite on_insert. unfold EventEmitter.registered.
  rewrite lookup_insert_eq. by destruct (this !! event).
Qed.

Lemma registered_on_ne event event' f this :
  event ≠ event' ->
  EventEmitter.registered event' (EventEmitter.on event f this)
  = EventEmitter.registered event' this.
Proof.
  intros Hne. rewrite on_insert. unfold EventEmitter.registered.
  by rewrite lookup_insert_ne.
Qed.

Lemma registered_off event f this :
  EventEmitter.registered event (EventEmitter.off event f this)
  = JsSet.delete_list f (EventEmitter.registered event this).
Proof.
  unfold EventEmitter.off, EventEmitter.registered.
  destruct (this !! event) as [s|] eqn:Hs.
  - by rewrite lookup_insert_eq.
  - by rewrite Hs.
Qed.



Lemma emit_registered {Data} (call : FunctionRef -> Data -> option Exn)
    event (d : Data) this :
  EventEmitter.emit call event d this
  = JsSet.forEach_list (fun f => call f d) (EventEmitter.registered event this).
Proof.
  unfold EventEmitter.emit, EventEmitter.registered.
  by destruct (this !! event).
Qed.

Lemma emit_calls_registered {Data} (call : FunctionRef -> Data -> option Exn)
    event (d : Data) this f :
  f ∈ (EventEmitter.emit call event d this).1 ->
  f ∈ EventEmitter.registered event this.
Proof.
  rewrite emit_registered. intros Hf.
  destruct (forEach_list_prefix (fun f => call f d)
              (EventEmitter.registered event this)) as [k Hk].
  rewrite Hk. apply elem_of_app. by left.
Qed.

Lemma emit_all_calls_registered {Data} (call : FunctionRef -> Data -> option Exn)
    event (ds : list Data) this f :
  f ∈ EventEmitter.emit_all call event ds this ->
  f ∈ EventEmitter.registered event this.
Proof.
  unfold EventEmitter.emit_all. rewrite list_elem_of_In, in_flat_map.
  intros (d & _ & Hf). apply list_elem_of_In in Hf.
  by eapply emit_calls_registered.
Qed.
End EventEmitterFacts.

Section EmitterRunFacts.
Context {Data : Type} (call : FunctionRef -> Data -> option Exn).
Implicit Types (this : EventEmitter.t) (event : string) (f g : FunctionRef).

Lemma registered_off_ne event event' f this :
  event ≠ event' ->
  EventEmitter.registered event' (EventEmitter.off event f this)
  = EventEmitter.registered event' this.
Proof.
  intros Hne. unfold EventEmitter.off, EventEmitter.registered.
  destruct (this !! event); [|done]. by rewrite lookup_insert_ne.
Qed.

Lemma registered_removeAllListeners event o this f :
  f ∈ EventEmitter.registered event (EventEmitter.removeAllListeners o this) ->
  f ∈ EventEmitter.registered event this.
Proof.
  unfold EventEmitter.removeAllListeners, EventEmitter.registered.
  destruct o as [e|].
  - case_decide.
    + rewrite lookup_empty. by intros ?%elem_of_nil.
    + destruct (decide (e = event)) as [->|Hne].
      * rewrite lookup_delete_eq. by intros ?%elem_of_nil.
      * by rewrite lookup_delete_ne.
  - rewrite lookup_empty. by intros ?%elem_of_nil.
Qed.

Lemma registered_removeAllListeners_covered event o this :
  removes_event o event = true ->
  EventEmitter.registered event (EventEmitter.removeAllListeners o this) = [].
Proof.
  unfold removes_event, EventEmitter.removeAllListeners, EventEmitter.registered.
  destruct o as [e|]; [|by rewrite lookup_empty].
  case_decide as He; [by rewrite lookup_empty|].
  rewrite (bool_decide_eq_false_2 _ He). simpl.
  intros ->%bool_decide_eq_true. by rewrite lookup_delete_eq.
Qed.

(** A listener that is not registered under [event] now, and that is
    unsubscribed again after each later subscription before [event] is
    next published, is never called for [event]. *)
Lemma run_not_called event f (ops : list (Op Data)) :
  forall subscribed this,
    (subscribed = false -> f ∉ EventEmitter.registered event this) ->
    off_at_each_publish event f subscribed ops = true ->
    (event, f) ∉ (run call ops this).1.
Proof.
  induction ops as [|op ops IH]; intros subscribed this Hreg Hq; simpl.
  - apply not_elem_of_nil.
  - destruct op as [e g|e g|o|e d]; simpl in Hq.
    + eapply IH; [|exact Hq]. intros Hs.
      apply orb_false_iff in Hs as [-> Hs]. specialize (Hreg eq_refl).
      destruct (decide (e = event)) as [->|Hne].
      * rewrite registered_on, elem_of_add_list. intros [->|Hin]; [|done].
        rewrite !bool_decide_eq_true_2 in Hs by done. done.
      * by rewrite registered_on_ne.
    + eapply IH; [|exact Hq]. intros Hs.
      destruct (decide (e = event)) as [->|Hne].
      * rewrite registered_off, elem_of_delete_list. intros [Hne Hin].
        rewrite bool_decide_eq_true_2 in Hs by done.
        rewrite (bool_decide_eq_false_2 (g = f)) in Hs by (intros ->; done).
        simpl in Hs. rewrite andb_true_r in Hs. by apply Hreg.
      * rewrite registered_off_ne by done.
        rewrite (bool_decide_eq_false_2 (e = event)) in Hs by done.
        simpl in Hs. rewrite andb_true_r in Hs. by apply Hreg.
    + eapply IH; [|exact Hq]. intros Hs Hin.
      apply andb_false_iff in Hs as [Hs|Hs].
      * apply (Hreg Hs). by eapply registered_removeAllListeners.
      * apply negb_false_iff in Hs.
        rewrite registered_removeAllListeners_covered in Hin by done.
        by apply elem_of_nil in Hin.
    + apply andb_true_iff in Hq as [Hnow Hq].
      cbn [fst]. rewrite elem_of_app. intros [Hin|Hin].
      * apply list_elem_of_fmap in Hin as (g & [= -> ->] & Hg).
        rewrite bool_decide_eq_true_2 in Hnow by done. simpl in Hnow.
        apply negb_true_iff in Hnow.
        apply (Hreg Hnow). by eapply emit_calls_registered.
      * by eapply IH.
Qed.
End EmitterRunFacts.

(** ** Claims about the emitter *)

Section EmitterClaims.
Context {Data : Type} (call : FunctionRef -> Data -> option Exn).
Implicit Types (this : EventEmitter.t) (event : string) (f g : FunctionRef).



(** C9: once [off(event, listener)] has returned, no later publish of
    [event] calls [listener]: not in any sequence of publishes that
    follows; not if the listener was subscribed and unsubscribed once
    more before them; and, in general, not in any later sequence of calls
    of the emitter's methods in which each new [on(event, listener)] is
    undone (by [off(event, listener)], or by a [removeAllListeners] that
    covers [event]) before [event] is next published. *)
Theorem off_ends_delivery event f this :
  (forall ds : list Data,
     times_called f
       (EventEmitter.emit_all call event ds (EventEmitter.off event f this)) = 0)
  /\ (forall ds : list Data,
        times_called f
          (EventEmitter.emit_all call event ds
             (EventEmitter.off event f
                (EventEmitter.on event f (EventEmitter.off event f this)))) = 0)
  /\ (forall ops : list (Op Data),
        off_at_each_publish event f false ops = true ->
        (event, f) ∉ (run call ops (EventEmitter.off event f this)).1).
Proof.
  assert (Hoff : forall this', f ∉ EventEmitter.registered event
                                    (EventEmitter.off event f this')).
  { intros this'. rewrite registered_off, elem_of_delete_list. by intros [? _]. }
  split_and!.
  - intros ds. apply times_called_notin. intros Hcalled.
    apply (Hoff this). by eapply emit_all_calls_registered.
  - intros ds. apply times_called_notin. intros Hcalled.
    apply (Hoff (EventEmitter.on event f (EventEmitter.off event f this))).
    by eapply emit_all_calls_registered.
  - intros ops Hq. eapply run_not_called; [|exact Hq]. intros _. apply Hoff.
Qed.
End EmitterClaims.





Lemma off_ends_delivery_witness :
  ("e", 1) ∉
    (run Sample.call_returns
       [OpEmit "e" tt; OpOn "e" 1; OpOff "e" 1; OpEmit "e" tt; OpOn "f" 1; OpEmit "f" tt]
       (EventEmitter.off "e" 1 Sample.emitter_0_1_2)).1.
Proof.
  apply (off_ends_delivery Sample.call_returns "e" 1 Sample.emitter_0_1_2).
  reflexivity.
Defined.

(** ** The adapter: building blocks *)

Section AdapterFacts.
Context {Value : Type} (JSON_parse : string -> option Value).
Context (call : FunctionRef -> CastManager.EventData (Value := Value) -> option Exn).
Import CastManager.
Implicit Types (this : CastManager.t) (sdk : Sdk (Value := Value)).

Lemma emit_run type d this :
  emit call type d this
  = MkRun
      (match (EventEmitter.emit call (event_name type) d (listeners this)).2 with
       | Some x => Thrown x
       | None => Normal tt
       end)
      this
      (Emit (event_name type) d
         :: map (fun f => Call f d)
              (EventEmitter.emit call (event_name type) d (listeners this)).1).
Proof.
  unfold emit, bind, get, tell, foreign. simpl.
  destruct (EventEmitter.emit call (event_name type) d (listeners this)).2;
    simpl; by rewrite app_nil_r.
Qed.

Lemma published_calls (d : EventData (Value := Value)) (fs : list FunctionRef) :
  published (map (fun f => Call f d) fs) = [].
Proof. induction fs as [|f fs IH]; [done|]. simpl. exact IH. Qed.

Lemma published_app (tr1 tr2 : list (Effect (Value := Value))) :
  published (tr1 ++ tr2) = published tr1 ++ published tr2.
Proof. unfold published. apply omap_app. Qed.

Lemma emit_published type d this :
  published (trace (emit call type d this)) = [(event_name type, d)].
Proof. rewrite emit_run. simpl. f_equal. apply published_calls. Qed.

(** [setupMessageListener] returns normally and changes no field,
    whatever [addMessageListener] does. *)
Lemma setupMessageListener_run sdk this :
  result (setupMessageListener sdk this) = Normal tt
  /\ final (setupMessageListener sdk this) = this
  /\ published (trace (setupMessageListener sdk this)) = [].
Proof.
  unfold setupMessageListener, bind, get, try_catch, tell, foreign. simpl.
  destruct (session this) as [s|]; simpl; [|done].
  destruct (addMessageListener_throws sdk s _); simpl; done.
Qed.

(** The loop of [waitForCastFramework], entered with [attempts] at most
    20 and fuel for the evaluations of its condition that remain. *)
Lemma waitForCastFramework_loop_run browser fuel :
  forall attempts this,
    attempts <= 20 -> 21 <= attempts + fuel ->
    exists n,
      attempts <= n <= 20
      /\ waitForCastFramework_loop (Value := Value) browser fuel attempts this
         = MkRun (Normal n) this (replicate (n - attempts) (SetTimeout 100))
      /\ (forall k, attempts <= k < n -> framework_after browser k = false)
      /\ (framework_after browser n = true \/ n = 20).
Proof.
  induction fuel as [|fuel IH]; intros attempts this Hle Hfuel; [lia|].
  simpl. destruct (framework_after browser attempts) eqn:Hfw; simpl.
  - exists attempts. rewrite Nat.sub_diag.
    split_and!; [lia|lia|done|intros k Hk; lia|by left].
  - case_bool_decide as Hlt; simpl.
    + destruct (IH (S attempts) this ltac:(lia) ltac:(lia))
        as (n & Hn & Hrun & Hbefore & Hend).
      exists n. split_and!; [lia|lia| | |done].
      * unfold bind, tell. simpl. rewrite Hrun. simpl.
        replace (n - attempts) with (S (n - S attempts)) by lia. done.
      * intros k Hk. destruct (decide (k = attempts)) as [->|Hne]; [done|].
        apply Hbefore. lia.
    + exists attempts. rewrite Nat.sub_diag.
      split_and!; [lia|lia|done|intros k Hk; lia|right; lia].
Qed.

(** Sequencing two steps that leave the fields alone leaves them alone. *)
Lemma bind_final_same {A B} (m : M (Value := Value) A) (k : A -> M B) this :
  final (m this) = this -> (forall a, final (k a this) = this) ->
  final (bind m k this) = this.
Proof.
  intros Hm Hk. unfold bind. destruct (result (m this)); cbn [final]; try done.
  rewrite Hm. apply Hk.
Qed.

Lemma waitForCastFramework_loop_final browser fuel :
  forall attempts this,
    final (waitForCastFramework_loop (Value := Value) browser fuel attempts this) = this.
Proof.
  induction fuel as [|fuel IH]; intros attempts this; [done|].
  cbn [waitForCastFramework_loop].
  destruct (negb (framework_after browser attempts) && bool_decide (attempts < 20));
    [|done].
  apply bind_final_same; [done|]. intros _. apply IH.
Qed.

Lemma waitForCastFramework_final browser fuel this :
  final (waitForCastFramework (Value := Value) browser fuel this) = this.
Proof.
  unfold waitForCastFramework. apply bind_final_same.
  - apply waitForCastFramework_loop_final.
  - intros n. by destruct (negb (framework_after browser n)).
Qed.

(** The bootstrap changes no field of the adapter, however it ends. *)
Lemma loadCastFramework_final browser this :
  final (loadCastFramework (Value := Value) browser this) = this.
Proof.
  unfold loadCastFramework. destruct (framework_present browser); [done|].
  apply bind_final_same; [done|]. intros _.
  apply bind_final_same; [by destruct (script_loads browser)|]. intros _.
  apply bind_final_same; [by destruct (api_available browser)|]. intros _.
  apply waitForCastFramework_final.
Qed.

(** Rules for [ensures]. *)
Lemma ensures_bind {A B} (m : M (Value := Value) A) (k : A -> M B) this Q :
  ensures m this (fun a this1 => ensures (k a) this1 Q) ->
  ensures (bind m k) this Q.
Proof.
  unfold ensures, bind. intros H b.
  destruct (result (m this)) as [a| | |] eqn:Hm; cbn [result final];
    intros Hb; try discriminate.
  by apply (H a).
Qed.

Lemma ensures_get this (Q : CastManager.t -> CastManager.t -> Prop) :
  Q this this -> ensures (get (Value := Value)) this Q.
Proof. intros H a [= <-]. exact H. Qed.

Lemma ensures_tell es this (Q : unit -> CastManager.t -> Prop) :
  Q tt this -> ensures (tell (Value := Value) es) this Q.
Proof. intros H a [= <-]. exact H. Qed.

Lemma ensures_modify f this (Q : unit -> CastManager.t -> Prop) :
  Q tt (f this) -> ensures (modify (Value := Value) f) this Q.
Proof. intros H a [= <-]. exact H. Qed.

Lemma ensures_same {A} (m : M (Value := Value) A) this (Q : A -> CastManager.t -> Prop) :
  final (m this) = this -> (forall a, Q a this) -> ensures m this Q.
Proof. intros Hm H a _. rewrite Hm. apply H. Qed.

(** A fulfilled [initialize()] on an adapter whose flag was not set
    leaves the SDK's context and its current session in the fields, and
    the flag set. *)
Lemma initialize_fulfilled browser sdk this :
  initialized this = false ->
  ensures (initialize call browser sdk) this
    (fun _ this' =>
       this' = set_initialized true
                 (set_session (getCurrentSession sdk)
                    (set_context (Some castContext) this))).
Proof.
  intros Hinit. unfold initialize.
  apply ensures_bind, ensures_get. rewrite Hinit.
  apply ensures_bind, ensures_same; [apply loadCastFramework_final|]. intros _.
  apply ensures_bind, ensures_tell.
  apply ensures_bind, ensures_modify.
  apply ensures_bind, ensures_tell.
  apply ensures_bind, ensures_tell.
  apply ensures_bind, ensures_modify.
  apply ensures_bind, ensures_tell.
  apply ensures_bind, ensures_same; [by rewrite emit_run|]. intros _.
  apply ensures_bind, ensures_tell.
  apply ensures_bind, ensures_tell.
  apply ensures_bind, ensures_get.
  apply ensures_bind, ensures_same.
  { destruct (session _); [apply setupMessageListener_run|done]. }
  intros _. by apply ensures_modify.
Qed.

(** An adapter on which [initialize()] was fulfilled has its flag set and
    holds a context, provided it held one already if its flag was set. *)
Lemma initialize_fulfilled_fields browser sdk this :
  (initialized this = true -> is_Some (context this)) ->
  result (initialize call browser sdk this) = Normal tt ->
  initialized (final (initialize call browser sdk this)) = true
  /\ is_Some (context (final (initialize call browser sdk this))).
Proof.
  intros Hinv Hres. destruct (initialized this) eqn:Hinit.
  - assert (Hrun : initialize call browser sdk this = MkRun (Normal tt) this []).
    { unfold initialize. unfold bind at 1. unfold get at 1.
      cbn [result final trace]. by rewrite Hinit. }
    rewrite Hrun. cbn [final]. split; [done|by apply Hinv].
  - rewrite (initialize_fulfilled browser sdk this Hinit tt Hres).
    split; [done|by eexists].
Qed.
End AdapterFacts.

(** ** Claims about the adapter *)

Section AdapterClaims.
Context {Value : Type} (JSON_parse : string -> option Value).
Context (call : FunctionRef -> CastManager.EventData (Value := Value) -> option Exn).
Import CastManager.
Implicit Types (this : CastManager.t) (sdk : Sdk (Value := Value)).

Lemma set_session_same this : set_session (session this) this = this.
Proof. by destruct this. Qed.

(** C5: the polling phase ends, whatever the browser does.  With the 21
    evaluations of the loop condition that [initialize] allows, or any
    larger number, [waitForCastFramework] settles after [n <= 20] delays
    of 100 ms each, [n] being the first moment the framework object is
    there (or 20 when it is not there by then); it changes no field; it
    is fulfilled when the framework object is there and rejected with
    [Error("Cast framework failed to initialize.")] when it is still
    missing after 20 delays. *)
Theorem waitForCastFramework_total (browser : Browser) (extra : nat) this :
  exists n,
    n <= 20
    /\ final (waitForCastFramework (Value := Value) browser (poll_fuel + extra) this) = this
    /\ trace (waitForCastFramework (Value := Value) browser (poll_fuel + extra) this)
       = replicate n (SetTimeout 100)
    /\ (forall k, k < n -> framework_after browser k = false)
    /\ (result (waitForCastFramework (Value := Value) browser (poll_fuel + extra) this)
          = Normal tt
        /\ framework_after browser n = true
        \/ result (waitForCastFramework (Value := Value) browser (poll_fuel + extra) this)
           = Thrown (JsError "Cast framework failed to initialize.")
           /\ n = 20
           /\ framework_after browser 20 = false).
Proof.
  destruct (waitForCastFramework_loop_run (Value := Value) browser
              (poll_fuel + extra) 0 this ltac:(lia) ltac:(unfold poll_fuel; lia))
    as (n & Hn & Hrun & Hbefore & Hend).
  exists n. unfold waitForCastFramework, bind. rewrite Hrun. simpl.
  rewrite Nat.sub_0_r.
  destruct (framework_after browser n) eqn:Hfw; simpl; rewrite app_nil_r.
  - split_and!; [lia|done|done|intros k Hk; apply Hbefore; lia|by left].
  - destruct Hend as [?| ->]; [done|].
    split_and!; [lia|done|done|intros k Hk; apply Hbefore; lia|by right].
Qed.

(** C6: on an adapter whose [initialized] flag is set, [initialize()]
    returns at once: the promise is fulfilled, no field has changed
    (listeners, context, session, flag, configuration) and nothing was
    done (no event published, no listener added to the context, no call
    into the SDK or the browser). *)
Theorem initialize_again_is_noop (browser : Browser) sdk this :
  initialized this = true ->
  initialize call browser sdk this = MkRun (Normal tt) this []
  /\ published (trace (initialize call browser sdk this)) = []
  /\ sdk_calls (trace (initialize call browser sdk this)) = []
  /\ listeners (final (initialize call browser sdk this)) = listeners this
  /\ context (final (initialize call browser sdk this)) = context this
  /\ session (final (initialize call browser sdk this)) = session this
  /\ initialized (final (initialize call browser sdk this)) = true
  /\ config (final (initialize call browser sdk this)) = config this.
Proof.
  intros Hinit.
  assert (Hrun : initialize call browser sdk this = MkRun (Normal tt) this []).
  { unfold initialize. unfold bind at 1. unfold get at 1.
    cbn [result final trace]. by rewrite Hinit. }
  rewrite Hrun. split_and!; done.
Qed.

(** C8: after [destroy()], with session and context both reset,
    [sendMessage] is rejected with [Error("No Cast session available")];
    it makes no call and does not fail on the cleared context. *)
Theorem sendMessage_after_destroy sdk (message : Value) this :
  session (destroy this) = None
  /\ context (destroy this) = None
  /\ sendMessage sdk message (destroy this)
     = MkRun (Thrown (JsError "No Cast session available")) (destroy this) []
  /\ result (sendMessage sdk message (destroy this)) ≠ Thrown JsTypeError.
Proof. split_and!; done. Qed.

(** C1, as the code has it.  With no session handle held: when no
    context is held either (before [initialize], after [destroy]),
    [sendMessage] is rejected with [Error("No Cast session available")]
    and calls nothing; when a context is held, [sendMessage] first asks
    it for the current session ([getCurrentSession()], one call into the
    SDK): if there is none, it is rejected with the same error and sends
    nothing; if there is one, the adapter holds it from then on and the
    message is sent on it. *)
Theorem sendMessage_without_session sdk (message : Value) this :
  session this = None ->
  (context this = None ->
     sendMessage sdk message this
     = MkRun (Thrown (JsError "No Cast session available")) this [])
  /\ (is_Some (context this) -> getCurrentSession sdk = None ->
        sendMessage sdk message this
        = MkRun (Thrown (JsError "No Cast session available")) this
            [Context_getCurrentSession])
  /\ (forall s, is_Some (context this) -> getCurrentSession sdk = Some s ->
        sendMessage sdk message this
        = MkRun
            (match sendMessage_rejects sdk s (Required.namespace (config this)) message with
             | Some x => Thrown x
             | None => Normal tt
             end)
            (set_session (Some s) this)
            ([Context_getCurrentSession;
              Session_sendMessage s (Required.namespace (config this)) message]
             ++ match sendMessage_rejects sdk s (Required.namespace (config this)) message with
                | Some x => [Console_error "Error sending message:" x]
                | None => []
                end)).
Proof.
  intros Hs. split_and!.
  - intros Hc. unfold sendMessage, bind, get, modify. simpl.
    rewrite Hs, Hc. simpl. by rewrite <- Hs, set_session_same.
  - intros [c Hc] Hcur. unfold sendMessage, bind, get, modify, tell. simpl.
    rewrite Hs, Hc. simpl. rewrite Hcur. simpl.
    by rewrite <- Hs, set_session_same.
  - intros s [c Hc] Hcur. unfold sendMessage, bind, get, modify, tell, try_catch, foreign.
    simpl. rewrite Hs, Hc. simpl. rewrite Hcur. simpl.
    destruct (sendMessage_rejects sdk s _ message); simpl; done.
Qed.
End AdapterClaims.

(** [waitForCastFramework] in a browser where the framework object shows
    up after three delays, and in one where it never does. *)
Lemma waitForCastFramework_examples :
  CastManager.waitForCastFramework (Value := nat) Sample.browser_slow
    CastManager.poll_fuel Sample.adapter_new
  = CastManager.MkRun (Normal tt) Sample.adapter_new
      (replicate 3 (CastManager.SetTimeout 100))
  /\ CastManager.waitForCastFramework (Value := nat) Sample.browser_never
       CastManager.poll_fuel Sample.adapter_new
     = CastManager.MkRun (Thrown (JsError "Cast framework failed to initialize."))
         Sample.adapter_new (replicate 20 (CastManager.SetTimeout 100)).
Proof. split; reflexivity. Qed.

Lemma initialize_again_is_noop_witness :
  CastManager.initialize Sample.call_returns Sample.browser_slow Sample.sdk_casting
    Sample.adapter_initialized
  = CastManager.MkRun (Normal tt) Sample.adapter_initialized [].
Proof.
  apply (initialize_again_is_noop Sample.call_returns Sample.browser_slow
           Sample.sdk_casting Sample.adapter_initialized).
  reflexivity.
Defined.

(** C1 as stated fails.  On an adapter that was initialized and has been
    delivered no lifecycle event, [sendMessage] calls into the SDK's
    context ([getCurrentSession()]) before it is rejected; and when the
    context has a session by then, the message is sent.  On an adapter
    that joined a running session in [initialize], a handle is held
    without any lifecycle event, and the message is sent. *)
Lemma sendMessage_asks_the_context :
  CastManager.session Sample.adapter_initialized = None
  /\ CastManager.sendMessage Sample.sdk_idle 0 Sample.adapter_initialized
     = CastManager.MkRun (Thrown (JsError "No Cast session available"))
         Sample.adapter_initialized [CastManager.Context_getCurrentSession]
  /\ sdk_calls
       (CastManager.trace
          (CastManager.sendMessage Sample.sdk_idle 0 Sample.adapter_initialized)) ≠ []
  /\ CastManager.result
       (CastManager.sendMessage Sample.sdk_casting 0 Sample.adapter_initialized)
     = Normal tt
  /\ CastManager.trace
       (CastManager.sendMessage Sample.sdk_casting 0 Sample.adapter_initialized)
     = [CastManager.Context_getCurrentSession;
        CastManager.Session_sendMessage 7 "urn:x-cast:com.custom" 0]
  /\ CastManager.session Sample.adapter_joined = Some 7
  /\ CastManager.sendMessage Sample.sdk_casting 0 Sample.adapter_joined
     = CastManager.MkRun (Normal tt) Sample.adapter_joined
         [CastManager.Session_sendMessage 7 "urn:x-cast:com.custom" 0].
Proof. split_and!; try reflexivity. discriminate. Qed.

Lemma sendMessage_without_session_witness :
  CastManager.sendMessage Sample.sdk_idle 0 Sample.adapter_new
  = CastManager.MkRun (Thrown (JsError "No Cast session available"))
      Sample.adapter_new []
  /\ CastManager.sendMessage Sample.sdk_idle 0 Sample.adapter_initialized
     = CastManager.MkRun (Thrown (JsError "No Cast session available"))
         Sample.adapter_initialized [CastManager.Context_getCurrentSession]
  /\ CastManager.sendMessage Sample.sdk_casting 0 Sample.adapter_initialized
     = CastManager.MkRun (Normal tt)
         (CastManager.set_session (Some 7) Sample.adapter_initialized)
         [CastManager.Context_getCurrentSession;
          CastManager.Session_sendMessage 7 "urn:x-cast:com.custom" 0].
Proof.
  split_and!.
  - apply (sendMessage_without_session Sample.sdk_idle 0 Sample.adapter_new);
      reflexivity.
  - apply (sendMessage_without_session Sample.sdk_idle 0 Sample.adapter_initialized);
      [reflexivity|by eexists|reflexivity].
  - apply (sendMessage_without_session Sample.sdk_casting 0 Sample.adapter_initialized
             eq_refl); [by eexists|reflexivity].
Defined.

(** ** Inbound messages *)

Section MessageClaims.
Context {Value : Type} (JSON_parse : string -> option Value).
Context (call : FunctionRef -> CastManager.EventData (Value := Value) -> option Exn).
Import CastManager.
Implicit Types (this : CastManager.t) (sdk : Sdk (Value := Value)).

(** The callback returns normally and changes no field; it publishes one
    [messageReceived] event when the message parses and none otherwise. *)
Lemma on_native_message_run namespace (message : Inbound) this :
  result (on_native_message JSON_parse call namespace message this) = Normal tt
  /\ final (on_native_message JSON_parse call namespace message this) = this
  /\ published (trace (on_native_message JSON_parse call namespace message this))
     = match parsed JSON_parse message with
       | Some v => [(event_name MESSAGE_RECEIVED, MessageReceivedEvent namespace v)]
       | None => []
       end.
Proof.
  assert (Hparsed : forall v,
    let r := try_catch
               (bind (ret v) (fun parsedMessage =>
                  emit call MESSAGE_RECEIVED
                    (MessageReceivedEvent namespace parsedMessage)))
               (fun error =>
                  tell [Console_error "Failed to parse receiver message:" error])
               this in
    result r = Normal tt /\ final r = this
    /\ published (trace r)
       = [(event_name MESSAGE_RECEIVED, MessageReceivedEvent namespace v)]).
  { intros v. unfold try_catch, bind, ret. cbn [result final trace app].
    rewrite emit_run. cbn [result final trace].
    destruct (EventEmitter.emit call _ _ _).2; cbn [result final trace tell].
    - split_and!; [done|done|]. rewrite published_app. simpl.
      by rewrite published_calls.
    - split_and!; [done|done|]. simpl. by rewrite published_calls. }
  unfold on_native_message. destruct message as [s|v]; simpl.
  - destruct (JSON_parse s) as [v|]; [apply Hparsed|]. by vm_compute.
  - apply Hparsed.
Qed.

Lemma deliver_messages_run (messages : list (string * Inbound)) this :
  (deliver_messages JSON_parse call messages this).1 = this
  /\ published (deliver_messages JSON_parse call messages this).2
     = omap (fun m : string * Inbound =>
               (fun v => (event_name MESSAGE_RECEIVED, MessageReceivedEvent m.1 v))
                 <$> parsed JSON_parse m.2)
            messages.
Proof.
  unfold deliver_messages.
  induction messages as [|[namespace message] messages [IH1 IH2]]; [done|].
  destruct (on_native_message_run namespace message this) as (_ & Hfinal & Hpub).
  cbn [map fire fst snd]. rewrite Hfinal. split; [exact IH1|].
  rewrite published_app, Hpub, IH2. cbn [omap list_omap fst snd].
  by destruct (parsed JSON_parse message).
Qed.

(** C7: an inbound message whose string payload [JSON.parse] rejects is
    dropped.  The callback returns normally, changes no field, publishes
    nothing, and only reports to the console; in any sequence of inbound
    messages, the events published and the fields left are those of the
    sequence without the malformed message, so each well-formed message
    before and after it still gets its one [messageReceived] event; and
    [setupMessageListener] itself returns normally even when
    [addMessageListener] throws. *)
Theorem malformed_message_is_dropped sdk namespace (s : string) this :
  JSON_parse s = None ->
  on_native_message JSON_parse call namespace (InString s) this
  = MkRun (Normal tt) this
      [Console_error "Failed to parse receiver message:" JsSyntaxError]
  /\ published
       (trace (on_native_message JSON_parse call namespace (InString s) this)) = []
  /\ (forall before after : list (string * Inbound),
        (deliver_messages JSON_parse call
           (before ++ (namespace, InString s) :: after) this).1
        = (deliver_messages JSON_parse call (before ++ after) this).1
        /\ published
             (deliver_messages JSON_parse call
                (before ++ (namespace, InString s) :: after) this).2
           = published (deliver_messages JSON_parse call (before ++ after) this).2)
  /\ (forall messages : list (string * Inbound),
        published (deliver_messages JSON_parse call messages this).2
        = omap (fun m : string * Inbound =>
                  (fun v => (event_name MESSAGE_RECEIVED, MessageReceivedEvent m.1 v))
                    <$> parsed JSON_parse m.2)
               messages)
  /\ result (setupMessageListener sdk this) = Normal tt.
Proof.
  intros Hbad.
  assert (Hrun : on_native_message JSON_parse call namespace (InString s) this
                 = MkRun (Normal tt) this
                     [Console_error "Failed to parse receiver message:" JsSyntaxError]).
  { unfold on_native_message, try_catch, bind. simpl. rewrite Hbad. done. }
  split_and!.
  - exact Hrun.
  - by rewrite Hrun.
  - intros before after.
    destruct (deliver_messages_run (before ++ (namespace, InString s) :: after) this)
      as [-> ->].
    destruct (deliver_messages_run (before ++ after) this) as [-> ->].
    split; [done|]. rewrite !omap_app. cbn [omap list_omap parsed snd].
    by rewrite Hbad.
  - intros messages. apply deliver_messages_run.
  - apply setupMessageListener_run.
Qed.
End MessageClaims.

Lemma malformed_message_is_dropped_witness :
  Sample.parse_digit "{oops" = None
  /\ CastManager.on_native_message Sample.parse_digit Sample.call_1_throws
       "urn:x-cast:com.custom" (CastManager.InString "{oops") Sample.adapter_joined
     = CastManager.MkRun (Normal tt) Sample.adapter_joined
         [CastManager.Console_error "Failed to parse receiver message:" JsSyntaxError].
Proof.
  split; [reflexivity|].
  apply (malformed_message_is_dropped Sample.parse_digit Sample.call_1_throws
           Sample.sdk_casting "urn:x-cast:com.custom" "{oops" Sample.adapter_joined).
  reflexivity.
Defined.

(** Three messages on one channel, the second malformed: the first and
    the third are published, in order. *)
Lemma malformed_message_between_two :
  CastManager.published
    (CastManager.deliver_messages Sample.parse_digit Sample.call_returns
       [("urn:x-cast:com.custom", CastManager.InString "4");
        ("urn:x-cast:com.custom", CastManager.InString "{oops");
        ("urn:x-cast:com.custom", CastManager.InString "2")]
       Sample.adapter_joined).2
  = [("messageReceived", CastManager.MessageReceivedEvent "urn:x-cast:com.custom" 4);
     ("messageReceived", CastManager.MessageReceivedEvent "urn:x-cast:com.custom" 2)].
Proof. reflexivity. Qed.

(** ** Session-lifecycle events *)

Section LifecycleClaims.
Context {Value : Type}.
Context (call : FunctionRef -> CastManager.EventData (Value := Value) -> option Exn).
Import CastManager.
Implicit Types (this : CastManager.t) (sdk : Sdk (Value := Value)).
Implicit Types (events : list (Sdk (Value := Value) * SessionState)).

(** What the listener for [SESSION_STATE_CHANGED] does to the fields of
    an adapter that holds a context: only [session] changes. *)
Lemma on_native_session_state_final sdk (sessionState : SessionState) this :
  is_Some (context this) ->
  final (on_native_session_state call sdk sessionState this)
  = set_session
      (match sessionState with
       | SESSION_STARTED | SESSION_RESUMED => getCurrentSession sdk
       | SESSION_ENDED => None
       | _ => session this
       end) this.
Proof.
  intros [c Hc]. unfold on_native_session_state.
  assert (Hemit : forall (m : M unit) this',
    result (m this) = Normal tt -> final (m this) = this' ->
    final (bind m (fun _ => bind get (fun this0 =>
             emit call SESSION_STATE_CHANGED
               (SessionStateChangeEvent sessionState (session this0)))) this)
    = this').
  { intros m this' Hres Hfin. unfold bind at 1. rewrite Hres, Hfin.
    cbn [final]. unfold bind, get. cbn [result final]. by rewrite emit_run. }
  destruct sessionState; cbn [bool_decide decide_rel orb]; simpl bool_decide.
  all: apply Hemit; try (by rewrite ?set_session_same).
  all: cbn [orb]; unfold bind at 1; unfold get at 1; cbn [result final trace];
    rewrite Hc; unfold bind, tell, modify; cbn [result final trace];
    destruct (setupMessageListener_run sdk (set_session (getCurrentSession sdk) this))
      as (Hres & Hfin & _); by rewrite ?Hres, ?Hfin.
Qed.

Lemma deliver_session_states_cons sdk sessionState events this :
  (deliver_session_states call ((sdk, sessionState) :: events) this).1
  = (deliver_session_states call events
       (final (on_native_session_state call sdk sessionState this))).1.
Proof. done. Qed.

(** C2, as the code has it.  On an adapter that holds a context (an
    initialized one), and with an SDK whose context has a current session
    whenever it reports "started" or "resumed": after any sequence of
    lifecycle events, a session handle is held if and only if some
    "started" or "resumed" event was delivered with no "ended" event after
    it, or a handle was held before the sequence ([initialize] took over
    a running session) and no "ended" event was delivered at all.  Event
    by event: "started" and "resumed" set the handle to the context's
    current session, "ended" clears it, and every other state, "no
    session" among them, leaves it as it is. *)
Theorem session_after_lifecycle_events events this :
  is_Some (context this) ->
  (forall e, e ∈ events -> e.2 = SESSION_STARTED \/ e.2 = SESSION_RESUMED ->
             is_Some (getCurrentSession e.1)) ->
  (is_Some (session (deliver_session_states call events this).1)
   <-> (exists before e after,
          events = before ++ e :: after
          /\ (e.2 = SESSION_STARTED \/ e.2 = SESSION_RESUMED)
          /\ forall e', e' ∈ after -> e'.2 ≠ SESSION_ENDED)
       \/ (is_Some (session this) /\ forall e, e ∈ events -> e.2 ≠ SESSION_ENDED))
  /\ (forall sdk sessionState,
        session (deliver_session_states call [(sdk, sessionState)] this).1
        = match sessionState with
          | SESSION_STARTED | SESSION_RESUMED => getCurrentSession sdk
          | SESSION_ENDED => None
          | NO_SESSION | SESSION_STARTING | SESSION_START_FAILED | SESSION_ENDING =>
              session this
          end).
Proof.
  intros Hctx Hsdk. split.
  - revert this Hctx Hsdk.
    induction events as [|[sdk st] events IH]; intros this Hctx Hsdk.
    { simpl. split.
      - intros Hs. right. split; [done|]. by intros e ?%elem_of_nil.
      - intros [(before & e & after & Heq & _)|[Hs _]]; [|done].
        by destruct before. }
    rewrite deliver_session_states_cons, on_native_session_state_final by done.
    set (this' := set_session _ this).
    assert (Hrest : forall e, e ∈ events ->
              e.2 = SESSION_STARTED \/ e.2 = SESSION_RESUMED ->
              is_Some (getCurrentSession e.1)).
    { intros e He. apply Hsdk. by right. }
    rewrite (IH this' Hctx Hrest). clear IH.
    assert (Hsplit :
      (exists before e after,
          (sdk, st) :: events = before ++ e :: after
          /\ (e.2 = SESSION_STARTED \/ e.2 = SESSION_RESUMED)
          /\ forall e', e' ∈ after -> e'.2 ≠ SESSION_ENDED)
      <-> (exists before e after,
             events = before ++ e :: after
             /\ (e.2 = SESSION_STARTED \/ e.2 = SESSION_RESUMED)
             /\ forall e', e' ∈ after -> e'.2 ≠ SESSION_ENDED)
          \/ ((st = SESSION_STARTED \/ st = SESSION_RESUMED)
              /\ forall e', e' ∈ events -> e'.2 ≠ SESSION_ENDED)).
    { split.
      - intros (before & e & after & Heq & He & Hafter).
        destruct before as [|b before]; simpl in Heq; injection Heq as <- ->.
        + right. done.
        + left. by exists before, e, after.
      - intros [(before & e & after & -> & He & Hafter)|[Hst Hafter]].
        + by exists ((sdk, st) :: before), e, after.
        + by exists [], (sdk, st), events. }
    rewrite Hsplit. clear Hsplit.
    assert (Hall : (forall e, e ∈ (sdk, st) :: events -> e.2 ≠ SESSION_ENDED)
                   <-> st ≠ SESSION_ENDED
                       /\ forall e, e ∈ events -> e.2 ≠ SESSION_ENDED).
    { split.
      - intros H. split; [apply (H (sdk, st)); by left|].
        intros e He. apply H. by right.
      - intros [Hst H] e [->|He]%elem_of_cons; [done|by apply H]. }
    rewrite Hall. clear Hall.
    assert (Hnow : st = SESSION_STARTED \/ st = SESSION_RESUMED ->
                   is_Some (getCurrentSession sdk)).
    { apply (Hsdk (sdk, st)). by left. }
    assert (Hnone : is_Some (@None CastSession) <-> False)
      by (split; [apply is_Some_None|done]).
    unfold this'. destruct st; simpl; rewrite ?Hnone;
      try (specialize (Hnow ltac:(auto))); intuition congruence.
  - intros sdk st. unfold deliver_session_states. simpl.
    rewrite on_native_session_state_final by done. by destruct st.
Qed.
End LifecycleClaims.

(** C2 as stated fails.  On an initialized adapter, "started" followed by
    "no session" leaves the handle in place: the handler clears it for
    "ended" only.  And an adapter that took over a running session in
    [initialize] holds a handle before any lifecycle event. *)
Lemma no_session_event_keeps_the_handle :
  CastManager.initialized Sample.adapter_initialized = true
  /\ CastManager.session Sample.adapter_initialized = None
  /\ CastManager.session
       (CastManager.deliver_session_states Sample.call_returns
          [(Sample.sdk_casting, SESSION_STARTED); (Sample.sdk_idle, NO_SESSION)]
          Sample.adapter_initialized).1
     = Some 7
  /\ CastManager.initialized Sample.adapter_joined = true
  /\ CastManager.session
       (CastManager.deliver_session_states (Value := nat) Sample.call_returns []
          Sample.adapter_joined).1
     = Some 7.
Proof. split_and!; reflexivity. Qed.

Lemma session_after_lifecycle_events_witness :
  is_Some
    (CastManager.session
       (CastManager.deliver_session_states Sample.call_returns
          [(Sample.sdk_casting, SESSION_STARTED); (Sample.sdk_idle, NO_SESSION);
           (Sample.sdk_idle, SESSION_ENDED); (Sample.sdk_casting, SESSION_RESUMED);
           (Sample.sdk_casting, SESSION_ENDING)]
          Sample.adapter_initialized).1).
Proof.
  apply (session_after_lifecycle_events Sample.call_returns
           [(Sample.sdk_casting, SESSION_STARTED); (Sample.sdk_idle, NO_SESSION);
            (Sample.sdk_idle, SESSION_ENDED); (Sample.sdk_casting, SESSION_RESUMED);
            (Sample.sdk_casting, SESSION_ENDING)]
           Sample.adapter_initialized).
  - by eexists.
  - intros e He Hst.
    repeat (apply elem_of_cons in He as [->|He]); simpl in *;
      try (by eexists); try (by destruct Hst); by apply elem_of_nil in He.
  - left.
    exists [(Sample.sdk_casting, SESSION_STARTED); (Sample.sdk_idle, NO_SESSION);
            (Sample.sdk_idle, SESSION_ENDED)],
           (Sample.sdk_casting, SESSION_RESUMED),
           [(Sample.sdk_casting, SESSION_ENDING)].
    split_and!; [reflexivity|by right|].
    intros e He. apply list_elem_of_singleton in He as ->. discriminate.
Defined.

(** ** The singleton accessor *)

Section SingletonClaims.
Implicit Types (p : Program.t) (this r : Program.ObjRef).

Lemma new_is_fresh (c : CastManagerConfig) p :
  Program.heap p !! (Program.new c p).1 = None.
Proof.
  unfold Program.new. simpl. apply not_elem_of_dom. apply is_fresh.
Qed.

(** C10: [getInstance] and the static field.  With no instance stored:
    without a config it throws; with a config it constructs an adapter
    from it, at a reference no object had, stores that reference and
    returns it.  With an instance stored it returns the stored reference
    and changes nothing, whatever config is passed.  [destroy] resets the
    fields of the object it is called on and clears the static field
    exactly when that object is the stored one.  Hence: every
    [getInstance] that follows a successful one returns the same
    reference until [destroy] is called on it, after which [getInstance]
    without a config throws again; [destroy] on another object leaves the
    singleton in place. *)
Theorem getInstance_semantics p :
  (Program.instance p = None ->
     Program.getInstance None p
     = (Thrown (JsError "CastManager config required for first initialization"), p))
  /\ (forall c, Program.instance p = None ->
        exists r p',
          Program.getInstance (Some c) p = (Normal r, p')
          /\ Program.heap p !! r = None
          /\ Program.heap p' = <[r := CastManager.constructor c]> (Program.heap p)
          /\ Program.instance p' = Some r
          /\ Program.auto_initializing p'
             = (if default false (autoInitialize c)
                then Program.auto_initializing p ++ [r]
                else Program.auto_initializing p)
          /\ forall config, Program.getInstance config p' = (Normal r, p'))
  /\ (forall r config, Program.instance p = Some r ->
        Program.getInstance config p = (Normal r, p))
  /\ (forall this,
        Program.heap (Program.destroy this p) !! this
        = CastManager.destroy <$> Program.heap p !! this)
  /\ (forall this, Program.instance p = Some this ->
        Program.instance (Program.destroy this p) = None
        /\ Program.getInstance None (Program.destroy this p)
           = (Thrown (JsError "CastManager config required for first initialization"),
              Program.destroy this p))
  /\ (forall this, Program.instance p ≠ Some this ->
        Program.instance (Program.destroy this p) = Program.instance p
        /\ forall config r, Program.instance p = Some r ->
             Program.getInstance config (Program.destroy this p)
             = (Normal r, Program.destroy this p)).
Proof.
  split_and!.
  - intros Hnone. unfold Program.getInstance. by rewrite Hnone.
  - intros c Hnone. unfold Program.getInstance. rewrite Hnone.
    unfold Program.new. cbn [fst snd Program.heap Program.auto_initializing].
    eexists _, _. split_and!; [reflexivity| |done|done|done|].
    + apply (new_is_fresh c p).
    + intros config. unfold Program.getInstance. done.
  - intros r config Hsome. unfold Program.getInstance. by rewrite Hsome.
  - intros this. unfold Program.destroy. simpl. apply lookup_alter_eq.
  - intros this Hsome. unfold Program.getInstance, Program.destroy. simpl.
    by rewrite decide_True.
  - intros this Hne. unfold Program.getInstance, Program.destroy. simpl.
    rewrite decide_False by done. split; [done|].
    intros config r Hsome. by rewrite Hsome.
Qed.
End SingletonClaims.

Lemma getInstance_semantics_witness :
  Program.getInstance None Program.start
  = (Thrown (JsError "CastManager config required for first initialization"),
     Program.start).
Proof. apply (getInstance_semantics Program.start). reflexivity. Defined.


(** * Further properties of the emitter *)

Section EmitterMore.
Context {Data : Type} (call : FunctionRef -> Data -> option Exn).
Implicit Types (this : EventEmitter.t) (event : string) (f g : FunctionRef).

Lemma delete_list_absent f (l : list FunctionRef) :
  f ∉ l -> JsSet.delete_list f l = l.
Proof.
  unfold JsSet.delete_list. induction l as [|g l IH]; [done|].
  rewrite not_elem_of_cons. intros [Hne Hl].
  rewrite filter_cons, decide_True by (intros ->; done). by rewrite IH.
Qed.

Lemma add_list_absent f (l : list FunctionRef) :
  f ∉ l -> JsSet.add_list f l = l ++ [f].
Proof. intros Hf. unfold JsSet.add_list. by rewrite decide_False. Qed.

Lemma add_list_present f (l : list FunctionRef) :
  f ∈ l -> JsSet.add_list f l = l.
Proof. intros Hf. unfold JsSet.add_list. by rewrite decide_True. Qed.

Lemma emit_same_registered event (d : Data) this this' :
  EventEmitter.registered event this = EventEmitter.registered event this' ->
  EventEmitter.emit call event d this = EventEmitter.emit call event d this'.
Proof. intros H. by rewrite !emit_registered, H. Qed.

(** X1: [off] with a listener that is not registered under the event
    (the event may never have been used) changes nothing at all. *)
Theorem off_absent_is_noop event f this :
  f ∉ EventEmitter.registered event this ->
  EventEmitter.off event f this = this.
Proof.
  unfold EventEmitter.registered, EventEmitter.off.
  destruct (this !! event) as [s|] eqn:Hs; [|done].
  intros Hf. apply insert_id. rewrite Hs. f_equal.
  apply JsSet.eq_of_elements. simpl. symmetry. by apply delete_list_absent.
Qed.

(** X2: subscribing a listener that was not registered under an event
    and unsubscribing it again restores the listeners of every event, in
    their order, so every publish does what it did before. *)
Theorem on_off_round_trip event f this :
  f ∉ EventEmitter.registered event this ->
  forall event',
    EventEmitter.registered event'
      (EventEmitter.off event f (EventEmitter.on event f this))
    = EventEmitter.registered event' this
    /\ forall d : Data,
         EventEmitter.emit call event' d
           (EventEmitter.off event f (EventEmitter.on event f this))
         = EventEmitter.emit call event' d this.
Proof.
  intros Hf event'.
  assert (Hreg : EventEmitter.registered event'
                   (EventEmitter.off event f (EventEmitter.on event f this))
                 = EventEmitter.registered event' this).
  { destruct (decide (event = event')) as [<-|Hne].
    - rewrite registered_off, registered_on, delete_add_list.
      by apply delete_list_absent.
    - by rewrite registered_off_ne, registered_on_ne. }
  split; [done|]. intros d. by apply emit_same_registered.
Qed.

(** X3: the call order is the subscription order, and subscribing again
    after unsubscribing moves a listener to the end: a listener that is
    registered keeps its place when [on] is called for it again, while
    [off] followed by [on] leaves the other listeners in their order with
    the listener last. *)
Theorem on_after_off_moves_to_end event f this :
  EventEmitter.registered event
    (EventEmitter.on event f (EventEmitter.off event f this))
  = JsSet.delete_list f (EventEmitter.registered event this) ++ [f]
  /\ (f ∈ EventEmitter.registered event this ->
      EventEmitter.registered event (EventEmitter.on event f this)
      = EventEmitter.registered event this)
  /\ (f ∉ EventEmitter.registered event this ->
      EventEmitter.registered event (EventEmitter.on event f this)
      = EventEmitter.registered event this ++ [f]).
Proof.
  split_and!.
  - rewrite registered_on, registered_off. apply add_list_absent.
    rewrite elem_of_delete_list. by intros [? _].
  - intros Hf. rewrite registered_on. by apply add_list_present.
  - intros Hf. rewrite registered_on. by apply add_list_absent.
Qed.

(** X5: [removeAllListeners] without an argument removes the listeners
    of every event; so does [removeAllListeners("")], the empty string
    being falsy; [removeAllListeners(e)] for any other [e] removes the
    listeners of [e] and leaves those of every other event as they are. *)
Theorem removeAllListeners_scope this :
  (forall event',
     EventEmitter.registered event' (EventEmitter.removeAllListeners None this) = [])
  /\ EventEmitter.removeAllListeners (Some "") this
     = EventEmitter.removeAllListeners None this
  /\ (forall event event', event ≠ "" ->
        EventEmitter.registered event'
          (EventEmitter.removeAllListeners (Some event) this)
        = if decide (event' = event) then []
          else EventEmitter.registered event' this)
  /\ (forall event event' (d : Data), event ≠ "" ->
        EventEmitter.emit call event' d
          (EventEmitter.removeAllListeners (Some event) this)
        = if decide (event' = event) then ([], None)
          else EventEmitter.emit call event' d this).
Proof.
  assert (Hreg : forall event event', event ≠ "" ->
            EventEmitter.registered event'
              (EventEmitter.removeAllListeners (Some event) this)
            = if decide (event' = event) then []
              else EventEmitter.registered event' this).
  { intros event event' Hne.
    unfold EventEmitter.removeAllListeners, EventEmitter.registered.
    rewrite decide_False by done. case_decide as Heq.
    - subst event'. by rewrite lookup_delete_eq.
    - by rewrite lookup_delete_ne. }
  split_and!; [| |exact Hreg|].
  - intros event'. unfold EventEmitter.removeAllListeners, EventEmitter.registered.
    by rewrite lookup_empty.
  - done.
  - intros event event' d Hne. rewrite emit_registered, Hreg by done.
    case_decide; [done|]. by rewrite emit_registered.
Qed.

(** X6: the events are independent: [on] and [off] under one event
    change neither the listeners registered under another event nor what
    a publish of that other event does. *)
Theorem other_events_untouched event event' f (d : Data) this :
  event ≠ event' ->
  EventEmitter.registered event' (EventEmitter.on event f this)
  = EventEmitter.registered event' this
  /\ EventEmitter.registered event' (EventEmitter.off event f this)
     = EventEmitter.registered event' this
  /\ EventEmitter.emit call event' d (EventEmitter.on event f this)
     = EventEmitter.emit call event' d this
  /\ EventEmitter.emit call event' d (EventEmitter.off event f this)
     = EventEmitter.emit call event' d this.
Proof.
  intros Hne.
  pose proof (registered_on_ne event event' f this Hne) as Hon.
  pose proof (registered_off_ne event event' f this Hne) as Hoff.
  split_and!; [done|done| |]; by apply emit_same_registered.
Qed.
End EmitterMore.

(** Closes [x ∉ [a; b; ...]] for distinct numerals. *)
Ltac not_in_list :=
  let H := fresh "Hin" in
  intros H;
  repeat (apply elem_of_cons in H as [H|H]; [discriminate H|]);
  by apply elem_of_nil in H.

Lemma off_absent_is_noop_witness :
  EventEmitter.off "e" 5 Sample.emitter_0_1_2 = Sample.emitter_0_1_2
  /\ EventEmitter.off "never used" 1 Sample.emitter_0_1_2 = Sample.emitter_0_1_2.
Proof.
  split.
  - apply (off_absent_is_noop "e" 5 Sample.emitter_0_1_2).
    replace (EventEmitter.registered "e" Sample.emitter_0_1_2) with [0; 1; 2]
      by by vm_compute.
    not_in_list.
  - apply (off_absent_is_noop "never used" 1 Sample.emitter_0_1_2).
    replace (EventEmitter.registered "never used" Sample.emitter_0_1_2)
      with (@nil FunctionRef) by by vm_compute.
    not_in_list.
Defined.

Lemma on_off_round_trip_witness :
  EventEmitter.registered "e"
    (EventEmitter.off "e" 5 (EventEmitter.on "e" 5 Sample.emitter_0_1_2))
  = EventEmitter.registered "e" Sample.emitter_0_1_2.
Proof.
  apply (on_off_round_trip (Data := unit) Sample.call_returns "e" 5
           Sample.emitter_0_1_2).
  replace (EventEmitter.registered "e" Sample.emitter_0_1_2) with [0; 1; 2]
    by by vm_compute.
  not_in_list.
Defined.

Lemma on_after_off_moves_to_end_witness :
  EventEmitter.registered "e" (EventEmitter.on "e" 1 Sample.emitter_0_1_2)
  = EventEmitter.registered "e" Sample.emitter_0_1_2
  /\ EventEmitter.registered "e"
       (EventEmitter.on "e" 1 (EventEmitter.off "e" 1 Sample.emitter_0_1_2))
     = [0; 2; 1].
Proof.
  split.
  - apply (on_after_off_moves_to_end "e" 1 Sample.emitter_0_1_2).
    replace (EventEmitter.registered "e" Sample.emitter_0_1_2) with [0; 1; 2]
      by by vm_compute.
    apply list_elem_of_In. simpl. auto.
  - rewrite (proj1 (on_after_off_moves_to_end "e" 1 Sample.emitter_0_1_2)).
    by vm_compute.
Defined.

Lemma removeAllListeners_scope_witness :
  EventEmitter.registered "e"
    (EventEmitter.removeAllListeners (Some "f") Sample.emitter_0_1_2)
  = (if decide ("e" = "f") then [] else EventEmitter.registered "e" Sample.emitter_0_1_2).
Proof.
  apply (removeAllListeners_scope (Data := unit) Sample.call_returns
           Sample.emitter_0_1_2).
  discriminate.
Defined.

Lemma other_events_untouched_witness :
  EventEmitter.registered "f" (EventEmitter.on "e" 9 Sample.emitter_0_1_2)
  = EventEmitter.registered "f" Sample.emitter_0_1_2.
Proof.
  apply (other_events_untouched Sample.call_returns "e" "f" 9 tt
           Sample.emitter_0_1_2).
  discriminate.
Defined.

(** * Further properties of the adapter *)

(** ** Rules for [wp] and the runs of the building blocks *)

Section AdapterRuns.
Context {Value : Type} (JSON_parse : string -> option Value).
Context (call : FunctionRef -> CastManager.EventData (Value := Value) -> option Exn).
Import CastManager.
Implicit Types (this : CastManager.t) (sdk : Sdk (Value := Value)).

Lemma run_eta {A} (r : Run (Value := Value) A) :
  MkRun (result r) (final r) (trace r) = r.
Proof. by destruct r. Qed.

Lemma wp_bind {A B} (m : M (Value := Value) A) (k : A -> M B) this Q :
  wp m this (wp_then k Q) -> wp (bind m k) this Q.
Proof.
  unfold wp, wp_then, bind.
  by destruct (result (m this)); cbn [result final trace].
Qed.

Lemma wp_run {A} (m : M (Value := Value) A) this r s tr
    (Q : Completion A -> CastManager.t -> list Effect -> Prop) :
  m this = MkRun r s tr -> Q r s tr -> wp m this Q.
Proof. unfold wp. by intros ->. Qed.

Lemma wp_get this (Q : Completion CastManager.t -> CastManager.t -> list Effect -> Prop) :
  Q (Normal this) this [] -> wp (get (Value := Value)) this Q.
Proof. done. Qed.

Lemma wp_tell es this (Q : Completion unit -> CastManager.t -> list Effect -> Prop) :
  Q (Normal tt) this es -> wp (tell (Value := Value) es) this Q.
Proof. done. Qed.

Lemma wp_modify f this (Q : Completion unit -> CastManager.t -> list Effect -> Prop) :
  Q (Normal tt) (f this) [] -> wp (modify (Value := Value) f) this Q.
Proof. done. Qed.

Lemma wp_ret {A} (a : A) this (Q : Completion A -> CastManager.t -> list Effect -> Prop) :
  Q (Normal a) this [] -> wp (ret (Value := Value) a) this Q.
Proof. done. Qed.

Lemma wp_throw {A} x this (Q : Completion A -> CastManager.t -> list Effect -> Prop) :
  Q (Thrown x) this [] -> wp (throw (Value := Value) x) this Q.
Proof. done. Qed.

Lemma wp_emit type d this (Q : Completion unit -> CastManager.t -> list Effect -> Prop) :
  Q (match (EventEmitter.emit call (event_name type) d (listeners this)).2 with
     | Some x => Thrown x
     | None => Normal tt
     end)
    this
    (Emit (event_name type) d
       :: map (fun f => Call f d)
            (EventEmitter.emit call (event_name type) d (listeners this)).1) ->
  wp (emit call type d) this Q.
Proof. intros H. eapply wp_run; [apply emit_run|exact H]. Qed.

Lemma setupMessageListener_eq sdk this :
  setupMessageListener sdk this
  = MkRun (Normal tt) this (setupMessageListener_effects sdk this).
Proof.
  unfold setupMessageListener, setupMessageListener_effects, bind, get, try_catch,
    tell, foreign.
  cbn [result final trace]. destruct (session this) as [s|]; [|done].
  cbn [result final trace].
  by destruct (addMessageListener_throws sdk s _).
Qed.

(** [waitForCastFramework] with the fuel of [initialize]. *)
Lemma waitForCastFramework_run browser this :
  exists n,
    n <= 20
    /\ (forall k, k < n -> framework_after browser k = false)
    /\ (framework_after browser n = true \/ n = 20)
    /\ waitForCastFramework (Value := Value) browser poll_fuel this
       = MkRun (if framework_after browser n then Normal tt
                else Thrown (JsError "Cast framework failed to initialize."))
           this (replicate n (SetTimeout 100)).
Proof.
  destruct (waitForCastFramework_loop_run (Value := Value) browser poll_fuel 0 this
              ltac:(lia) ltac:(unfold poll_fuel; lia))
    as (n & Hn & Hrun & Hbefore & Hend).
  exists n. split_and!; [lia|intros k Hk; apply Hbefore; lia|done|].
  unfold waitForCastFramework, bind. rewrite Hrun. cbn [result final trace].
  rewrite Nat.sub_0_r. by destruct (framework_after browser n); cbn; rewrite app_nil_r.
Qed.

(** The complete run of [initialize()] on an adapter whose flag is not
    set, in terms of the run of the bootstrap. *)
Lemma initialize_run browser sdk this :
  initialized this = false ->
  initialize call browser sdk this
  = match result (loadCastFramework (Value := Value) browser this) with
    | Normal _ =>
        match (EventEmitter.emit call (event_name CAST_STATE_CHANGED)
                 (CastStateChangeEvent (getCastState sdk)) (listeners this)).2 with
        | Some x =>
            MkRun (Thrown x)
              (set_session (getCurrentSession sdk) (set_context (Some castContext) this))
              (trace (loadCastFramework (Value := Value) browser this)
               ++ [CastContext_getInstance;
                   Context_setOptions (Required.receiverApplicationId (config this));
                   Context_getCurrentSession;
                   Context_getCastState;
                   Emit (event_name CAST_STATE_CHANGED)
                     (CastStateChangeEvent (getCastState sdk))]
               ++ map (fun f => Call f (CastStateChangeEvent (getCastState sdk)))
                    (EventEmitter.emit call (event_name CAST_STATE_CHANGED)
                       (CastStateChangeEvent (getCastState sdk)) (listeners this)).1)
        | None =>
            MkRun (Normal tt)
              (set_initialized true
                 (set_session (getCurrentSession sdk)
                    (set_context (Some castContext) this)))
              (trace (loadCastFramework (Value := Value) browser this)
               ++ [CastContext_getInstance;
                   Context_setOptions (Required.receiverApplicationId (config this));
                   Context_getCurrentSession;
                   Context_getCastState;
                   Emit (event_name CAST_STATE_CHANGED)
                     (CastStateChangeEvent (getCastState sdk))]
               ++ map (fun f => Call f (CastStateChangeEvent (getCastState sdk)))
                    (EventEmitter.emit call (event_name CAST_STATE_CHANGED)
                       (CastStateChangeEvent (getCastState sdk)) (listeners this)).1
               ++ [Context_addEventListener Native_CAST_STATE_CHANGED;
                   Context_addEventListener Native_SESSION_STATE_CHANGED]
               ++ setupMessageListener_effects sdk
                    (set_session (getCurrentSession sdk)
                       (set_context (Some castContext) this)))
        end
    | Thrown x =>
        MkRun (Thrown x) this (trace (loadCastFramework (Value := Value) browser this))
    | Suspended =>
        MkRun Suspended this (trace (loadCastFramework (Value := Value) browser this))
    | OutOfFuel =>
        MkRun OutOfFuel this (trace (loadCastFramework (Value := Value) browser this))
    end.
Proof.
  intros Hinit. rewrite <- (run_eta (initialize call browser sdk this)).
  match goal with
  | |- _ = ?rhs =>
      set (Q := fun r s tr => MkRun (Value := Value) (A := unit) r s tr = rhs)
  end.
  change (wp (initialize call browser sdk) this Q). unfold initialize.
  apply wp_bind, wp_get. cbn [wp_then]. rewrite Hinit.
  apply wp_bind. unfold wp at 1.
  rewrite (loadCastFramework_final browser this).
  destruct (result (loadCastFramework (Value := Value) browser this)) as [[]| | |];
    cbn [wp_then]; try (unfold Q; by rewrite ?app_nil_l).
  apply wp_bind, wp_tell; cbn [wp_then].
  apply wp_bind, wp_modify; cbn [wp_then].
  apply wp_bind, wp_tell; cbn [wp_then].
  apply wp_bind, wp_tell; cbn [wp_then].
  apply wp_bind, wp_modify; cbn [wp_then].
  apply wp_bind, wp_tell; cbn [wp_then].
  apply wp_bind, wp_emit. cbn [listeners set_session set_context].
  destruct (EventEmitter.emit call _ _ _).2; cbn [wp_then].
  { unfold Q. rewrite ?app_nil_l, ?app_nil_r. by rewrite <- ?app_assoc. }
  apply wp_bind, wp_tell; cbn [wp_then].
  apply wp_bind, wp_tell; cbn [wp_then].
  apply wp_bind, wp_get; cbn [wp_then].
  apply wp_bind.
  eapply wp_run.
  { instantiate (3 := Normal tt).
    instantiate (2 := set_session (getCurrentSession sdk)
                        (set_context (Some castContext) this)).
    instantiate (1 := setupMessageListener_effects sdk
                        (set_session (getCurrentSession sdk)
                           (set_context (Some castContext) this))).
    cbn [session set_session].
    destruct (getCurrentSession sdk) as [s|] eqn:Hs.
    - apply setupMessageListener_eq.
    - done. }
  cbn [wp_then]. apply wp_modify. unfold Q.
  rewrite ?app_nil_l, ?app_nil_r. reflexivity.
Qed.
End AdapterRuns.

(** ** The bootstrap and [initialize] *)

Section InitializeMore.
Context {Value : Type}.
Context (call : FunctionRef -> CastManager.EventData (Value := Value) -> option Exn).
Import CastManager.
Implicit Types (this : CastManager.t) (sdk : Sdk (Value := Value)).
Implicit Types (tr : list (Effect (Value := Value))).

Lemma sdk_calls_app tr1 tr2 : sdk_calls (tr1 ++ tr2) = sdk_calls tr1 ++ sdk_calls tr2.
Proof. unfold sdk_calls. apply List.filter_app. Qed.

Lemma sdk_calls_calls (d : EventData (Value := Value)) (fs : list FunctionRef) :
  sdk_calls (map (fun f => Call f d) fs) = [].
Proof. induction fs as [|f fs IH]; [done|]. exact IH. Qed.

Lemma sdk_calls_delays n : sdk_calls (replicate n (SetTimeout (Value := Value) 100)) = [].
Proof. induction n as [|n IH]; [done|]. exact IH. Qed.

Lemma published_delays n : published (replicate n (SetTimeout (Value := Value) 100)) = [].
Proof. induction n as [|n IH]; [done|]. exact IH. Qed.

Lemma native_listeners_app tr1 tr2 :
  native_listeners (tr1 ++ tr2) = native_listeners tr1 ++ native_listeners tr2.
Proof. unfold native_listeners. apply omap_app. Qed.

Lemma native_listeners_calls (d : EventData (Value := Value)) (fs : list FunctionRef) :
  native_listeners (map (fun f => Call f d) fs) = [].
Proof. induction fs as [|f fs IH]; [done|]. exact IH. Qed.

Lemma native_listeners_delays n :
  native_listeners (replicate n (SetTimeout (Value := Value) 100)) = [].
Proof. induction n as [|n IH]; [done|]. exact IH. Qed.

Lemma published_setupMessageListener sdk this :
  published (setupMessageListener_effects sdk this) = [].
Proof.
  unfold setupMessageListener_effects. destruct (session this) as [s|]; [|done].
  by destruct (addMessageListener_throws sdk s _).
Qed.

Lemma native_listeners_setupMessageListener sdk this :
  native_listeners (setupMessageListener_effects sdk this) = [].
Proof.
  unfold setupMessageListener_effects. destruct (session this) as [s|]; [|done].
  by destruct (addMessageListener_throws sdk s _).
Qed.

Lemma sdk_calls_setupMessageListener sdk this :
  sdk_calls (setupMessageListener_effects sdk this)
  = match session this with
    | Some s => [Session_addMessageListener s (Required.namespace (config this))]
    | None => []
    end.
Proof.
  unfold setupMessageListener_effects. destruct (session this) as [s|]; [|done].
  by destruct (addMessageListener_throws sdk s _).
Qed.

(** The run of [loadCastFramework], case by case. *)
Lemma loadCastFramework_cases browser this :
  loadCastFramework (Value := Value) browser this
  = if framework_present browser then MkRun (Normal tt) this []
    else if negb (script_loads browser)
    then MkRun (Thrown (JsError "Failed to load Cast SDK")) this
           [AppendScript script_src]
    else if negb (api_available browser)
    then MkRun Suspended this [AppendScript script_src]
    else MkRun (result (waitForCastFramework (Value := Value) browser poll_fuel this))
           this
           (AppendScript script_src
              :: trace (waitForCastFramework (Value := Value) browser poll_fuel this)).
Proof.
  unfold loadCastFramework. destruct (framework_present browser); [done|].
  destruct (script_loads browser); [|done].
  destruct (api_available browser); [|done].
  cbn [negb]. rewrite <- (run_eta (bind _ _ this)).
  match goal with
  | |- _ = ?rhs =>
      set (Q := fun r s tr => MkRun (Value := Value) (A := unit) r s tr = rhs)
  end.
  match goal with
  | |- MkRun (result (?m this)) _ _ = _ => change (wp m this Q)
  end.
  apply wp_bind, wp_tell; cbn [wp_then].
  apply wp_bind, wp_ret; cbn [wp_then].
  apply wp_bind, wp_ret; cbn [wp_then].
  unfold wp, Q. rewrite waitForCastFramework_final. reflexivity.
Qed.

(** The bootstrap never runs out of fuel, changes no field, publishes
    nothing and makes no call into the SDK. *)
Lemma loadCastFramework_quiet browser this :
  result (loadCastFramework (Value := Value) browser this) ≠ OutOfFuel
  /\ final (loadCastFramework (Value := Value) browser this) = this
  /\ sdk_calls (trace (loadCastFramework (Value := Value) browser this)) = []
  /\ published (trace (loadCastFramework (Value := Value) browser this)) = []
  /\ native_listeners (trace (loadCastFramework (Value := Value) browser this)) = [].
Proof.
  rewrite loadCastFramework_cases.
  destruct (framework_present browser); [done|].
  destruct (script_loads browser); [|done].
  destruct (api_available browser); [|done].
  cbn [negb result final trace].
  destruct (waitForCastFramework_run (Value := Value) browser this)
    as (n & _ & _ & _ & ->).
  cbn [result final trace].
  split_and!; [by destruct (framework_after browser n)|done| | |].
  - change (sdk_calls (replicate n (SetTimeout (Value := Value) 100)) = []).
    apply sdk_calls_delays.
  - change (published (replicate n (SetTimeout (Value := Value) 100)) = []).
    apply published_delays.
  - change (native_listeners (replicate n (SetTimeout (Value := Value) 100)) = []).
    apply native_listeners_delays.
Qed.

(** X7: how [loadCastFramework] ends, and what it does on the way.  With
    the framework object already there it returns at once and injects no
    script.  Otherwise it injects the SDK's script exactly once; it is
    rejected with [Error("Failed to load Cast SDK")] when the script does
    not load; it never settles when [__onGCastApiAvailable] is never
    called with [true]; and else it polls, with at most 20 delays of
    100 ms after the injection, and is fulfilled or rejected with
    [Error("Cast framework failed to initialize.")] according to whether
    the framework object has appeared.  No field of the adapter
    changes. *)
Theorem loadCastFramework_outcomes (browser : Browser) this :
  final (loadCastFramework (Value := Value) browser this) = this
  /\ (framework_present browser = true ->
      loadCastFramework (Value := Value) browser this = MkRun (Normal tt) this [])
  /\ (framework_present browser = false -> script_loads browser = false ->
      loadCastFramework (Value := Value) browser this
      = MkRun (Thrown (JsError "Failed to load Cast SDK")) this
          [AppendScript script_src])
  /\ (framework_present browser = false -> script_loads browser = true ->
      api_available browser = false ->
      loadCastFramework (Value := Value) browser this
      = MkRun Suspended this [AppendScript script_src])
  /\ (framework_present browser = false -> script_loads browser = true ->
      api_available browser = true ->
      exists n,
        n <= 20
        /\ (forall k, k < n -> framework_after browser k = false)
        /\ (framework_after browser n = true \/ n = 20)
        /\ loadCastFramework (Value := Value) browser this
           = MkRun (if framework_after browser n then Normal tt
                    else Thrown (JsError "Cast framework failed to initialize."))
               this
               (AppendScript script_src :: replicate n (SetTimeout 100))).
Proof.
  split_and!.
  - apply loadCastFramework_quiet.
  - intros Hp. by rewrite loadCastFramework_cases, Hp.
  - intros Hp Hs. by rewrite loadCastFramework_cases, Hp, Hs.
  - intros Hp Hs Ha. by rewrite loadCastFramework_cases, Hp, Hs, Ha.
  - intros Hp Hs Ha. rewrite loadCastFramework_cases, Hp, Hs, Ha. cbn [negb].
    destruct (waitForCastFramework_run (Value := Value) browser this)
      as (n & Hn & Hbefore & Hend & ->).
    exists n. by split_and!.
Qed.

(** X8: how [initialize()] ends on an adapter whose flag is not set.  It
    is fulfilled, or rejected, or it never settles; it never settles
    exactly when the framework object is not there, the injected script
    loads, and [__onGCastApiAvailable] is never called with [true] (the
    code has no timeout for that).  The flag is set afterwards exactly
    when the promise was fulfilled: a rejected or never-settling
    [initialize()] leaves the flag unset.  Neither the listeners of the
    emitter nor the configuration change in any case. *)
Theorem initialize_sets_flag_iff_fulfilled (browser : Browser) sdk this :
  initialized this = false ->
  (result (initialize call browser sdk this) = Normal tt
   \/ (exists x, result (initialize call browser sdk this) = Thrown x)
   \/ result (initialize call browser sdk this) = Suspended)
  /\ (result (initialize call browser sdk this) = Suspended
      <-> framework_present browser = false
          /\ script_loads browser = true
          /\ api_available browser = false)
  /\ (initialized (final (initialize call browser sdk this)) = true
      <-> result (initialize call browser sdk this) = Normal tt)
  /\ listeners (final (initialize call browser sdk this)) = listeners this
  /\ config (final (initialize call browser sdk this)) = config this.
Proof.
  intros Hinit. rewrite (initialize_run call browser sdk this Hinit).
  rewrite loadCastFramework_cases.
  destruct (framework_present browser); cbn [result].
  { destruct (EventEmitter.emit call _ _ _).2 as [x|]; cbn; rewrite ?Hinit;
      split_and!; try done; eauto; (split; [done|]; by intros (? & _)). }
  destruct (script_loads browser); cbn [negb result final].
  2: { rewrite Hinit. split_and!; try done; eauto.
       split; [done|]. by intros (_ & ? & _). }
  destruct (api_available browser); cbn [negb result final].
  2: { rewrite Hinit. split_and!; try done; eauto. }
  destruct (waitForCastFramework_run (Value := Value) browser this)
    as (n & _ & _ & _ & ->). cbn [result].
  destruct (framework_after browser n); cbn [result final].
  - destruct (EventEmitter.emit call _ _ _).2 as [x|]; cbn; rewrite ?Hinit;
      split_and!; try done; eauto; (split; [done|]; by intros (_ & _ & ?)).
  - rewrite Hinit. split_and!; try done; eauto.
    split; [done|]. by intros (_ & _ & ?).
Qed.

(** X9: a fulfilled [initialize()] on an adapter whose flag was not set
    publishes exactly one event, [castStateChanged] with the state the
    context reports; it adds exactly two listeners to the context, for
    [CAST_STATE_CHANGED] and [SESSION_STATE_CHANGED] in that order; and
    its calls into the SDK are, in order, [getInstance], [setOptions]
    with the configured receiver application id, [getCurrentSession],
    [getCastState], the two [addEventListener] and, only when the context
    already had a session, [addMessageListener] on that session for the
    configured namespace.  It leaves that context and session in the
    fields. *)
Theorem initialize_fulfilled_effects (browser : Browser) sdk this :
  initialized this = false ->
  result (initialize call browser sdk this) = Normal tt ->
  published (trace (initialize call browser sdk this))
  = [(event_name CAST_STATE_CHANGED, CastStateChangeEvent (getCastState sdk))]
  /\ native_listeners (trace (initialize call browser sdk this))
     = [Native_CAST_STATE_CHANGED; Native_SESSION_STATE_CHANGED]
  /\ sdk_calls (trace (initialize call browser sdk this))
     = [CastContext_getInstance;
        Context_setOptions (Required.receiverApplicationId (config this));
        Context_getCurrentSession;
        Context_getCastState;
        Context_addEventListener Native_CAST_STATE_CHANGED;
        Context_addEventListener Native_SESSION_STATE_CHANGED]
       ++ match getCurrentSession sdk with
          | Some s => [Session_addMessageListener s (Required.namespace (config this))]
          | None => []
          end
  /\ context (final (initialize call browser sdk this)) = Some castContext
  /\ session (final (initialize call browser sdk this)) = getCurrentSession sdk.
Proof.
  intros Hinit. rewrite (initialize_run call browser sdk this Hinit).
  destruct (loadCastFramework_quiet browser this) as (_ & _ & Hsdk & Hpub & Hnat).
  destruct (result (loadCastFramework (Value := Value) browser this)) as [[]| | |];
    cbn [result]; try discriminate.
  destruct (EventEmitter.emit call _ _ _).2; cbn [result final trace]; [discriminate|].
  intros _. split_and!; [| | |done|done].
  - rewrite !published_app, Hpub, published_calls, published_setupMessageListener.
    reflexivity.
  - rewrite !native_listeners_app, Hnat, native_listeners_calls,
      native_listeners_setupMessageListener.
    reflexivity.
  - rewrite !sdk_calls_app, Hsdk, sdk_calls_calls, sdk_calls_setupMessageListener.
    reflexivity.
Qed.

(** X10: when a [castStateChanged] listener throws on the initial state,
    [initialize()] (the bootstrap having succeeded) is rejected with that
    exception; by then the context and its current session are in the
    fields, but the flag stays unset, no listener was added to the
    context and no message listener installed. *)
Theorem initialize_rejected_by_listener (browser : Browser) sdk this x :
  initialized this = false ->
  result (loadCastFramework (Value := Value) browser this) = Normal tt ->
  (EventEmitter.emit call (event_name CAST_STATE_CHANGED)
     (CastStateChangeEvent (getCastState sdk)) (listeners this)).2 = Some x ->
  result (initialize call browser sdk this) = Thrown x
  /\ final (initialize call browser sdk this)
     = set_session (getCurrentSession sdk) (set_context (Some castContext) this)
  /\ initialized (final (initialize call browser sdk this)) = false
  /\ native_listeners (trace (initialize call browser sdk this)) = []
  /\ sdk_calls (trace (initialize call browser sdk this))
     = [CastContext_getInstance;
        Context_setOptions (Required.receiverApplicationId (config this));
        Context_getCurrentSession;
        Context_getCastState].
Proof.
  intros Hinit Hload Hthrow. rewrite (initialize_run call browser sdk this Hinit).
  destruct (loadCastFramework_quiet browser this) as (_ & _ & Hsdk & _ & Hnat).
  rewrite Hload, Hthrow. cbn [result final trace initialized set_session set_context].
  split_and!; [done|done|done| |].
  - rewrite !native_listeners_app, Hnat, native_listeners_calls. reflexivity.
  - rewrite !sdk_calls_app, Hsdk, sdk_calls_calls. reflexivity.
Qed.
End InitializeMore.

(** ** Native events *)

Section NativeEventsMore.
Context {Value : Type} (JSON_parse : string -> option Value).
Context (call : FunctionRef -> CastManager.EventData (Value := Value) -> option Exn).
Import CastManager.
Implicit Types (this : CastManager.t) (sdk : Sdk (Value := Value)).
Implicit Types (tr : list (Effect (Value := Value))).

Lemma wp_emit_after pre type d this
    (Q : Completion unit -> CastManager.t -> list Effect -> Prop) :
  (forall r s tr, emit_after call pre type d this = MkRun r s tr -> Q r s tr) ->
  wp (emit call type d) this (fun r s tr => Q r s (pre ++ tr)).
Proof.
  intros H. unfold wp. apply H. unfold emit_after.
  by rewrite emit_run.
Qed.

(** The complete run of the listener for [SESSION_STATE_CHANGED]. *)
Lemma on_native_session_state_run sdk (sessionState : SessionState) this :
  on_native_session_state call sdk sessionState this
  = if started_or_resumed sessionState then
      match context this with
      | None => MkRun (Thrown JsTypeError) this []
      | Some _ =>
          emit_after call
            (Context_getCurrentSession
               :: setupMessageListener_effects sdk
                    (set_session (getCurrentSession sdk) this))
            SESSION_STATE_CHANGED
            (SessionStateChangeEvent sessionState (getCurrentSession sdk))
            (set_session (getCurrentSession sdk) this)
      end
    else if bool_decide (sessionState = SESSION_ENDED) then
      emit_after call [] SESSION_STATE_CHANGED
        (SessionStateChangeEvent sessionState None) (set_session None this)
    else
      emit_after call [] SESSION_STATE_CHANGED
        (SessionStateChangeEvent sessionState (session this)) this.
Proof.
  rewrite <- (run_eta (on_native_session_state call sdk sessionState this)).
  match goal with
  | |- _ = ?rhs =>
      set (Q := fun r s tr => MkRun (Value := Value) (A := unit) r s tr = rhs)
  end.
  change (wp (on_native_session_state call sdk sessionState) this Q).
  unfold on_native_session_state. fold (started_or_resumed sessionState).
  apply wp_bind.
  destruct (started_or_resumed sessionState).
  - apply wp_bind, wp_get; cbn [wp_then].
    destruct (context this) as [c|]; [|by apply wp_throw].
    apply wp_bind, wp_tell; cbn [wp_then].
    apply wp_bind, wp_modify; cbn [wp_then].
    eapply wp_run; [apply setupMessageListener_eq|]. cbn [wp_then].
    apply wp_bind, wp_get; cbn [wp_then].
    unfold wp, Q, emit_after. rewrite !emit_run.
    cbn [result final trace session set_session].
    by rewrite ?app_nil_l, ?app_nil_r.
  - destruct (bool_decide (sessionState = SESSION_ENDED)).
    + apply wp_modify; cbn [wp_then].
      apply wp_bind, wp_get; cbn [wp_then].
      unfold wp, Q, emit_after. rewrite !emit_run.
      cbn [result final trace session set_session].
      by rewrite ?app_nil_l, ?app_nil_r.
    + apply wp_ret; cbn [wp_then].
      apply wp_bind, wp_get; cbn [wp_then].
      unfold wp, Q, emit_after. rewrite !emit_run.
      cbn [result final trace session set_session].
      by rewrite ?app_nil_l, ?app_nil_r.
Qed.

Lemma emit_after_facts pre type d s :
  final (emit_after call pre type d s) = s
  /\ published (trace (emit_after call pre type d s))
     = published pre ++ [(event_name type, d)]
  /\ sdk_calls (trace (emit_after call pre type d s)) = sdk_calls pre
  /\ (result (emit_after call pre type d s) = Normal tt
      \/ exists x, result (emit_after call pre type d s) = Thrown x
                   /\ (EventEmitter.emit call (event_name type) d (listeners s)).2
                      = Some x).
Proof.
  unfold emit_after. rewrite emit_run. cbn [result final trace].
  split_and!; [done| | |].
  - rewrite published_app. simpl. by rewrite published_calls.
  - rewrite sdk_calls_app. unfold sdk_calls at 2. simpl.
    fold (sdk_calls (map (fun f => Call f d)
                       (EventEmitter.emit call (event_name type) d (listeners s)).1)).
    by rewrite sdk_calls_calls, app_nil_r.
  - destruct (EventEmitter.emit call _ _ _).2 as [x|]; [right; by exists x|by left].
Qed.

(** X11: on an adapter that holds a context, every native lifecycle
    event, whatever its state, is republished as exactly one
    [sessionStateChanged] event; the session in that event is the handle
    the adapter holds after the transition, so a listener that computes
    "connected" from the event agrees with [isConnected]; the context is
    kept; and the listener ends normally unless a subscriber threw. *)
Theorem session_event_carries_new_handle sdk (sessionState : SessionState) this :
  is_Some (context this) ->
  published (trace (on_native_session_state call sdk sessionState this))
  = [(event_name SESSION_STATE_CHANGED,
      SessionStateChangeEvent sessionState
        (currentSession (final (on_native_session_state call sdk sessionState this))))]
  /\ context (final (on_native_session_state call sdk sessionState this))
     = context this
  /\ (result (on_native_session_state call sdk sessionState this) = Normal tt
      \/ exists x,
           result (on_native_session_state call sdk sessionState this) = Thrown x
           /\ (EventEmitter.emit call (event_name SESSION_STATE_CHANGED)
                 (SessionStateChangeEvent sessionState
                    (currentSession
                       (final (on_native_session_state call sdk sessionState this))))
                 (listeners this)).2 = Some x).
Proof.
  intros [c Hc]. rewrite on_native_session_state_run, Hc. unfold currentSession.
  destruct (started_or_resumed sessionState);
    [|destruct (bool_decide (sessionState = SESSION_ENDED))].
  all: match goal with
       | |- context [emit_after call ?pre ?ty ?d ?s] =>
           destruct (emit_after_facts pre ty d s) as (Hfin & Hpub & _ & Hres)
       end.
  all: rewrite Hfin, Hpub; cbn [session context listeners set_session] in *.
  all: split_and!; [|done|exact Hres].
  - assert (Hcons : forall tr, published (Context_getCurrentSession :: tr)
                               = published tr) by done.
    by rewrite Hcons, published_setupMessageListener.
  - done.
  - done.
Qed.

(** X12: [destroy()] does not take the adapter's two listeners off the
    context, and they fail differently afterwards.  A "started" or
    "resumed" event that arrives after [destroy()] makes the lifecycle
    listener throw a [TypeError] (it dereferences the cleared context)
    before anything is published; any other lifecycle event, and any
    cast-state event, is still published, to no listener, with no
    session. *)
Theorem native_events_after_destroy sdk (sessionState : SessionState)
    (castState : CastState) this :
  on_native_session_state call sdk sessionState (destroy this)
  = (if started_or_resumed sessionState
     then MkRun (Thrown JsTypeError) (destroy this) []
     else MkRun (Normal tt) (destroy this)
            [Emit (event_name SESSION_STATE_CHANGED)
               (SessionStateChangeEvent sessionState None)])
  /\ on_native_cast_state call castState (destroy this)
     = MkRun (Normal tt) (destroy this)
         [Emit (event_name CAST_STATE_CHANGED) (CastStateChangeEvent castState)].
Proof.
  split.
  - rewrite on_native_session_state_run.
    destruct (started_or_resumed sessionState); [done|].
    unfold emit_after. rewrite !emit_run.
    by destruct (bool_decide (sessionState = SESSION_ENDED)).
  - unfold on_native_cast_state. by rewrite emit_run.
Qed.
End NativeEventsMore.

(** ** Sequences of native events, and the commands *)

Section CommandsMore.
Context {Value : Type} (JSON_parse : string -> option Value).
Context (call : FunctionRef -> CastManager.EventData (Value := Value) -> option Exn).
Import CastManager.
Implicit Types (this : CastManager.t) (sdk : Sdk (Value := Value)).
Implicit Types (tr : list (Effect (Value := Value))).

(** The calls into the SDK that one lifecycle event causes on an adapter
    with a context, and the fields the listener leaves. *)
Lemma on_native_session_state_sdk_calls sdk (sessionState : SessionState) this :
  is_Some (context this) ->
  sdk_calls (trace (on_native_session_state call sdk sessionState this))
  = (if started_or_resumed sessionState
     then Context_getCurrentSession
            :: match getCurrentSession sdk with
               | Some s =>
                   [Session_addMessageListener s (Required.namespace (config this))]
               | None => []
               end
     else [])
  /\ config (final (on_native_session_state call sdk sessionState this)) = config this
  /\ context (final (on_native_session_state call sdk sessionState this))
     = context this.
Proof.
  intros [c Hc]. rewrite on_native_session_state_run, Hc.
  destruct (started_or_resumed sessionState);
    [|destruct (bool_decide (sessionState = SESSION_ENDED))].
  all: match goal with
       | |- context [emit_after call ?pre ?ty ?d ?s] =>
           destruct (emit_after_facts call pre ty d s) as (Hfin & _ & Hsdk & _)
       end.
  all: rewrite Hfin, Hsdk; split_and!; try done.
  assert (Hcons : forall tr, sdk_calls (Context_getCurrentSession :: tr)
                             = Context_getCurrentSession :: sdk_calls tr) by done.
  by rewrite Hcons, sdk_calls_setupMessageListener.
Qed.

(** X13: the message listener is installed anew for every "started" and
    every "resumed" event.  On an adapter that holds a context, the calls
    into the SDK caused by a sequence of lifecycle events are, event by
    event: for "started" and "resumed", [getCurrentSession()] followed,
    when there is a current session, by [addMessageListener] on it for
    the configured namespace; for every other state, none.  A session
    that is reported started and then resumed thus gets the listener
    twice. *)
Theorem lifecycle_events_sdk_calls
    (events : list (Sdk (Value := Value) * SessionState)) this :
  is_Some (context this) ->
  sdk_calls (deliver_session_states call events this).2
  = flat_map
      (fun e : Sdk (Value := Value) * SessionState =>
         if started_or_resumed e.2
         then Context_getCurrentSession
                :: match getCurrentSession e.1 with
                   | Some s =>
                       [Session_addMessageListener s
                          (Required.namespace (config this))]
                   | None => []
                   end
         else [])
      events.
Proof.
  unfold deliver_session_states.
  assert (Hgen : forall ns this,
            is_Some (context this) -> Required.namespace (config this) = ns ->
            sdk_calls (fire (map (fun e : Sdk (Value := Value) * SessionState =>
                                    on_native_session_state call e.1 e.2) events)
                         this).2
            = flat_map
                (fun e : Sdk (Value := Value) * SessionState =>
                   if started_or_resumed e.2
                   then Context_getCurrentSession
                          :: match getCurrentSession e.1 with
                             | Some s => [Session_addMessageListener s ns]
                             | None => []
                             end
                   else [])
                events).
  { intros ns. induction events as [|[sdk st] events IH]; intros this' Hctx Hns;
      [done|].
    destruct (on_native_session_state_sdk_calls sdk st this' Hctx)
      as (Hsdk & Hcfg & Hctx').
    cbn [map fire fst snd flat_map]. rewrite sdk_calls_app, Hsdk, Hns.
    f_equal. apply IH.
    - by rewrite Hctx'.
    - by rewrite Hcfg. }
  intros Hctx. by apply Hgen.
Qed.

(** X14: with a session handle held, [sendMessage] makes exactly one
    call, [sendMessage] on that handle with the configured namespace and
    the message; it does not ask the context; it changes no field; and
    when the send is rejected, it reports to the console and is rejected
    with the same value. *)
Theorem sendMessage_with_session sdk (message : Value) this s :
  session this = Some s ->
  sendMessage sdk message this
  = MkRun
      (match sendMessage_rejects sdk s (Required.namespace (config this)) message with
       | Some x => Thrown x
       | None => Normal tt
       end)
      this
      (Session_sendMessage s (Required.namespace (config this)) message
         :: match sendMessage_rejects sdk s (Required.namespace (config this)) message with
            | Some x => [Console_error "Error sending message:" x]
            | None => []
            end).
Proof.
  intros Hs. unfold sendMessage, bind, get, ret, tell, try_catch, foreign.
  cbn [result final trace]. rewrite Hs. cbn [result final trace]. rewrite Hs.
  cbn [result final trace].
  by destruct (sendMessage_rejects sdk s _ message).
Qed.

(** X15: [requestSession] never changes a field.  On an adapter whose
    flag is not set it is rejected with
    [Error("CastManager not initialized. Call initialize() first.")] and
    calls nothing; on an initialized adapter with its context it calls
    the context's [requestSession()] once and is fulfilled, or, when the
    SDK rejects, reports to the console and is rejected with the same
    value. *)
Theorem requestSession_behaviour sdk this :
  final (requestSession sdk this) = this
  /\ (initialized this = false ->
      requestSession sdk this
      = MkRun (Thrown (JsError "CastManager not initialized. Call initialize() first."))
          this [])
  /\ (initialized this = true -> is_Some (context this) ->
      requestSession sdk this
      = MkRun
          (match requestSession_rejects sdk with
           | Some x => Thrown x
           | None => Normal tt
           end)
          this
          (Context_requestSession
             :: match requestSession_rejects sdk with
                | Some x => [Console_error "Failed to request session:" x]
                | None => []
                end)).
Proof.
  unfold requestSession, bind, get, ret, tell, throw, try_catch, foreign.
  cbn [result final trace].
  split_and!.
  - destruct (initialized this); cbn [negb result final trace]; [|done].
    destruct (context this); cbn [result final trace]; [|done].
    by destruct (requestSession_rejects sdk).
  - by intros ->.
  - intros -> [c ->]. cbn [negb result final trace].
    by destruct (requestSession_rejects sdk).
Qed.

(** X16: [endSession] never changes a field; in particular it does not
    release the session handle, which only an "ended" event does.
    Without a session handle it is rejected with
    [Error("No active Cast session")] and calls nothing; with a handle
    and the context it calls the context's [endCurrentSession(true)] once
    and is fulfilled, or, when the SDK rejects, reports to the console
    and is rejected with the same value. *)
Theorem endSession_behaviour sdk this :
  final (endSession sdk this) = this
  /\ (session this = None ->
      endSession sdk this
      = MkRun (Thrown (JsError "No active Cast session")) this [])
  /\ (is_Some (session this) -> is_Some (context this) ->
      endSession sdk this
      = MkRun
          (match endCurrentSession_rejects sdk with
           | Some x => Thrown x
           | None => Normal tt
           end)
          this
          (Context_endCurrentSession true
             :: match endCurrentSession_rejects sdk with
                | Some x => [Console_error "Failed to end session:" x]
                | None => []
                end)).
Proof.
  unfold endSession, bind, get, ret, tell, throw, try_catch, foreign.
  cbn [result final trace].
  split_and!.
  - destruct (session this); cbn [result final trace]; [|done].
    destruct (context this); cbn [result final trace]; [|done].
    by destruct (endCurrentSession_rejects sdk).
  - by intros ->.
  - intros [s ->] [c ->]. cbn [result final trace].
    by destruct (endCurrentSession_rejects sdk).
Qed.

(** X17: what [destroy()] leaves.  No listener is registered under any
    event, so a publish calls nobody; the adapter reports itself as not
    initialized, not connected and without a cast state; the
    configuration is kept; [requestSession] and [endSession] are rejected
    with their precondition errors and call nothing; and a second
    [destroy()] changes nothing more. *)
Theorem destroy_resets sdk this :
  (forall event, EventEmitter.registered event (listeners (destroy this)) = [])
  /\ (forall type d,
        emit call type d (destroy this)
        = MkRun (Normal tt) (destroy this) [Emit (event_name type) d])
  /\ isInitialized (destroy this) = false
  /\ isConnected (destroy this) = false
  /\ castState sdk (destroy this) = None
  /\ config (destroy this) = config this
  /\ requestSession sdk (destroy this)
     = MkRun (Thrown (JsError "CastManager not initialized. Call initialize() first."))
         (destroy this) []
  /\ endSession sdk (destroy this)
     = MkRun (Thrown (JsError "No active Cast session")) (destroy this) []
  /\ destroy (destroy this) = destroy this.
Proof.
  split_and!; done.
Qed.

(** X18: what the message callback does with a payload it can read (a
    non-string payload as it is, a string payload as [JSON.parse] returns
    it): it publishes one [messageReceived] event with the namespace and
    the value; it changes no field; and it always returns normally to the
    SDK — when a subscriber throws, the callback catches that too and
    reports it to the console under "Failed to parse receiver message:",
    the subscribers after the thrower not having been called. *)
Theorem message_callback_contains_listener_errors namespace
    (message : Inbound (Value := Value)) (v : Value) this :
  parsed JSON_parse message = Some v ->
  on_native_message JSON_parse call namespace message this
  = MkRun (Normal tt) this
      (Emit (event_name MESSAGE_RECEIVED) (MessageReceivedEvent namespace v)
         :: map (fun f => Call f (MessageReceivedEvent namespace v))
              (EventEmitter.emit call (event_name MESSAGE_RECEIVED)
                 (MessageReceivedEvent namespace v) (listeners this)).1
         ++ match (EventEmitter.emit call (event_name MESSAGE_RECEIVED)
                     (MessageReceivedEvent namespace v) (listeners this)).2 with
            | Some x => [Console_error "Failed to parse receiver message:" x]
            | None => []
            end).
Proof.
  intros Hparsed.
  assert (Hrun : forall w : Value,
    try_catch
      (bind (ret w) (fun parsedMessage =>
         emit call MESSAGE_RECEIVED (MessageReceivedEvent namespace parsedMessage)))
      (fun error => tell [Console_error "Failed to parse receiver message:" error])
      this
    = MkRun (Normal tt) this
        (Emit (event_name MESSAGE_RECEIVED) (MessageReceivedEvent namespace w)
           :: map (fun f => Call f (MessageReceivedEvent namespace w))
                (EventEmitter.emit call (event_name MESSAGE_RECEIVED)
                   (MessageReceivedEvent namespace w) (listeners this)).1
           ++ match (EventEmitter.emit call (event_name MESSAGE_RECEIVED)
                       (MessageReceivedEvent namespace w) (listeners this)).2 with
              | Some x => [Console_error "Failed to parse receiver message:" x]
              | None => []
              end)).
  { intros w. unfold try_catch, bind, ret. cbn [result final trace app].
    rewrite emit_run. cbn [result final trace].
    destruct (EventEmitter.emit call _ _ _).2; cbn [result final trace tell];
      by rewrite ?app_nil_r. }
  unfold on_native_message. destruct message as [s|w]; cbn [parsed] in Hparsed.
  - rewrite Hparsed. apply Hrun.
  - injection Hparsed as ->. apply Hrun.
Qed.

(** X19: native cast-state events are republished one for one and in
    the order they arrive, each as a [castStateChanged] event with the
    state it carried (no filtering of repeats, no reordering), and they
    change no field of the adapter. *)
Theorem cast_state_events_in_order (states : list CastState) this :
  (deliver_cast_states call states this).1 = this
  /\ published (deliver_cast_states call states this).2
     = map (fun castState =>
              (event_name CAST_STATE_CHANGED, CastStateChangeEvent castState))
           states.
Proof.
  unfold deliver_cast_states, on_native_cast_state.
  induction states as [|castState states [IH1 IH2]]; [done|].
  cbn [map fire fst snd]. rewrite emit_run. cbn [final trace].
  split; [exact IH1|].
  assert (Hcons : forall ev (d : EventData (Value := Value)) tr,
            published (Emit ev d :: tr) = (ev, d) :: published tr) by done.
  by rewrite published_app, IH2, Hcons, published_calls.
Qed.
End CommandsMore.

(** ** Scenarios over several calls *)

Section ScenariosMore.
Context {Value : Type}.
Context (call : FunctionRef -> CastManager.EventData (Value := Value) -> option Exn).
Import CastManager.
Implicit Types (this : CastManager.t) (sdk : Sdk (Value := Value)).

Lemma event_name_inj (type type' : CastEventType) :
  event_name type = event_name type' -> type = type'.
Proof. by destruct type, type'. Qed.

(** X20: from construction to a sent message.  Take an adapter built by
    the constructor from any configuration, on which [initialize()] was
    fulfilled, and to which a "started" event was then delivered while
    the context had session [s].  It is initialized and connected, it
    holds [s], and [sendMessage] makes one call into the SDK only:
    [sendMessage] on [s] with the message and the configured namespace,
    which is ["urn:x-cast:com.custom"] when the configuration names
    none. *)
Theorem send_after_session_started (c : CastManagerConfig) (browser : Browser)
    sdk0 sdk1 sdk2 (s : CastSession) (message : Value) :
  result (initialize call browser sdk0 (constructor c)) = Normal tt ->
  getCurrentSession sdk1 = Some s ->
  isInitialized
    (final (on_native_session_state call sdk1 SESSION_STARTED
              (final (initialize call browser sdk0 (constructor c))))) = true
  /\ isConnected
       (final (on_native_session_state call sdk1 SESSION_STARTED
                 (final (initialize call browser sdk0 (constructor c))))) = true
  /\ currentSession
       (final (on_native_session_state call sdk1 SESSION_STARTED
                 (final (initialize call browser sdk0 (constructor c))))) = Some s
  /\ sdk_calls
       (trace
          (sendMessage sdk2 message
             (final (on_native_session_state call sdk1 SESSION_STARTED
                       (final (initialize call browser sdk0 (constructor c)))))))
     = [Session_sendMessage s (default "urn:x-cast:com.custom" (namespace c)) message].
Proof.
  intros Hinit Hs.
  rewrite (initialize_fulfilled call browser sdk0 (constructor c) eq_refl tt Hinit).
  rewrite on_native_session_state_final by by eexists.
  rewrite Hs.
  split_and!; [done|done|done|].
  unfold sendMessage, bind, get, ret, tell, try_catch, foreign.
  cbn [result final trace session set_session set_initialized set_context config
       constructor Required.namespace].
  by destruct (sendMessage_rejects sdk2 s _ message).
Qed.

(** X21: the typed subscription methods keep the three kinds of event
    apart.  A listener subscribed for one kind ([onCastStateChanged],
    [onSessionStateChanged] or [onMessageReceived]) is registered under
    that kind's event name and is not called when another kind is
    published, unless it was subscribed for that kind as well; the typed
    [off...] removes it again. *)
Theorem typed_channels_do_not_cross (type type' : CastEventType) (f : FunctionRef)
    (d : EventData (Value := Value)) this :
  type ≠ type' ->
  f ∉ EventEmitter.registered (event_name type') (listeners this) ->
  f ∈ EventEmitter.registered (event_name type) (listeners (on type f this))
  /\ (Call f d ∉ trace (emit call type' d (on type f this)))
  /\ (f ∉ EventEmitter.registered (event_name type)
            (listeners (off type f (on type f this)))).
Proof.
  intros Hne Hf. unfold on, off. cbn [listeners set_listeners].
  split_and!.
  - rewrite registered_on. apply elem_of_add_list. by left.
  - rewrite emit_run. cbn [trace listeners set_listeners].
    intros Hin. apply elem_of_cons in Hin as [Hin|Hin]; [discriminate|].
    apply list_elem_of_fmap in Hin as (g & [= <-] & Hg).
    apply emit_calls_registered in Hg.
    rewrite registered_on_ne in Hg; [done|].
    intros Heq. by apply Hne, event_name_inj.
  - rewrite registered_off, elem_of_delete_list. by intros [? _].
Qed.
End ScenariosMore.

(** ** The singleton after [destroy] *)

(** X22: after [destroy()] on the stored singleton, [getInstance] with a
    configuration constructs a new adapter: its reference differs from
    the destroyed one's, its fields are those the constructor gives, and
    the destroyed object stays as [destroy] left it. *)
Theorem getInstance_after_destroy (c : CastManagerConfig) (p : Program.t)
    (r : Program.ObjRef) :
  Program.instance p = Some r ->
  is_Some (Program.heap p !! r) ->
  exists r' p',
    Program.getInstance (Some c) (Program.destroy r p) = (Normal r', p')
    /\ r' ≠ r
    /\ Program.instance p' = Some r'
    /\ Program.heap p' !! r' = Some (CastManager.constructor c)
    /\ Program.heap p' !! r = CastManager.destroy <$> Program.heap p !! r.
Proof.
  intros Hinst [a Ha].
  unfold Program.getInstance, Program.destroy. cbn [Program.instance].
  rewrite decide_True by done. unfold Program.new.
  cbn [Program.heap Program.instance Program.auto_initializing].
  set (r' := fresh (dom (alter CastManager.destroy r (Program.heap p)))).
  assert (Hfresh : alter CastManager.destroy r (Program.heap p) !! r' = None).
  { apply not_elem_of_dom, is_fresh. }
  assert (Hne : r' ≠ r).
  { intros Heq. rewrite Heq, lookup_alter_eq, Ha in Hfresh. discriminate. }
  eexists r', _. split_and!; [reflexivity|done|done| |].
  - cbn [Program.heap]. apply lookup_insert_eq.
  - cbn [Program.heap]. rewrite lookup_insert_ne by done. apply lookup_alter_eq.
Qed.

(** ** The further properties on explicit inputs *)

Lemma loadCastFramework_outcomes_witness :
  CastManager.loadCastFramework (Value := nat) Sample2.browser_offline Sample.adapter_new
  = CastManager.MkRun (Thrown (JsError "Failed to load Cast SDK")) Sample.adapter_new
      [CastManager.AppendScript CastManager.script_src].
Proof.
  apply (loadCastFramework_outcomes (Value := nat) Sample2.browser_offline
           Sample.adapter_new); reflexivity.
Defined.

Lemma initialize_sets_flag_iff_fulfilled_witness :
  CastManager.result
    (CastManager.initialize Sample.call_returns Sample2.browser_stalled Sample.sdk_idle
       Sample.adapter_new) = Suspended
  /\ CastManager.initialized
       (CastManager.final
          (CastManager.initialize Sample.call_returns Sample2.browser_stalled
             Sample.sdk_idle Sample.adapter_new)) <> true.
Proof.
  pose proof (initialize_sets_flag_iff_fulfilled Sample.call_returns
                Sample2.browser_stalled Sample.sdk_idle Sample.adapter_new eq_refl)
    as (_ & H1 & H2 & _).
  assert (Hs : CastManager.result
                 (CastManager.initialize Sample.call_returns Sample2.browser_stalled
                    Sample.sdk_idle Sample.adapter_new) = Suspended).
  { apply H1. split_and!; reflexivity. }
  split; [exact Hs|].
  intros Hflag. apply H2 in Hflag. rewrite Hs in Hflag. discriminate Hflag.
Defined.

Lemma initialize_fulfilled_effects_witness :
  sdk_calls
    (CastManager.trace
       (CastManager.initialize Sample.call_returns Sample.browser_slow
          Sample.sdk_casting Sample.adapter_new))
  = [CastManager.CastContext_getInstance;
     CastManager.Context_setOptions "ABCD1234";
     CastManager.Context_getCurrentSession;
     CastManager.Context_getCastState;
     CastManager.Context_addEventListener Native_CAST_STATE_CHANGED;
     CastManager.Context_addEventListener Native_SESSION_STATE_CHANGED;
     CastManager.Session_addMessageListener 7 "urn:x-cast:com.custom"].
Proof.
  apply (initialize_fulfilled_effects Sample.call_returns Sample.browser_slow
           Sample.sdk_casting Sample.adapter_new); reflexivity.
Defined.

Lemma initialize_rejected_by_listener_witness :
  CastManager.result
    (CastManager.initialize Sample.call_1_throws Sample.browser_ready Sample.sdk_idle
       Sample2.adapter_with_thrower) = Thrown (Foreign 0)
  /\ CastManager.initialized
       (CastManager.final
          (CastManager.initialize Sample.call_1_throws Sample.browser_ready
             Sample.sdk_idle Sample2.adapter_with_thrower)) = false.
Proof.
  pose proof (initialize_rejected_by_listener Sample.call_1_throws
                Sample.browser_ready Sample.sdk_idle Sample2.adapter_with_thrower
                (Foreign 0) eq_refl eq_refl) as H.
  destruct H as (H1 & _ & H3 & _); [by vm_compute|]. by split.
Defined.

Lemma session_event_carries_new_handle_witness :
  CastManager.published
    (CastManager.trace
       (CastManager.on_native_session_state Sample.call_returns Sample.sdk_casting
          SESSION_RESUMED Sample.adapter_initialized))
  = [(event_name SESSION_STATE_CHANGED,
      CastManager.SessionStateChangeEvent SESSION_RESUMED
        (CastManager.currentSession
           (CastManager.final
              (CastManager.on_native_session_state Sample.call_returns
                 Sample.sdk_casting SESSION_RESUMED Sample.adapter_initialized))))].
Proof.
  apply (session_event_carries_new_handle Sample.call_returns Sample.sdk_casting
           SESSION_RESUMED Sample.adapter_initialized).
  by eexists.
Defined.

Lemma lifecycle_events_sdk_calls_witness :
  sdk_calls
    (CastManager.deliver_session_states Sample.call_returns
       [(Sample.sdk_casting, SESSION_STARTED); (Sample.sdk_casting, SESSION_RESUMED);
        (Sample.sdk_idle, SESSION_ENDED)]
       Sample.adapter_initialized).2
  = [CastManager.Context_getCurrentSession;
     CastManager.Session_addMessageListener 7 "urn:x-cast:com.custom";
     CastManager.Context_getCurrentSession;
     CastManager.Session_addMessageListener 7 "urn:x-cast:com.custom"].
Proof.
  rewrite (lifecycle_events_sdk_calls Sample.call_returns
             [(Sample.sdk_casting, SESSION_STARTED);
              (Sample.sdk_casting, SESSION_RESUMED);
              (Sample.sdk_idle, SESSION_ENDED)]
             Sample.adapter_initialized) by by eexists.
  reflexivity.
Defined.

Lemma sendMessage_with_session_witness :
  CastManager.sendMessage Sample2.sdk_failing 0 Sample.adapter_joined
  = CastManager.MkRun (Thrown (Foreign 2)) Sample.adapter_joined
      [CastManager.Session_sendMessage 7 "urn:x-cast:com.custom" 0;
       CastManager.Console_error "Error sending message:" (Foreign 2)].
Proof.
  apply (sendMessage_with_session Sample2.sdk_failing 0 Sample.adapter_joined 7).
  reflexivity.
Defined.

Lemma requestSession_behaviour_witness :
  CastManager.requestSession Sample.sdk_idle Sample.adapter_new
  = CastManager.MkRun
      (Thrown (JsError "CastManager not initialized. Call initialize() first."))
      Sample.adapter_new []
  /\ CastManager.requestSession Sample2.sdk_failing Sample.adapter_initialized
     = CastManager.MkRun (Thrown (Foreign 3)) Sample.adapter_initialized
         [CastManager.Context_requestSession;
          CastManager.Console_error "Failed to request session:" (Foreign 3)].
Proof.
  split.
  - apply (requestSession_behaviour Sample.sdk_idle Sample.adapter_new). reflexivity.
  - apply (requestSession_behaviour Sample2.sdk_failing Sample.adapter_initialized);
      [reflexivity|by eexists].
Defined.

Lemma endSession_behaviour_witness :
  CastManager.endSession Sample.sdk_idle Sample.adapter_initialized
  = CastManager.MkRun (Thrown (JsError "No active Cast session"))
      Sample.adapter_initialized []
  /\ CastManager.endSession Sample.sdk_casting Sample.adapter_joined
     = CastManager.MkRun (Normal tt) Sample.adapter_joined
         [CastManager.Context_endCurrentSession true].
Proof.
  split.
  - apply (endSession_behaviour Sample.sdk_idle Sample.adapter_initialized).
    reflexivity.
  - apply (endSession_behaviour Sample.sdk_casting Sample.adapter_joined);
      by eexists.
Defined.

Lemma message_callback_contains_listener_errors_witness :
  CastManager.on_native_message Sample.parse_digit Sample.call_1_throws
    "urn:x-cast:com.custom" (CastManager.InString "4")
    Sample2.adapter_with_message_listeners
  = CastManager.MkRun (Normal tt) Sample2.adapter_with_message_listeners
      [CastManager.Emit "messageReceived"
         (CastManager.MessageReceivedEvent "urn:x-cast:com.custom" 4);
       CastManager.Call 0 (CastManager.MessageReceivedEvent "urn:x-cast:com.custom" 4);
       CastManager.Call 1 (CastManager.MessageReceivedEvent "urn:x-cast:com.custom" 4);
       CastManager.Console_error "Failed to parse receiver message:" (Foreign 0)].
Proof.
  rewrite (message_callback_contains_listener_errors Sample.parse_digit
             Sample.call_1_throws "urn:x-cast:com.custom"
             (CastManager.InString "4") 4 Sample2.adapter_with_message_listeners
             eq_refl).
  by vm_compute.
Defined.

Lemma send_after_session_started_witness :
  sdk_calls
    (CastManager.trace
       (CastManager.sendMessage Sample2.sdk_failing 5
          (CastManager.final
             (CastManager.on_native_session_state Sample.call_returns
                Sample.sdk_casting SESSION_STARTED
                (CastManager.final
                   (CastManager.initialize Sample.call_returns Sample.browser_slow
                      Sample.sdk_idle
                      (CastManager.constructor Sample.config_ABCD1234)))))))
  = [CastManager.Session_sendMessage 7 "urn:x-cast:com.custom" 5].
Proof.
  apply (send_after_session_started Sample.call_returns Sample.config_ABCD1234
           Sample.browser_slow Sample.sdk_idle Sample.sdk_casting Sample2.sdk_failing
           7 5); reflexivity.
Defined.

Lemma typed_channels_do_not_cross_witness :
  CastManager.Call 3 (CastManager.CastStateChangeEvent CONNECTED)
  ∉ CastManager.trace
      (CastManager.emit Sample.call_returns CAST_STATE_CHANGED
         (CastManager.CastStateChangeEvent (Value := nat) CONNECTED)
         (CastManager.on MESSAGE_RECEIVED 3 Sample2.adapter_with_message_listeners)).
Proof.
  apply (typed_channels_do_not_cross Sample.call_returns MESSAGE_RECEIVED
           CAST_STATE_CHANGED 3 (CastManager.CastStateChangeEvent CONNECTED)
           Sample2.adapter_with_message_listeners).
  - discriminate.
  - replace (EventEmitter.registered (event_name CAST_STATE_CHANGED)
               (CastManager.listeners Sample2.adapter_with_message_listeners))
      with (@nil FunctionRef) by by vm_compute.
    not_in_list.
Defined.

Lemma getInstance_after_destroy_witness :
  exists r' p',
    Program.getInstance (Some Sample.config_ABCD1234)
      (Program.destroy 0
         (Program.getInstance (Some Sample.config_ABCD1234) Program.start).2)
    = (Normal r', p')
    /\ r' ≠ 0.
Proof.
  destruct (getInstance_after_destroy Sample.config_ABCD1234
              (Program.getInstance (Some Sample.config_ABCD1234) Program.start).2 0)
    as (r' & p' & Hget & Hne & _).
  - reflexivity.
  - by eexists.
  - by exists r', p'.
Defined.

(** * The Angular service *)

Section ServiceFacts.
Context {Value : Type} (JSON_parse : string -> option Value).
Implicit Types (this : CastService.t (Value := Value)).
Implicit Types (sdk : CastManager.Sdk (Value := Value)).
Implicit Types (tr : list (CastManager.Effect (Value := Value))).

Lemma listeners_called_app tr1 tr2 this :
  CastService.listeners_called (tr1 ++ tr2) this
  = CastService.listeners_called tr2 (CastService.listeners_called tr1 this).
Proof.
  revert this. induction tr1 as [|e tr1 IH]; intros this; [done|].
  destruct e; cbn [app CastService.listeners_called]; apply IH.
Qed.

Lemma listeners_called_delays n this :
  CastService.listeners_called
    (replicate n (CastManager.SetTimeout (Value := Value) 100)) this = this.
Proof. induction n as [|n IH]; [done|]. exact IH. Qed.

Lemma listeners_called_loadCastFramework browser manager this :
  CastService.listeners_called
    (CastManager.trace (CastManager.loadCastFramework (Value := Value) browser manager))
    this = this.
Proof.
  rewrite loadCastFramework_cases.
  destruct (framework_present browser); [done|].
  destruct (script_loads browser); [|done].
  destruct (api_available browser); [|done].
  cbn [negb CastManager.trace].
  destruct (waitForCastFramework_run (Value := Value) browser manager)
    as (n & _ & _ & _ & ->).
  cbn [CastManager.trace CastService.listeners_called].
  apply listeners_called_delays.
Qed.

Lemma listeners_called_setupMessageListener sdk manager this :
  CastService.listeners_called (setupMessageListener_effects sdk manager) this = this.
Proof.
  unfold setupMessageListener_effects.
  destruct (CastManager.session manager) as [s|]; [|done].
  by destruct (CastManager.addMessageListener_throws sdk s _).
Qed.

Lemma listeners_called_castManager tr this :
  CastService.castManager (CastService.listeners_called tr this)
  = CastService.castManager this
  /\ CastService.initialized (CastService.listeners_called tr this)
     = CastService.initialized this
  /\ CastService.isInitializedSubject (CastService.listeners_called tr this)
     = CastService.isInitializedSubject this.
Proof.
  revert this. induction tr as [|e tr IH]; intros this; [done|].
  destruct e; cbn [CastService.listeners_called]; try apply IH.
  destruct (IH (CastService.listener_called listener data this)) as (-> & -> & ->).
  unfold CastService.listener_called.
  destruct data; case_decide; done.
Qed.

(** With listeners that return, a publish calls all the registered ones. *)
Lemma service_emit event (d : CastManager.EventData (Value := Value))
    (listeners : EventEmitter.t) :
  EventEmitter.emit CastService.call event d listeners
  = (EventEmitter.registered event listeners, None).
Proof. rewrite emit_registered. by apply forEach_list_all. Qed.

Lemma new_manager_registered (config : CastManagerConfig) :
  EventEmitter.registered (event_name CAST_STATE_CHANGED)
    (CastManager.listeners (CastService.new_manager config))
  = [CastService.cast_state_listener]
  /\ EventEmitter.registered (event_name SESSION_STATE_CHANGED)
       (CastManager.listeners (CastService.new_manager config))
     = [CastService.session_state_listener]
  /\ EventEmitter.registered (event_name MESSAGE_RECEIVED)
       (CastManager.listeners (CastService.new_manager config))
     = [CastService.message_listener].
Proof. split_and!; by vm_compute. Qed.

(** The run of [initialize()] of the [CastManager] that the service has
    just constructed. *)
Lemma service_manager_initialize (config : CastManagerConfig) browser sdk :
  CastManager.initialize CastService.call browser sdk (CastService.new_manager config)
  = match CastManager.result
            (CastManager.loadCastFramework (Value := Value) browser
               (CastService.new_manager config)) with
    | Normal _ =>
        CastManager.MkRun (Normal tt)
          (CastManager.set_initialized true
             (CastManager.set_session (CastManager.getCurrentSession sdk)
                (CastManager.set_context (Some castContext)
                   (CastService.new_manager config))))
          (CastManager.trace
             (CastManager.loadCastFramework (Value := Value) browser
                (CastService.new_manager config))
           ++ [CastManager.CastContext_getInstance;
               CastManager.Context_setOptions (receiverApplicationId config);
               CastManager.Context_getCurrentSession;
               CastManager.Context_getCastState;
               CastManager.Emit (event_name CAST_STATE_CHANGED)
                 (CastManager.CastStateChangeEvent (CastManager.getCastState sdk));
               CastManager.Call CastService.cast_state_listener
                 (CastManager.CastStateChangeEvent (CastManager.getCastState sdk));
               CastManager.Context_addEventListener Native_CAST_STATE_CHANGED;
               CastManager.Context_addEventListener Native_SESSION_STATE_CHANGED]
           ++ setupMessageListener_effects sdk
                (CastManager.set_session (CastManager.getCurrentSession sdk)
                   (CastManager.set_context (Some castContext)
                      (CastService.new_manager config))))
    | Thrown x =>
        CastManager.MkRun (Thrown x) (CastService.new_manager config)
          (CastManager.trace
             (CastManager.loadCastFramework (Value := Value) browser
                (CastService.new_manager config)))
    | Suspended =>
        CastManager.MkRun Suspended (CastService.new_manager config)
          (CastManager.trace
             (CastManager.loadCastFramework (Value := Value) browser
                (CastService.new_manager config)))
    | OutOfFuel =>
        CastManager.MkRun OutOfFuel (CastService.new_manager config)
          (CastManager.trace
             (CastManager.loadCastFramework (Value := Value) browser
                (CastService.new_manager config)))
    end.
Proof.
  rewrite (initialize_run CastService.call browser sdk
             (CastService.new_manager config) eq_refl).
  destruct (CastManager.result (CastManager.loadCastFramework browser _));
    [|done|done|done].
  rewrite service_emit.
  destruct (new_manager_registered config) as (-> & _ & _).
  cbn [fst snd map]. f_equal.
Qed.
End ServiceFacts.

Section ServiceClaims.
Context {Value : Type} (JSON_parse : string -> option Value).
Implicit Types (this : CastService.t (Value := Value)).
Implicit Types (sdk : CastManager.Sdk (Value := Value)).
Implicit Types (tr : list (CastManager.Effect (Value := Value))).

(** How [initialize(config)] of the service ends and the fields it
    leaves, on a service whose flag is not set. *)
Lemma service_initialize_run (config : CastManagerConfig) browser sdk this :
  CastService.initialized this = false ->
  (CastService.initialize config browser sdk this).1
  = match CastManager.result
            (CastManager.loadCastFramework (Value := Value) browser
               (CastService.new_manager config)) with
    | Normal _ =>
        (Normal tt,
         CastService.on_isConnectedSubject
           (CastService.next
              (bool_decide (is_Some (CastManager.getCurrentSession sdk))))
           (CastService.on_castStateSubject
              (CastService.next (Some (CastManager.getCastState sdk)))
              (CastService.on_isInitializedSubject (CastService.next true)
                 (CastService.set_initialized true
                    (CastService.on_castStateSubject
                       (CastService.next (Some (CastManager.getCastState sdk)))
                       (CastService.set_castManager
                          (Some
                             (CastManager.set_initialized true
                                (CastManager.set_session
                                   (CastManager.getCurrentSession sdk)
                                   (CastManager.set_context (Some castContext)
                                      (CastService.new_manager config)))))
                          this))))))
    | Thrown x =>
        (Thrown x,
         CastService.set_castManager (Some (CastService.new_manager config)) this)
    | Suspended =>
        (Suspended,
         CastService.set_castManager (Some (CastService.new_manager config)) this)
    | OutOfFuel =>
        (OutOfFuel,
         CastService.set_castManager (Some (CastService.new_manager config)) this)
    end.
Proof.
  intros Hinit. unfold CastService.initialize. rewrite Hinit.
  unfold CastService.with_manager. rewrite service_manager_initialize.
  pose proof (listeners_called_loadCastFramework (Value := Value) browser
                (CastService.new_manager config)) as Hload.
  destruct (CastManager.result (CastManager.loadCastFramework browser _));
    cbn [CastManager.result CastManager.final CastManager.trace fst snd].
  - rewrite !listeners_called_app, Hload, listeners_called_setupMessageListener.
    cbn [CastService.listeners_called CastService.listener_called].
    rewrite decide_True by done. reflexivity.
  - by rewrite Hload.
  - by rewrite Hload.
  - by rewrite Hload.
Qed.

Lemma service_initialize_guard (config : CastManagerConfig) browser sdk this :
  CastService.initialized this = true ->
  CastService.initialize config browser sdk this
  = (Normal tt, this, [CastService.Console_warn "CastService already initialized"]).
Proof. intros Hinit. unfold CastService.initialize. by rewrite Hinit. Qed.

Lemma ngOnDestroy_initialized this :
  CastService.initialized (CastService.ngOnDestroy this)
  = CastService.initialized this.
Proof.
  unfold CastService.ngOnDestroy.
  by destruct (CastService.castManager this).
Qed.

(** X23: a fulfilled [initialize(config)] on a service whose flag is not
    set leaves the flag set and the streams in step with the SDK: the
    [isInitialized] value is [true], the [castState] value is the state
    the context reports, the [isConnected] value says whether the context
    had a current session; the [sessionState] and [lastMessage] values
    are untouched.  The service's [CastManager] is built from the
    configuration's receiver application id and namespace (never
    auto-initializing), is initialized, and has the service's three
    listeners registered. *)
Theorem service_initialize_fulfilled (config : CastManagerConfig) (browser : Browser)
    sdk this :
  CastService.initialized this = false ->
  (CastService.initialize config browser sdk this).1.1 = Normal tt ->
  CastService.initialized (CastService.initialize config browser sdk this).1.2 = true
  /\ CastService.isInitialized (CastService.initialize config browser sdk this).1.2
     = true
  /\ CastService.castState (CastService.initialize config browser sdk this).1.2
     = Some (CastManager.getCastState sdk)
  /\ CastService.isConnected (CastService.initialize config browser sdk this).1.2
     = bool_decide (is_Some (CastManager.getCurrentSession sdk))
  /\ CastService.sessionState (CastService.initialize config browser sdk this).1.2
     = CastService.sessionState this
  /\ CastService.lastMessage (CastService.initialize config browser sdk this).1.2
     = CastService.lastMessage this
  /\ CastService.getCastManager (CastService.initialize config browser sdk this).1.2
     = Some
         (CastManager.set_initialized true
            (CastManager.set_session (CastManager.getCurrentSession sdk)
               (CastManager.set_context (Some castContext)
                  (CastService.new_manager config))))
  /\ wired (CastService.initialize config browser sdk this).1.2.
Proof.
  intros Hinit. rewrite (service_initialize_run config browser sdk this Hinit).
  destruct (CastManager.result (CastManager.loadCastFramework browser _));
    cbn [fst snd]; try discriminate.
  intros _. split_and!; done.
Qed.

(** X24: the service is initialized at most once.  After a fulfilled
    [initialize], every later [initialize], with whatever configuration,
    only warns on the console: it is fulfilled, constructs nothing, calls
    nothing and changes no field.  [ngOnDestroy] does not reset the flag,
    so this holds after [ngOnDestroy] as well. *)
Theorem service_initialize_once (config config' : CastManagerConfig)
    (browser browser' : Browser) sdk sdk' this :
  CastService.initialized this = false ->
  (CastService.initialize config browser sdk this).1.1 = Normal tt ->
  CastService.initialize config' browser' sdk'
    (CastService.initialize config browser sdk this).1.2
  = (Normal tt, (CastService.initialize config browser sdk this).1.2,
     [CastService.Console_warn "CastService already initialized"])
  /\ CastService.initialize config' browser' sdk'
       (CastService.ngOnDestroy (CastService.initialize config browser sdk this).1.2)
     = (Normal tt,
        CastService.ngOnDestroy (CastService.initialize config browser sdk this).1.2,
        [CastService.Console_warn "CastService already initialized"]).
Proof.
  intros Hinit Hres.
  assert (Hflag : CastService.initialized
                    (CastService.initialize config browser sdk this).1.2 = true).
  { revert Hres. rewrite (service_initialize_run config browser sdk this Hinit).
    destruct (CastManager.result (CastManager.loadCastFramework browser _));
      cbn [fst snd]; by try discriminate. }
  split.
  - by apply service_initialize_guard.
  - apply service_initialize_guard. by rewrite ngOnDestroy_initialized.
Qed.

(** X25: the guard of the service's commands is the presence of a
    [CastManager], not the flag.  On a service that never ran
    [initialize], [sendMessage], [requestSession] and [endSession] fail
    with [Error("CastService not initialized. Call initialize() first.")],
    call nothing and change nothing.  After an [initialize] that was not
    fulfilled, the flag is still unset and the [isInitialized] value is
    what it was, but the service keeps the [CastManager] it constructed, so
    [requestSession] gets as far as that manager and fails with the
    manager's [Error("CastManager not initialized. Call initialize() first.")]. *)
Theorem service_commands_guard (config : CastManagerConfig) (browser : Browser)
    sdk sdk' (message : Value) this :
  (CastService.castManager this = None ->
   CastService.sendMessage sdk' message this
   = (Thrown CastService.not_initialized, this, [])
   /\ CastService.requestSession sdk' this
      = (Thrown CastService.not_initialized, this, [])
   /\ CastService.endSession sdk' this
      = (Thrown CastService.not_initialized, this, []))
  /\ (CastService.initialized this = false ->
      (CastService.initialize config browser sdk this).1.1 ≠ Normal tt ->
      CastService.initialized (CastService.initialize config browser sdk this).1.2
      = false
      /\ CastService.isInitialized (CastService.initialize config browser sdk this).1.2
         = CastService.isInitialized this
      /\ CastService.getCastManager
           (CastService.initialize config browser sdk this).1.2
         = Some (CastService.new_manager config)
      /\ (CastService.requestSession sdk'
            (CastService.initialize config browser sdk this).1.2).1.1
         = Thrown (JsError "CastManager not initialized. Call initialize() first.")).
Proof.
  split.
  - intros Hnone.
    unfold CastService.sendMessage, CastService.requestSession,
      CastService.endSession.
    by rewrite Hnone.
  - intros Hinit. rewrite (service_initialize_run config browser sdk this Hinit).
    destruct (CastManager.result (CastManager.loadCastFramework browser _))
      as [[]| | |]; cbn [fst snd]; [done| | |]; intros _; by split_and!.
Qed.
End ServiceClaims.

Section ServiceEvents.
Context {Value : Type} (JSON_parse : string -> option Value).
Implicit Types (this : CastService.t (Value := Value)).
Implicit Types (sdk : CastManager.Sdk (Value := Value)).
Implicit Types (tr : list (CastManager.Effect (Value := Value))).

(** The complete run of the message callback. *)
Lemma on_native_message_eq
    (call : FunctionRef -> CastManager.EventData (Value := Value) -> option Exn)
    namespace (message : CastManager.Inbound (Value := Value))
    (manager : CastManager.t) :
  CastManager.on_native_message JSON_parse call namespace message manager
  = CastManager.MkRun (Normal tt) manager
      match CastManager.parsed JSON_parse message with
      | Some v =>
          CastManager.Emit (event_name MESSAGE_RECEIVED)
            (CastManager.MessageReceivedEvent namespace v)
            :: map (fun f => CastManager.Call f
                               (CastManager.MessageReceivedEvent namespace v))
                 (EventEmitter.emit call (event_name MESSAGE_RECEIVED)
                    (CastManager.MessageReceivedEvent namespace v)
                    (CastManager.listeners manager)).1
            ++ match (EventEmitter.emit call (event_name MESSAGE_RECEIVED)
                        (CastManager.MessageReceivedEvent namespace v)
                        (CastManager.listeners manager)).2 with
               | Some x =>
                   [CastManager.Console_error "Failed to parse receiver message:" x]
               | None => []
               end
      | None =>
          [CastManager.Console_error "Failed to parse receiver message:" JsSyntaxError]
      end.
Proof.
  assert (Hrun : forall w : Value,
    CastManager.try_catch
      (CastManager.bind (CastManager.ret w) (fun parsedMessage =>
         CastManager.emit call MESSAGE_RECEIVED
           (CastManager.MessageReceivedEvent namespace parsedMessage)))
      (fun error =>
         CastManager.tell
           [CastManager.Console_error "Failed to parse receiver message:" error])
      manager
    = CastManager.MkRun (Normal tt) manager
        (CastManager.Emit (event_name MESSAGE_RECEIVED)
           (CastManager.MessageReceivedEvent namespace w)
           :: map (fun f => CastManager.Call f
                              (CastManager.MessageReceivedEvent namespace w))
                (EventEmitter.emit call (event_name MESSAGE_RECEIVED)
                   (CastManager.MessageReceivedEvent namespace w)
                   (CastManager.listeners manager)).1
           ++ match (EventEmitter.emit call (event_name MESSAGE_RECEIVED)
                       (CastManager.MessageReceivedEvent namespace w)
                       (CastManager.listeners manager)).2 with
              | Some x =>
                  [CastManager.Console_error "Failed to parse receiver message:" x]
              | None => []
              end)).
  { intros w. unfold CastManager.try_catch, CastManager.bind, CastManager.ret.
    cbn [CastManager.result CastManager.final CastManager.trace app].
    rewrite emit_run. cbn [CastManager.result CastManager.final CastManager.trace].
    destruct (EventEmitter.emit call _ _ _).2;
      cbn [CastManager.result CastManager.final CastManager.trace CastManager.tell];
      by rewrite ?app_nil_r. }
  unfold CastManager.on_native_message.
  destruct message as [s|w]; cbn [CastManager.parsed].
  - destruct (JSON_parse s) as [v|]; [apply Hrun|done].
  - apply Hrun.
Qed.

Lemma set_castManager_same this manager :
  CastService.castManager this = Some manager ->
  CastService.set_castManager (Some manager) this = this.
Proof. destruct this. cbn. by intros ->. Qed.

(** One native event on a wired service. *)
Lemma deliver_one_wired (event : CastService.Native (Value := Value)) this :
  wired this ->
  wired (CastService.deliver_one JSON_parse event this)
  /\ CastService.castState (CastService.deliver_one JSON_parse event this)
     = match event with
       | CastService.NativeCastState castState => Some castState
       | _ => CastService.castState this
       end
  /\ CastService.sessionState (CastService.deliver_one JSON_parse event this)
     = match event with
       | CastService.NativeSessionState _ sessionState => Some sessionState
       | _ => CastService.sessionState this
       end
  /\ CastService.lastMessage (CastService.deliver_one JSON_parse event this)
     = match event with
       | CastService.NativeMessage _ message =>
           from_option Some (CastService.lastMessage this)
             (CastManager.parsed JSON_parse message)
       | _ => CastService.lastMessage this
       end
  /\ match event with
     | CastService.NativeSessionState _ _ =>
         CastService.isConnected (CastService.deliver_one JSON_parse event this)
         = manager_connected (CastService.deliver_one JSON_parse event this)
     | _ =>
         CastService.isConnected (CastService.deliver_one JSON_parse event this)
         = CastService.isConnected this
         /\ manager_connected (CastService.deliver_one JSON_parse event this)
            = manager_connected this
     end.
Proof.
  unfold wired, manager_connected, CastService.deliver_one.
  destruct this as [[manager|] init cs ss ic ii lm]; cbn [CastService.castManager];
    [|done].
  intros ([c Hctx] & Hcast & Hsession & Hmessage).
  unfold CastService.with_manager. cbn [fst snd].
  destruct event as [castState|sdk sessionState|namespace message].
  - unfold CastManager.on_native_cast_state. rewrite emit_run, service_emit.
    cbn [CastManager.final CastManager.trace fst snd map]. rewrite Hcast.
    cbn [map CastService.listeners_called CastService.listener_called].
    rewrite decide_True by done.
    cbn. split_and!; by try eexists.
  - rewrite on_native_session_state_run, Hctx.
    destruct (started_or_resumed sessionState);
      [|destruct (bool_decide (sessionState = SESSION_ENDED))].
    all: unfold emit_after; rewrite emit_run, service_emit;
      cbn [CastManager.listeners CastManager.set_session];
      rewrite Hsession;
      cbn [CastManager.result CastManager.final CastManager.trace fst snd map];
      rewrite ?app_nil_l;
      cbn [CastService.listeners_called];
      rewrite ?listeners_called_app, ?listeners_called_setupMessageListener;
      cbn [CastService.listeners_called CastService.listener_called app];
      rewrite ?listeners_called_app, ?listeners_called_setupMessageListener;
      cbn [CastService.listeners_called CastService.listener_called app];
      rewrite decide_True by done;
      cbn; split_and!; by try eexists.
  - rewrite on_native_message_eq.
    cbn [CastManager.result CastManager.final CastManager.trace].
    destruct (CastManager.parsed JSON_parse message) as [v|].
    + rewrite service_emit. cbn [fst snd]. rewrite Hmessage.
      cbn [fst snd map app CastService.listeners_called CastService.listener_called].
      rewrite decide_True by done.
      cbn. split_and!; by try eexists.
    + cbn. split_and!; by try eexists.
Qed.
End ServiceEvents.

Section ServiceStreams.
Context {Value : Type} (JSON_parse : string -> option Value).
Implicit Types (this : CastService.t (Value := Value)).
Implicit Types (sdk : CastManager.Sdk (Value := Value)).
Implicit Types (events : list (CastService.Native (Value := Value))).

Lemma deliver_snoc events (event : CastService.Native (Value := Value)) this :
  CastService.deliver JSON_parse (events ++ [event]) this
  = CastService.deliver_one JSON_parse event
      (CastService.deliver JSON_parse events this).
Proof. unfold CastService.deliver. by rewrite fold_left_app. Qed.

(** X26: the streams of a wired service (one whose [CastManager] holds a
    context and has exactly the service's three listeners registered, as
    a fulfilled [initialize] leaves it) follow the native events.  After
    any sequence of events the service is still wired; the [castState]
    value is the last cast state reported, the [sessionState] value the
    last lifecycle state reported, the [lastMessage] value the last
    message that could be read (an unreadable one changes nothing); each
    is the value before if no such event came.  The [isConnected] value
    agrees with the manager's [isConnected] once a lifecycle event has
    come, or throughout if it agreed at first. *)
Theorem service_streams_follow_events events this :
  wired this ->
  wired (CastService.deliver JSON_parse events this)
  /\ CastService.castState (CastService.deliver JSON_parse events this)
     = from_option Some (CastService.castState this) (last (cast_states_of events))
  /\ CastService.sessionState (CastService.deliver JSON_parse events this)
     = from_option Some (CastService.sessionState this)
         (last (session_states_of events))
  /\ CastService.lastMessage (CastService.deliver JSON_parse events this)
     = from_option Some (CastService.lastMessage this)
         (last (messages_of JSON_parse events))
  /\ (CastService.isConnected this = manager_connected this
      \/ session_states_of events <> [] ->
      CastService.isConnected (CastService.deliver JSON_parse events this)
      = manager_connected (CastService.deliver JSON_parse events this)).
Proof.
  intros Hwired. induction events as [|event events IH] using rev_ind.
  { cbn. split_and!; try done. by intros [?|?]. }
  destruct IH as (Hw & Hcast & Hsession & Hmessage & Hconnected).
  rewrite deliver_snoc.
  destruct (deliver_one_wired JSON_parse event _ Hw)
    as (Hw' & Hcast' & Hsession' & Hmessage' & Hconnected').
  unfold cast_states_of, session_states_of, messages_of in *.
  rewrite !omap_app, !last_app. cbn [omap option_bind].
  split; [done|].
  rewrite Hcast', Hsession', Hmessage'.
  destruct event as [castState|sdk sessionState|namespace message]; cbn.
  - rewrite !app_nil_r in *. destruct Hconnected' as [-> ->]. by split_and!.
  - split_and!; done.
  - destruct Hconnected' as [-> ->].
    destruct (CastManager.parsed JSON_parse message) as [v|]; cbn;
      rewrite ?app_nil_r in *; by split_and!.
Qed.

Lemma deliver_one_destroyed (event : CastService.Native (Value := Value)) this :
  CastService.deliver_one JSON_parse event (CastService.ngOnDestroy this)
  = CastService.ngOnDestroy this.
Proof.
  unfold CastService.deliver_one, CastService.ngOnDestroy.
  destruct this as [[manager|] init cs ss ic ii lm]; [|done].
  cbn [CastService.castManager CastService.set_castManager
       CastService.on_castStateSubject CastService.on_sessionStateSubject
       CastService.on_isConnectedSubject CastService.on_isInitializedSubject
       CastService.on_lastMessageSubject].
  unfold CastService.with_manager. cbn [fst snd].
  destruct event as [castState|sdk sessionState|namespace message].
  - unfold CastManager.on_native_cast_state. by rewrite emit_run, service_emit.
  - rewrite on_native_session_state_run.
    cbn [CastManager.destroy CastManager.context].
    destruct (started_or_resumed sessionState);
      [done|destruct (bool_decide (sessionState = SESSION_ENDED))].
    all: unfold emit_after; by rewrite emit_run, service_emit.
  - rewrite on_native_message_eq.
    destruct (CastManager.parsed JSON_parse message) as [v|]; [|done].
    by rewrite service_emit.
Qed.

(** X27: [ngOnDestroy()] completes the five subjects and destroys the
    service's [CastManager], but keeps the reference to it and keeps the
    current value of every stream.  From then on no native event changes
    anything in the service, and [sendMessage] and [requestSession] fail
    with the errors of the destroyed manager (not with the service's own
    "not initialized" error), calling nothing. *)
Theorem ngOnDestroy_behaviour sdk (message : Value) events this :
  (CastService.isStopped (CastService.castStateSubject (CastService.ngOnDestroy this))
   = true
   /\ CastService.isStopped
        (CastService.sessionStateSubject (CastService.ngOnDestroy this)) = true
   /\ CastService.isStopped
        (CastService.isConnectedSubject (CastService.ngOnDestroy this)) = true
   /\ CastService.isStopped
        (CastService.isInitializedSubject (CastService.ngOnDestroy this)) = true
   /\ CastService.isStopped
        (CastService.lastMessageSubject (CastService.ngOnDestroy this)) = true)
  /\ (CastService.castState (CastService.ngOnDestroy this)
      = CastService.castState this
      /\ CastService.sessionState (CastService.ngOnDestroy this)
         = CastService.sessionState this
      /\ CastService.isConnected (CastService.ngOnDestroy this)
         = CastService.isConnected this
      /\ CastService.isInitialized (CastService.ngOnDestroy this)
         = CastService.isInitialized this
      /\ CastService.lastMessage (CastService.ngOnDestroy this)
         = CastService.lastMessage this)
  /\ CastService.getCastManager (CastService.ngOnDestroy this)
     = CastManager.destroy <$> CastService.getCastManager this
  /\ CastService.deliver JSON_parse events (CastService.ngOnDestroy this)
     = CastService.ngOnDestroy this
  /\ (is_Some (CastService.getCastManager this) ->
      CastService.sendMessage sdk message (CastService.ngOnDestroy this)
      = (Thrown (JsError "No Cast session available"),
         CastService.ngOnDestroy this, [])
      /\ CastService.requestSession sdk (CastService.ngOnDestroy this)
         = (Thrown (JsError "CastManager not initialized. Call initialize() first."),
            CastService.ngOnDestroy this, [])).
Proof.
  split_and!.
  1-11: by destruct this as [[manager|] init cs ss ic ii lm].
  - induction events as [|event events IH] using rev_ind; [done|].
    by rewrite deliver_snoc, IH, deliver_one_destroyed.
  - intros [manager Hm]. revert Hm.
    destruct this as [[manager'|] init cs ss ic ii lm]; [|done]. intros _.
    split; reflexivity.
Qed.
End ServiceStreams.

Lemma service_initialize_fulfilled_witness :
  CastService.initialized Sample3.service_ready = true
  /\ CastService.isInitialized Sample3.service_ready = true
  /\ CastService.castState Sample3.service_ready = Some CONNECTED
  /\ CastService.isConnected Sample3.service_ready = true
  /\ CastService.sessionState Sample3.service_ready = None
  /\ CastService.lastMessage Sample3.service_ready = None.
Proof.
  destruct (service_initialize_fulfilled Sample.config_ABCD1234 Sample.browser_ready
              Sample.sdk_casting CastService.create)
    as (H1 & H2 & H3 & H4 & H5 & H6 & _); [reflexivity|by vm_compute|].
  unfold Sample3.service_ready. split_and!.
  exact H1. exact H2. exact H3. exact H4. exact H5. exact H6.
Defined.

Lemma service_initialize_once_witness :
  CastService.initialize Sample.config_ABCD1234 Sample2.browser_offline
    Sample2.sdk_failing Sample3.service_ready
  = (Normal tt, Sample3.service_ready,
     [CastService.Console_warn "CastService already initialized"]).
Proof.
  apply (service_initialize_once Sample.config_ABCD1234 Sample.config_ABCD1234
           Sample.browser_ready Sample2.browser_offline
           Sample.sdk_casting Sample2.sdk_failing CastService.create);
    [reflexivity|by vm_compute].
Defined.

Lemma service_streams_follow_events_witness :
  CastService.castState
    (CastService.deliver Sample.parse_digit Sample3.events Sample3.service_ready)
  = Some CONNECTING
  /\ CastService.sessionState
       (CastService.deliver Sample.parse_digit Sample3.events Sample3.service_ready)
     = Some SESSION_ENDED
  /\ CastService.lastMessage
       (CastService.deliver Sample.parse_digit Sample3.events Sample3.service_ready)
     = Some 5
  /\ CastService.isConnected
       (CastService.deliver Sample.parse_digit Sample3.events Sample3.service_ready)
     = false.
Proof.
  destruct (service_streams_follow_events Sample.parse_digit Sample3.events
              Sample3.service_ready)
    as (_ & H1 & H2 & H3 & H4).
  - vm_compute. split_and!; [by eexists|reflexivity..].
  - rewrite H1, H2, H3, H4.
    + vm_compute. split_and!; reflexivity.
    + left. vm_compute. reflexivity.
Defined.

(** * The emitter with listeners that act on it *)

Section LiveEmitter.
Context {Data World : Type}.
Context (emitter : World -> Live.t).
Context (call : FunctionRef -> Data -> World -> World * option Exn).

(** [add] and [delete] keep the values of a Set distinct. *)
Lemma values_app (l1 l2 : Live.SetData) :
  Live.values (l1 ++ l2) = Live.values l1 ++ Live.values l2.
Proof. unfold Live.values. by rewrite omap_app. Qed.

Lemma elem_of_values f (entries : Live.SetData) :
  f ∈ Live.values entries <-> Some f ∈ entries.
Proof.
  unfold Live.values. rewrite list_elem_of_omap. split.
  - by intros ([g|] & Hin & [= ->]).
  - intros Hin. by exists (Some f).
Qed.

Lemma Set_add_NoDup f (entries : Live.SetData) :
  NoDup (Live.values entries) -> NoDup (Live.values (Live.Set_add f entries)).
Proof.
  intros Hnd. unfold Live.Set_add. destruct (decide (Some f ∈ entries)); [done|].
  rewrite values_app. apply NoDup_app. split_and!; [done| |by apply NoDup_singleton].
  intros g Hg [->|[]%elem_of_nil]%elem_of_cons. by apply elem_of_values in Hg.
Qed.

Lemma Set_delete_NoDup f (entries : Live.SetData) :
  NoDup (Live.values entries) -> NoDup (Live.values (Live.Set_delete f entries)).
Proof.
  unfold Live.Set_delete, Live.values.
  induction entries as [|[g|] entries IH]; cbn; [done| |done].
  intros [Hg Hnd]%NoDup_cons.
  assert (Hsub : forall h, h ∈ omap id ((fun e => if decide (e = Some f) then None else e)
                                          <$> entries) -> h ∈ omap id entries).
  { intros h. rewrite !list_elem_of_omap.
    intros (e & (e' & -> & He')%list_elem_of_fmap & Heq).
    exists e'. split; [done|]. by destruct (decide (e' = Some f)). }
  destruct (decide (Some g = Some f)); cbn; [by apply IH|].
  apply NoDup_cons. split; [|by apply IH]. intros Hin. by apply Hg, Hsub.
Qed.


(** With listeners that leave the state alone, the iteration is the
    [forEach] of [JsSet]. *)
Lemma Set_forEach_quiet (table : FunctionRef -> Data -> option Exn) r
    (entries : Live.SetData) (d : Data) :
  (forall g w', call g d w' = (w', table g d)) ->
  forall fuel index w,
    Live.sets (emitter w) !! r = Some entries ->
    length entries - index < fuel ->
    Live.Set_forEach emitter call fuel r d index w
    = (match (JsSet.forEach_list (fun f => table f d)
                (Live.values (drop index entries))).2 with
       | Some x => Thrown x
       | None => Normal tt
       end,
       (JsSet.forEach_list (fun f => table f d)
          (Live.values (drop index entries))).1,
       w).
Proof.
  intros Hquiet fuel. induction fuel as [|fuel IH]; intros index w Hw Hfuel.
  { lia. }
  cbn [Live.Set_forEach]. rewrite Hw. cbn [mbind option_bind].
  destruct (entries !! index) as [[f|]|] eqn:Hentry;
    [pose proof (lookup_lt_Some _ _ _ Hentry) as Hlt..|].
  - rewrite (drop_S _ _ _ Hentry), Hquiet. cbn.
    destruct (table f d) as [x|]; [done|].
    rewrite (IH (S index) w Hw) by lia. done.
  - rewrite (drop_S _ _ _ Hentry). cbn. apply IH; [done|lia].
  - apply lookup_ge_None in Hentry. by rewrite drop_ge.
Qed.


End LiveEmitter.

(** Without that premise the listeners called are not the registered
    ones: listener 0 unsubscribes listener 1 and subscribes listener 3
    while it is called, and the publish calls 0, 2 and 3. *)
Lemma emit_follows_changes_of_the_set :
  Live.registered "e" Sample4.emitter_0_1_2 = [0; 1; 2]
  /\ (Live.emit (fun w => w) Sample4.call_0_rewires 10 "e" tt Sample4.emitter_0_1_2).1
     = (Normal tt, [0; 2; 3]).
Proof. split; by vm_compute. Qed.

